(** * Interview scheduling of CortexHR: availability, conflict check, scheduler

    A shallow embedding of the interview-scheduling logic:
    - the schedule dialog (the [ScheduleInterviewDialog] component): slot
      grid, conflict check, first-available selection, the auto-select
      effect and the [scheduleInterview] mutation;
    - the [schedule-interview] edge function;
    - the [google-calendar] edge function;
    - the [auto-process-application] edge function with its helpers, and
      the [send-offer-letter] edge function.

    Conventions.  A JavaScript number that may be [NaN] is an [option Z]
    ([None] is [NaN]); a [Date] is a [JsDate], whose time value is a number of
    milliseconds since the epoch, taken in [Z]; a date computed by adding a
    duration is invalid beyond the range of [Date] ([timeClip]), while
    [setHours] on the last day of that range is not modelled; a value that
    may be [undefined] or [null] is an [option]. *)

From Stdlib Require Import ZArith List String Ascii Bool Lia.
From Stdlib Require DecimalString.
From Stdlib.Strings Require Byte.
From stdpp Require Import base option list strings gmap.

Import ListNotations.
Local Open Scope string_scope.
Local Open Scope Z_scope.

(** ** JavaScript primitives *)

Module Js.

(** Truthiness of a string: only the empty string is falsy. *)
Definition truthy (s : string) : bool :=
  match s with EmptyString => false | String _ _ => true end.

(** Truthiness of a possibly absent string. *)
Definition truthy_opt (o : option string) : bool :=
  match o with Some s => truthy s | None => false end.

(** Truthiness of a possibly absent number: [undefined], [null] and [0] are
    falsy. *)
Definition truthy_num (o : option Z) : bool :=
  match o with Some n => negb (n =? 0) | None => false end.

(** [a || b] on possibly absent strings. *)
Definition or_str (a : option string) (b : option string) : option string :=
  if truthy_opt a then a else b.

Definition code (c : ascii) : Z := Z.of_nat (nat_of_ascii c).

Definition decDigit (c : ascii) : option Z :=
  let n := code c in
  if (48 <=? n) && (n <=? 57) then Some (n - 48) else None.

Definition hexDigit (c : ascii) : option Z :=
  let n := code c in
  if (48 <=? n) && (n <=? 57) then Some (n - 48)
  else if (97 <=? n) && (n <=? 102) then Some (n - 87)
  else if (65 <=? n) && (n <=? 70) then Some (n - 55)
  else None.

(** White space skipped by [parseInt]: TAB, LF, VT, FF, CR and SPACE. *)
Definition isWhite (c : ascii) : bool :=
  let n := code c in ((9 <=? n) && (n <=? 13)) || (n =? 32).

Fixpoint skipWhite (s : string) : string :=
  match s with
  | String c s' => if isWhite c then skipWhite s' else s
  | EmptyString => s
  end.

(** The longest prefix of digits in the given radix, read as a number;
    [acc] is [None] until the first digit has been seen. *)
Fixpoint digitsPrefix (digit : ascii -> option Z) (radix : Z)
    (acc : option Z) (s : string) : option Z :=
  match s with
  | EmptyString => acc
  | String c s' =>
      match digit c with
      | Some d => digitsPrefix digit radix (Some (default 0 acc * radix + d)) s'
      | None => acc
      end
  end.

(** [parseInt(s)] without a radix argument: leading white space, an optional
    sign, an optional [0x] prefix, then the longest run of digits; [NaN] when
    there is no digit. *)
Definition parseInt (s : string) : option Z :=
  let s1 := skipWhite s in
  let '(sign, s2) :=
    match s1 with
    | String "-" r => (-1, r)
    | String "+" r => (1, r)
    | _ => (1, s1)
    end in
  let magnitude :=
    match s2 with
    | String "0" (String "x" r) | String "0" (String "X" r) =>
        digitsPrefix hexDigit 16 None r
    | _ => digitsPrefix decDigit 10 None s2
    end in
  (fun m => sign * m) <$> magnitude.

(** Every character is a decimal digit. *)
Fixpoint allDigits (s : string) : bool :=
  match s with
  | EmptyString => true
  | String c s' =>
      match decDigit c with Some _ => allDigits s' | None => false end
  end.

(** [Number(s)] on the strings this program converts: the empty string is
    [0], a run of decimal digits is its value.  Any other string is taken as
    [NaN]; the full numeric-literal grammar (sign, fraction, exponent, radix
    prefix, surrounding white space) is not modelled. *)
Definition Number (s : string) : option Z :=
  match s with
  | EmptyString => Some 0
  | _ => if allDigits s then digitsPrefix decDigit 10 None s else None
  end.

(** [s.split(sep)] for a one-character separator. *)
Fixpoint split (sep : ascii) (s : string) : list string :=
  match s with
  | EmptyString => [EmptyString]
  | String c s' =>
      if Ascii.eqb c sep then EmptyString :: split sep s'
      else match split sep s' with
           | w :: ws => String c w :: ws
           | [] => [String c EmptyString]
           end
  end.

(** Element [i] of an array of numbers; reading past the end gives
    [undefined], which converts to [NaN]. *)
Definition at_num (l : list (option Z)) (i : nat) : option Z :=
  mjoin (l !! i).

End Js.

(** ** Dates *)

Inductive JsDate : Type :=
| InvalidDate
| TimeValue (t : Z).

Definition msPerMinute : Z := 60000.
Definition msPerHour : Z := 3600000.
Definition msPerDay : Z := 86400000.

(** date-fns [isBefore] and [isAfter]: comparisons of the time values, false
    as soon as one side is invalid. *)
Definition isBefore (d c : JsDate) : bool :=
  match d, c with
  | TimeValue x, TimeValue y => x <? y
  | _, _ => false
  end.

Definition isAfter (d c : JsDate) : bool :=
  match d, c with
  | TimeValue x, TimeValue y => x >? y
  | _, _ => false
  end.

(** The largest time value of a [Date], 8.64e15 milliseconds on either side
    of the epoch. *)
Definition maxTime : Z := 8640000000000000.

Definition representable (t : Z) : Prop := - maxTime <= t <= maxTime.

(** [new Date(t)] for a number [t]: beyond the range there is no date. *)
Definition timeClip (t : Z) : JsDate :=
  if (- maxTime <=? t) && (t <=? maxTime) then TimeValue t else InvalidDate.
Arguments timeClip : simpl never.

(** date-fns [addMinutes]: a new date at the time value plus the minutes. *)
Definition addMinutes (d : JsDate) (amount : option Z) : JsDate :=
  match d, amount with
  | TimeValue t, Some n => timeClip (t + n * msPerMinute)
  | _, _ => InvalidDate
  end.

(** [d.setHours(h, m, s, ms)] on a copy of [d], in a local time zone that is
    [tz] milliseconds ahead of UTC all day long. *)
Definition setHours (tz : Z) (d : JsDate) (h m s ms : option Z) : JsDate :=
  match d, h, m, s, ms with
  | TimeValue t, Some h, Some m, Some s, Some ms =>
      let day := (t + tz) / msPerDay in
      TimeValue (day * msPerDay + h * msPerHour + m * msPerMinute
                 + s * 1000 + ms - tz)
  | _, _, _, _, _ => InvalidDate
  end.

(** ** The schedule dialog: state *)

Record Candidate : Type := { full_name : string; email : string }.
Record Job : Type := { title : string }.
Record Application : Type :=
  { app_id : string; candidate : Candidate; job : Job }.

(** A busy period as the calendar function reports it: two ISO strings. *)
Record BusySlot : Type := { start : string; end_ : string }.

(** The [useState] cells of [ScheduleInterviewDialog], and the data of its
    [schedulable-applications] query ([None] while it is undefined). *)
Record DialogState : Type := {
  open : bool;
  selectedApplication : string;
  selectedDate : option JsDate;
  selectedTime : string;
  duration : string;
  interviewType : string;
  createMeetLink : bool;
  busySlots : list BusySlot;
  loadingBusy : bool;
  calendarConnected : bool;
  checkingCalendar : bool;
  applications : option (list Application)
}.

Definition initialState : DialogState :=
  {| open := false; selectedApplication := ""; selectedDate := None;
     selectedTime := ""; duration := "60"; interviewType := "Technical";
     createMeetLink := true; busySlots := []; loadingBusy := false;
     calendarConnected := false; checkingCalendar := true;
     applications := None |}.

Definition setSelectedTime (v : string) (st : DialogState) : DialogState :=
  {| open := open st; selectedApplication := selectedApplication st;
     selectedDate := selectedDate st; selectedTime := v;
     duration := duration st; interviewType := interviewType st;
     createMeetLink := createMeetLink st; busySlots := busySlots st;
     loadingBusy := loadingBusy st; calendarConnected := calendarConnected st;
     checkingCalendar := checkingCalendar st;
     applications := applications st |}.

Definition setSelectedDate (v : option JsDate) (st : DialogState)
    : DialogState :=
  {| open := open st; selectedApplication := selectedApplication st;
     selectedDate := v; selectedTime := selectedTime st;
     duration := duration st; interviewType := interviewType st;
     createMeetLink := createMeetLink st; busySlots := busySlots st;
     loadingBusy := loadingBusy st; calendarConnected := calendarConnected st;
     checkingCalendar := checkingCalendar st;
     applications := applications st |}.

(** [onSelect] of the calendar: the date is set and the time cleared. *)
Definition onSelectDate (date : option JsDate) (st : DialogState)
    : DialogState :=
  setSelectedTime "" (setSelectedDate date st).

Definition setBusySlots (v : list BusySlot) (st : DialogState) : DialogState :=
  {| open := open st; selectedApplication := selectedApplication st;
     selectedDate := selectedDate st; selectedTime := selectedTime st;
     duration := duration st; interviewType := interviewType st;
     createMeetLink := createMeetLink st; busySlots := v;
     loadingBusy := loadingBusy st; calendarConnected := calendarConnected st;
     checkingCalendar := checkingCalendar st;
     applications := applications st |}.

Definition setLoadingBusy (v : bool) (st : DialogState) : DialogState :=
  {| open := open st; selectedApplication := selectedApplication st;
     selectedDate := selectedDate st; selectedTime := selectedTime st;
     duration := duration st; interviewType := interviewType st;
     createMeetLink := createMeetLink st; busySlots := busySlots st;
     loadingBusy := v; calendarConnected := calendarConnected st;
     checkingCalendar := checkingCalendar st;
     applications := applications st |}.

Definition setCalendarConnected (v : bool) (st : DialogState) : DialogState :=
  {| open := open st; selectedApplication := selectedApplication st;
     selectedDate := selectedDate st; selectedTime := selectedTime st;
     duration := duration st; interviewType := interviewType st;
     createMeetLink := createMeetLink st; busySlots := busySlots st;
     loadingBusy := loadingBusy st; calendarConnected := v;
     checkingCalendar := checkingCalendar st;
     applications := applications st |}.


(** ** Slot grid, conflict check, first available slot *)

Definition timeSlots : list string :=
  [ "09:00"; "09:30"; "10:00"; "10:30"; "11:00"; "11:30";
    "12:00"; "12:30"; "13:00"; "13:30"; "14:00"; "14:30";
    "15:00"; "15:30"; "16:00"; "16:30"; "17:00" ].

Section Availability.

(** The offset of the browser's time zone, and date-fns [parseISO]. *)
Variable tz : Z.
Variable parseISO : string -> JsDate.

(** [const [hours, minutes] = time.split(':').map(Number)] followed by
    [new Date(date)] and [setHours(hours, minutes, 0, 0)]. *)
Definition atTimeOfDay (date : JsDate) (time : string) : JsDate :=
  let parts := map Js.Number (Js.split ":" time) in
  let hours := Js.at_num parts 0 in
  let minutes := Js.at_num parts 1 in
  setHours tz date hours minutes (Some 0) (Some 0).

Definition overlaps (slotStart slotEnd : JsDate) (busy : BusySlot) : bool :=
  let busyStart := parseISO (start busy) in
  let busyEnd := parseISO (end_ busy) in
  isBefore slotStart busyEnd && isAfter slotEnd busyStart.

Definition isSlotBusy (st : DialogState) (timeSlot : string) : bool :=
  match selectedDate st with
  | None => false
  | Some date =>
      if (length (busySlots st) =? 0)%nat then false
      else
        let slotStart := atTimeOfDay date timeSlot in
        let slotEnd := addMinutes slotStart (Js.parseInt (duration st)) in
        existsb (overlaps slotStart slotEnd) (busySlots st)
  end.

(** The loop of [findFirstAvailable] over a list of slots. *)
Fixpoint firstFree (st : DialogState) (slots : list string) : option string :=
  match slots with
  | [] => None
  | slot :: rest =>
      if negb (isSlotBusy st slot) then Some slot else firstFree st rest
  end.

Definition findFirstAvailable (st : DialogState) : option string :=
  firstFree st timeSlots.

(** The body of the auto-select effect, on the state of the render it
    belongs to. *)
Definition autoSelect (st : DialogState) : DialogState :=
  if bool_decide (is_Some (selectedDate st)) && negb (loadingBusy st) then
    match findFirstAvailable st with
    | Some firstAvailable =>
        if Js.truthy firstAvailable && negb (Js.truthy (selectedTime st))
        then setSelectedTime firstAvailable st
        else st
    | None => st
    end
  else st.

(** The effects of the commit that follows a change of the date, on the
    state [st] of that render.  The fetch effect, when the calendar is
    connected, starts [fetchBusySlots], whose first statement is
    [setLoadingBusy(true)]; the auto-select effect runs in the same commit
    and reads the [loadingBusy] of [st].  Both updates are in the state of
    the next render. *)
Definition dateEffects (st : DialogState) : DialogState :=
  let fetching :=
    bool_decide (is_Some (selectedDate st)) && calendarConnected st in
  let selected := autoSelect st in
  if fetching then setLoadingBusy true selected else selected.

(** The options of the time [Select]: every slot with its [disabled] flag. *)
Definition timeOptions (st : DialogState) : list (string * bool) :=
  map (fun time => (time, isSlotBusy st time)) timeSlots.

End Availability.

(** ** Reading the grid *)

(** Two-digit rendering of a number below 100, and the label of the slot
    [i] half hours after 09:00. *)
Definition twoDigits (n : Z) : string :=
  String (ascii_of_nat (Z.to_nat (48 + n / 10)))
    (String (ascii_of_nat (Z.to_nat (48 + n mod 10))) EmptyString).

Definition slotMinutes (i : nat) : Z := 9 * 60 + 30 * Z.of_nat i.

Definition slotLabel (i : nat) : string :=
  String.append (twoDigits (slotMinutes i / 60))
    (String.append ":" (twoDigits (slotMinutes i mod 60))).

(** The minutes after midnight a slot label stands for, read the way the
    dialog reads it. *)
Definition minutesOfDay (time : string) : option Z :=
  let parts := map Js.Number (Js.split ":" time) in
  h ← Js.at_num parts 0; m ← Js.at_num parts 1; Some (h * 60 + m).

(** Local midnight of the day of [t], as a time value. *)
Definition dayBase (tz t : Z) : Z := (t + tz) / msPerDay * msPerDay - tz.

(** Some period of the list holds the instant [t]. *)
Definition busyAt (parseISO : string -> JsDate) (busy : list BusySlot)
    (t : Z) : Prop :=
  exists b b0 b1, b ∈ busy /\ parseISO (start b) = TimeValue b0 /\
                  parseISO (end_ b) = TimeValue b1 /\ b0 <= t < b1.

(** The busy periods cover the business day of [t0]: every instant from
    09:00 up to 17:00 is in some busy period. *)
Definition coversBusinessDay (tz : Z) (parseISO : string -> JsDate)
    (busy : list BusySlot) (t0 : Z) : Prop :=
  forall t, dayBase tz t0 + 540 * msPerMinute <= t <
            dayBase tz t0 + 1020 * msPerMinute ->
            busyAt parseISO busy t.

(** The busy periods reach past the start of the last slot: every instant
    from 09:00 to 17:00, 17:00 included, is in some busy period. *)
Definition busyThroughLastSlot (tz : Z) (parseISO : string -> JsDate)
    (busy : list BusySlot) (t0 : Z) : Prop :=
  forall t, dayBase tz t0 + 540 * msPerMinute <= t <=
            dayBase tz t0 + 1020 * msPerMinute ->
            busyAt parseISO busy t.

(** ** Effects: the database, the outbound calls, thrown values *)

(** A thrown or returned error value: whether it is an [Error] instance, and
    its [message]. *)
Record JsError : Type := { isError : bool; message : string }.

(** A row of [public.interviews]; the columns the functions never write
    ([notes], [created_by], the two time stamps) are left out.  [row_id]
    stands for the generated [id], [row_status] for [status]. *)
Record InterviewRow : Type := {
  row_id : nat;
  application_id : string;
  scheduled_at : string;
  duration_minutes : Z;
  interview_type : string;
  meeting_url : option string;
  meeting_id : option string;
  row_status : string
}.

(** The object given to [insert] on [interviews]. *)
Record InterviewInsert : Type := {
  ins_application_id : string;
  ins_scheduled_at : string;
  ins_duration_minutes : Z;
  ins_interview_type : string;
  ins_meeting_url : option string;
  ins_meeting_id : option string;
  ins_status : string
}.

(** A row of [hr_google_tokens], its expiry already read as a date. *)
Record TokenRow : Type := {
  access_token : string;
  refresh_token : string;
  token_expiry : JsDate
}.

Inductive ToastKind : Type := ToastSuccess | ToastError.

(** What leaves the program: requests to other services, and toasts. *)
Inductive Call : Type :=
| TeamsTokenRequest
| TeamsMeetingRequest (startDateTime endDateTime : string)
| InsertInterview (p : InterviewInsert)
| UpdateApplicationStatus (id newStatus : string)
| SendEmail (to : option string)
| SlackNotify
| GoogleTokenRefresh
| GoogleCalendarList
| GoogleFreeBusy (timeMin timeMax : string)
| GoogleCreateEvent (startTime endTime : string) (createMeet : bool)
| Toast (kind : ToastKind) (text : string).

(** The mutable world: three tables, the supply of fresh row ids, and the
    calls issued so far, oldest first. *)
Record World : Type := {
  applicationsTable : gmap string string;
  interviewsTable : list InterviewRow;
  googleTokens : gmap string TokenRow;
  nextId : nat;
  outbox : list Call
}.

Definition emit (c : Call) (w : World) : World :=
  {| applicationsTable := applicationsTable w;
     interviewsTable := interviewsTable w;
     googleTokens := googleTokens w;
     nextId := nextId w;
     outbox := outbox w ++ [c] |}.

Definition withApplications (t : gmap string string) (w : World) : World :=
  {| applicationsTable := t;
     interviewsTable := interviewsTable w;
     googleTokens := googleTokens w;
     nextId := nextId w;
     outbox := outbox w |}.

Definition withGoogleTokens (t : gmap string TokenRow) (w : World) : World :=
  {| applicationsTable := applicationsTable w;
     interviewsTable := interviewsTable w;
     googleTokens := t;
     nextId := nextId w;
     outbox := outbox w |}.

Definition appendInterview (r : InterviewRow) (w : World) : World :=
  {| applicationsTable := applicationsTable w;
     interviewsTable := interviewsTable w ++ [r];
     googleTokens := googleTokens w;
     nextId := S (nextId w);
     outbox := outbox w |}.

(** The world after some more calls. *)
Definition emitAll (cs : list Call) (w : World) : World :=
  {| applicationsTable := applicationsTable w;
     interviewsTable := interviewsTable w;
     googleTokens := googleTokens w;
     nextId := nextId w;
     outbox := outbox w ++ cs |}.

(** The calls that follow the insertion of the interview: the status update
    and the two notifications. *)
Definition isDownstream (c : Call) : bool :=
  match c with
  | UpdateApplicationStatus _ _ | SendEmail _ | SlackNotify => true
  | _ => false
  end.

(** The outcome of a [fetch] followed by the [ok] test of its response. *)
Inductive Fetched (A : Type) : Type :=
| FetchThrows (e : JsError)
| FetchNotOk
| FetchOk (a : A).
Arguments FetchThrows {A} e.
Arguments FetchNotOk {A}.
Arguments FetchOk {A} a.

(** The outcome of [supabase.functions.invoke] as far as its caller looks at
    it: it comes back, or it throws. *)
Inductive Invoked : Type :=
| InvokeReturns
| InvokeThrows (e : JsError).

(** How a call of the browser reaches an edge function. *)
Inductive Transport : Type :=
| Delivered
| TransportError (e : JsError)
| TransportThrows (e : JsError).

(** Everything the functions get from outside: environment variables, the
    answers of the remote services, and the failures of the database that do
    not follow from the tables themselves. *)
Record Services : Type := {
  (* schedule-interview *)
  msConfigured : bool;
  teamsToken : Fetched unit;
  teamsMeeting : Fetched (option string * option string);
  insertFault : InterviewInsert -> option JsError;
  foreignKeyViolation : JsError;
  updateFault : option JsError;
  sendEmail : Invoked;
  slackNotify : Invoked;
  (* google-calendar *)
  googleClientId : bool;
  googleClientSecret : bool;
  getUser : string -> option string;
  now : Z;
  tokenRefresh : Fetched string;
  calendarList : Fetched unit;
  freeBusy : Fetched (list BusySlot);
  createEvent : Fetched (option string * option string * option string);
  (* browser *)
  transport : string -> Transport;
  sessionToken : string
}.

(** Computations that read and change the world and may throw. *)
Inductive Outcome (A : Type) : Type :=
| Returned (a : A)
| Thrown (e : JsError).
Arguments Returned {A} a.
Arguments Thrown {A} e.

Definition M (A : Type) : Type := World -> Outcome A * World.

#[export] Instance M_ret : MRet M := fun A a w => (Returned a, w).

#[export] Instance M_bind : MBind M := fun A B f m w =>
  match m w with
  | (Returned a, w') => f a w'
  | (Thrown e, w') => (Thrown e, w')
  end.

Definition throw {A : Type} (e : JsError) : M A := fun w => (Thrown e, w).

(** [try { body } catch (e) { handler e }]. *)
Definition tryCatch {A : Type} (body : M A) (handler : JsError -> M A) : M A :=
  fun w =>
    match body w with
    | (Returned a, w') => (Returned a, w')
    | (Thrown e, w') => handler e w'
    end.

(** A primitive step, given by what it returns and how it changes the
    world. *)
Definition step {A : Type} (f : World -> Outcome A * World) : M A := f.

Definition call (c : Call) : M unit := fun w => (Returned tt, emit c w).

Definition getWorld : M World := fun w => (Returned w, w).

(** An awaited [fetch]: the request leaves, then the answer comes or the
    promise rejects. *)
Definition fetch {A : Type} (c : Call) (answer : Fetched A) : M (option A) :=
  call c;;
  match answer with
  | FetchThrows e => throw e
  | FetchNotOk => mret None
  | FetchOk a => mret (Some a)
  end.

Definition newError (text : string) : JsError :=
  {| isError := true; message := text |}.

(** [error instanceof Error ? error.message : 'Unknown error']. *)
Definition errorMessage (e : JsError) : string :=
  if isError e then message e else "Unknown error".

(** ** HTTP answers of the edge functions *)

Inductive Body : Type :=
| NoBody
| ErrorBody (error : string) (code : option string)
| Scheduled (interview : InterviewRow) (meetingUrl : option string)
    (text : string)
| Connection (connected configured : bool)
| BusyBody (busy : list BusySlot)
| EventBody (eventId htmlLink meetLink : option string).

Record Response : Type := { status : Z; body : Body }.

Definition json (code : Z) (b : Body) : Response :=
  {| status := code; body := b |}.

(** A number read from a JSON body: the key may be missing, or hold [null]. *)
Inductive JsonNumber : Type :=
| Absent
| JsonNull
| JsonNum (n : Z).

(** [ToNumber]: [undefined] is [NaN], [null] is [0]. *)
Definition toNumber (v : JsonNumber) : option Z :=
  match v with Absent => None | JsonNull => Some 0 | JsonNum n => Some n end.

(** [v || fallback]. *)
Definition numberOr (v : JsonNumber) (fallback : Z) : Z :=
  match v with
  | JsonNum n => if n =? 0 then fallback else n
  | _ => fallback
  end.

(** [d.toISOString()], which throws a [RangeError] on an invalid date;
    [toISOString] is the conversion of a valid time value. *)
Definition isoString (toISOString : Z -> string) (d : JsDate) : M string :=
  match d with
  | TimeValue t => mret (toISOString t)
  | InvalidDate => throw (newError "Invalid time value")
  end.

(** [await supabase.functions.invoke(...)] inside a function: the request
    leaves, then the call comes back or throws. *)
Definition invokeFunction (c : Call) (r : Invoked) : M unit :=
  call c;;
  match r with
  | InvokeReturns => mret tt
  | InvokeThrows e => throw e
  end.

(** *** The schedule-interview function *)

Module ScheduleInterview.

Section Runtime.

(** [Date.prototype.toISOString] on a valid time value, and the [Date]
    constructor on a string. *)
Variable toISOString : Z -> string.
Variable dateOfString : string -> JsDate.

Record Request : Type := {
  method : string;
  applicationId : option string;
  scheduledAt : option string;
  durationMinutes : JsonNumber;
  interviewType : option string;
  candidateEmail : option string;
  candidateName : option string;
  jobTitle : option string;
  meetingUrl : option string;
  meetingId : option string
}.

Definition validationError : Response :=
  json 400 (ErrorBody "Application ID and scheduled time are required" None).

(** The body of the [try] around the Microsoft Teams calls: [Some] of the
    join URL and the id when the meeting was created. *)
Definition createTeamsMeeting (sv : Services) (at_ : string)
    (minutes : JsonNumber) : M (option (option string * option string)) :=
  tokenResponse ← fetch TeamsTokenRequest (teamsToken sv);
  match tokenResponse with
  | Some _ =>
      let startTime := dateOfString at_ in
      let endTime :=
        match startTime, toNumber minutes with
        | TimeValue t, Some n => timeClip (t + n * 60000)
        | _, _ => InvalidDate
        end in
      startDateTime ← isoString toISOString startTime;
      endDateTime ← isoString toISOString endTime;
      fetch (TeamsMeetingRequest startDateTime endDateTime) (teamsMeeting sv)
  | None => mret None
  end.

(** From [let meetingUrl = providedMeetingUrl || null] to the end of the
    Teams block: the link and the id the interview is stored with. *)
Definition resolveMeeting (sv : Services) (req : Request) (at_ : string)
    : M (option string * option string) :=
  let meetingUrl0 := Js.or_str (meetingUrl req) None in
  let meetingId0 := Js.or_str (meetingId req) None in
  if negb (Js.truthy_opt meetingUrl0) && msConfigured sv then
    tryCatch
      (created ← createTeamsMeeting sv at_ (durationMinutes req);
       match created with
       | Some (joinWebUrl, id) => mret (joinWebUrl, id)
       | None => mret (meetingUrl0, meetingId0)
       end)
      (fun _ => mret (meetingUrl0, meetingId0))
  else mret (meetingUrl0, meetingId0).

Definition interviewInsert (req : Request) (appId at_ : string)
    (url id : option string) : InterviewInsert :=
  {| ins_application_id := appId;
     ins_scheduled_at := at_;
     ins_duration_minutes := numberOr (durationMinutes req) 60;
     ins_interview_type :=
       default "Technical" (Js.or_str (interviewType req) None);
     ins_meeting_url := url;
     ins_meeting_id := id;
     ins_status := "scheduled" |}.

Definition rowOf (n : nat) (p : InterviewInsert) : InterviewRow :=
  {| row_id := n;
     application_id := ins_application_id p;
     scheduled_at := ins_scheduled_at p;
     duration_minutes := ins_duration_minutes p;
     interview_type := ins_interview_type p;
     meeting_url := ins_meeting_url p;
     meeting_id := ins_meeting_id p;
     row_status := ins_status p |}.

(** [from('interviews').insert(p).select().single()]: the row is stored
    unless the database is at fault or [application_id] refers to no
    application; the table has no other constraint on the written columns. *)
Definition insertInterview (sv : Services) (p : InterviewInsert)
    : M (InterviewRow + JsError) :=
  call (InsertInterview p);;
  step (fun w =>
    match insertFault sv p with
    | Some e => (Returned (inr e), w)
    | None =>
        if bool_decide (is_Some (applicationsTable w !! ins_application_id p))
        then let row := rowOf (nextId w) p in
             (Returned (inl row), appendInterview row w)
        else (Returned (inr (foreignKeyViolation sv)), w)
    end).

(** [from('applications').update({ status }).eq('id', id)]. *)
Definition updateApplication (sv : Services) (id newStatus : string)
    : M (option JsError) :=
  call (UpdateApplicationStatus id newStatus);;
  step (fun w =>
    match updateFault sv with
    | Some e => (Returned (Some e), w)
    | None =>
        (Returned None,
         withApplications
           (alter (fun _ => newStatus) id (applicationsTable w)) w)
    end).

Definition successText (url : option string) : string :=
  if Js.truthy_opt url then "Interview scheduled with video meeting link"
  else "Interview scheduled (add meeting link manually)".

(** The body of the outer [try]. *)
Definition handle (sv : Services) (req : Request) : M Response :=
  if negb (Js.truthy_opt (applicationId req))
     || negb (Js.truthy_opt (scheduledAt req))
  then mret validationError
  else
    let appId := default "" (applicationId req) in
    let at_ := default "" (scheduledAt req) in
    '(url, id) ← resolveMeeting sv req at_;
    inserted ← insertInterview sv (interviewInsert req appId at_ url id);
    match inserted with
    | inr interviewError => throw interviewError
    | inl interview =>
        updateApplication sv appId "interview";;
        tryCatch (invokeFunction (SendEmail (candidateEmail req)) (sendEmail sv))
                 (fun _ => mret tt);;
        tryCatch (invokeFunction SlackNotify (slackNotify sv))
                 (fun _ => mret tt);;
        mret (json 200 (Scheduled interview url (successText url)))
    end.

Definition serve (sv : Services) (req : Request) : M Response :=
  if String.eqb (method req) "OPTIONS" then mret (json 200 NoBody)
  else tryCatch (handle sv req)
                (fun e => mret (json 500 (ErrorBody (errorMessage e) None))).

End Runtime.

End ScheduleInterview.

(** *** The google-calendar function *)

Module GoogleCalendar.

Record EventInput : Type := {
  summary : string;
  description : option string;
  startTime : string;
  endTime : string;
  attendees : option (list string);
  createMeet : bool
}.

Record Request : Type := {
  method : string;
  authorization : option string;
  action : string;
  timeMin : option string;
  timeMax : option string;
  event : option EventInput
}.

(** [s.replace(pattern, replacement)] with a string pattern: the first
    occurrence only. *)
Fixpoint replaceFirst (pattern replacement s : string) : string :=
  if String.prefix pattern s
  then String.append replacement
         (String.substring (String.length pattern)
            (String.length s - String.length pattern) s)
  else match s with
       | EmptyString => EmptyString
       | String c s' => String c (replaceFirst pattern replacement s')
       end.

Definition notConnected : Response :=
  json 400 (ErrorBody "Google Calendar not connected" (Some "NOT_CONNECTED")).

Definition tokenExpired : Response :=
  json 400 (ErrorBody "Token expired, please reconnect Google Calendar"
              (Some "TOKEN_EXPIRED")).

(** The refresh block: an early answer, or the access token to go on with. *)
Definition freshAccessToken (sv : Services) (userId : string)
    (tokenData : TokenRow) : M (Response + string) :=
  if isBefore (token_expiry tokenData) (TimeValue (now sv)) then
    if negb (googleClientId sv) || negb (googleClientSecret sv)
    then mret (inl (json 500 (ErrorBody "OAuth not configured" None)))
    else
      refreshed ← fetch GoogleTokenRefresh (tokenRefresh sv);
      match refreshed with
      | Some newToken =>
          if Js.truthy newToken then
            step (fun w =>
              (Returned (inr newToken),
               withGoogleTokens
                 (alter (fun _ =>
                    {| access_token := newToken;
                       refresh_token := refresh_token tokenData;
                       token_expiry := TimeValue (now sv + msPerHour) |})
                    userId (googleTokens w)) w))
          else
            step (fun w =>
              (Returned (inl tokenExpired),
               withGoogleTokens (delete userId (googleTokens w)) w))
      | None =>
          step (fun w =>
            (Returned (inl tokenExpired),
             withGoogleTokens (delete userId (googleTokens w)) w))
      end
  else mret (inr (access_token tokenData)).

(** The [switch] on the action. *)
Definition dispatch (sv : Services) (req : Request) : M Response :=
  if String.eqb (action req) "get-free-busy" then
    if negb (Js.truthy_opt (timeMin req)) || negb (Js.truthy_opt (timeMax req))
    then mret (json 400 (ErrorBody "timeMin and timeMax required" None))
    else
      fetch GoogleCalendarList (calendarList sv);;
      freeBusyResponse ←
        fetch (GoogleFreeBusy (default "" (timeMin req))
                 (default "" (timeMax req))) (freeBusy sv);
      match freeBusyResponse with
      | None =>
          mret (json 500 (ErrorBody "Failed to get calendar availability" None))
      | Some allBusySlots => mret (json 200 (BusyBody allBusySlots))
      end
  else if String.eqb (action req) "create-event" then
    match event req with
    | None => mret (json 400 (ErrorBody "Event details required" None))
    | Some ev =>
        createResponse ←
          fetch (GoogleCreateEvent (startTime ev) (endTime ev) (createMeet ev))
            (createEvent sv);
        match createResponse with
        | None =>
            mret (json 500 (ErrorBody "Failed to create calendar event" None))
        | Some (eventId, htmlLink, meetLink) =>
            mret (json 200 (EventBody eventId htmlLink
                              (Js.or_str meetLink None)))
        end
    end
  else mret (json 400 (ErrorBody "Invalid action" None)).

(** The body of the outer [try]. *)
Definition handle (sv : Services) (req : Request) : M Response :=
  if negb (Js.truthy_opt (authorization req))
  then mret (json 401 (ErrorBody "Unauthorized" None))
  else
    let token := replaceFirst "Bearer " "" (default "" (authorization req)) in
    match getUser sv token with
    | None => mret (json 401 (ErrorBody "Invalid token" None))
    | Some userId =>
        w ← getWorld;
        let tokenData := googleTokens w !! userId in
        if String.eqb (action req) "check-connection" then
          mret (json 200
                  (Connection (bool_decide (is_Some tokenData))
                     (googleClientId sv && googleClientSecret sv)))
        else
          match tokenData with
          | None => mret notConnected
          | Some row =>
              token ← freshAccessToken sv userId row;
              match token with
              | inl early => mret early
              | inr _ => dispatch sv req
              end
          end
    end.

Definition serve (sv : Services) (req : Request) : M Response :=
  if String.eqb (method req) "OPTIONS" then mret (json 200 NoBody)
  else tryCatch (handle sv req)
                (fun e => mret (json 500 (ErrorBody (errorMessage e) None))).

End GoogleCalendar.

(** ** The schedule dialog: calls to the edge functions *)

(** What [supabase.functions.invoke] resolves to. *)
Record InvokeResult : Type := { data : option Body; error : option JsError }.

Definition functionsHttpError : JsError :=
  newError "Edge Function returned a non-2xx status code".

(** A call from the browser to the edge function [name], whose run on the
    request is [run]. *)
Definition invoke (sv : Services) (name : string) (run : M Response)
    : M InvokeResult :=
  match transport sv name with
  | TransportThrows e => throw e
  | TransportError e => mret {| data := None; error := Some e |}
  | Delivered =>
      response ← run;
      if (200 <=? status response) && (status response <? 300)
      then mret {| data := Some (body response); error := None |}
      else mret {| data := None; error := Some functionsHttpError |}
  end.

Definition authHeader (sv : Services) : option string :=
  Some (String.append "Bearer " (sessionToken sv)).

Definition setOpen (v : bool) (st : DialogState) : DialogState :=
  {| open := v; selectedApplication := selectedApplication st;
     selectedDate := selectedDate st; selectedTime := selectedTime st;
     duration := duration st; interviewType := interviewType st;
     createMeetLink := createMeetLink st; busySlots := busySlots st;
     loadingBusy := loadingBusy st; calendarConnected := calendarConnected st;
     checkingCalendar := checkingCalendar st;
     applications := applications st |}.

Definition resetForm (st : DialogState) : DialogState :=
  {| open := open st; selectedApplication := "";
     selectedDate := None; selectedTime := "";
     duration := "60"; interviewType := "Technical";
     createMeetLink := createMeetLink st; busySlots := [];
     loadingBusy := loadingBusy st; calendarConnected := calendarConnected st;
     checkingCalendar := checkingCalendar st;
     applications := applications st |}.


Definition busySlotsOf (b : Body) : option (list BusySlot) :=
  match b with BusyBody l => Some l | _ => None end.

Definition textOf (b : Body) : option string :=
  match b with Scheduled _ _ t => Some t | _ => None end.

Definition calendarRequest (sv : Services) (act : string)
    (tmin tmax : option string) (ev : option GoogleCalendar.EventInput)
    : GoogleCalendar.Request :=
  {| GoogleCalendar.method := "POST";
     GoogleCalendar.authorization := authHeader sv;
     GoogleCalendar.action := act;
     GoogleCalendar.timeMin := tmin;
     GoogleCalendar.timeMax := tmax;
     GoogleCalendar.event := ev |}.


Section Client.

Variable tz : Z.
Variable toISOString : Z -> string.
Variable dateOfString : string -> JsDate.

Definition fetchBusySlots (sv : Services) (st : DialogState) (date : JsDate)
    : M DialogState :=
  let st1 := setLoadingBusy true st in
  st2 ← tryCatch
          (let startOfDay :=
             setHours tz date (Some 0) (Some 0) (Some 0) (Some 0) in
           let endOfDay :=
             setHours tz date (Some 23) (Some 59) (Some 59) (Some 999) in
           tmin ← isoString toISOString startOfDay;
           tmax ← isoString toISOString endOfDay;
           r ← invoke sv "google-calendar"
                 (GoogleCalendar.serve sv
                    (calendarRequest sv "get-free-busy"
                       (Some tmin) (Some tmax) None));
           match error r, data r ≫= busySlotsOf with
           | None, Some l => mret (setBusySlots l st1)
           | _, _ => mret st1
           end)
          (fun _ => mret st1);
  mret (setLoadingBusy false st2).

(** The [event] of the create-event request. *)
Definition eventInput (st : DialogState) (app : Application)
    (starts ends : string) : GoogleCalendar.EventInput :=
  let name := full_name (candidate app) in
  {| GoogleCalendar.summary :=
       String.append "Interview: "
         (String.append name (String.append " - " (title (job app))));
     GoogleCalendar.description :=
       Some (String.append (interviewType st)
               (String.append " interview with "
                  (String.append name
                     (String.append " for "
                        (String.append (title (job app)) " position.")))));
     GoogleCalendar.startTime := starts;
     GoogleCalendar.endTime := ends;
     GoogleCalendar.attendees := Some [email (candidate app)];
     GoogleCalendar.createMeet := true |}.

(** The meeting-creation call itself. *)
Definition createEventCall (sv : Services) (st : DialogState)
    (app : Application) (starts ends : string) : M InvokeResult :=
  invoke sv "google-calendar"
    (GoogleCalendar.serve sv
       (calendarRequest sv "create-event" None None
          (Some (eventInput st app starts ends)))).

(** The [try] block that asks for a calendar event with a Meet link: the
    link and the event id, both [null] unless the call went through. *)
Definition createCalendarEvent (sv : Services) (st : DialogState)
    (app : Application) (scheduledAt endTime : JsDate)
    : M (option string * option string) :=
  tryCatch
    (starts ← isoString toISOString scheduledAt;
     ends ← isoString toISOString endTime;
     r ← createEventCall sv st app starts ends;
     match error r, data r with
     | None, Some (EventBody eventId _ meetLink) => mret (meetLink, eventId)
     | _, _ => mret (None, None)
     end)
    (fun _ =>
       call (Toast ToastError
               "Calendar event creation failed, but continuing with scheduling");;
       mret (None, None)).

Definition scheduleRequest (st : DialogState) (app : Application)
    (at_ : string) (url id : option string) : ScheduleInterview.Request :=
  {| ScheduleInterview.method := "POST";
     ScheduleInterview.applicationId := Some (selectedApplication st);
     ScheduleInterview.scheduledAt := Some at_;
     ScheduleInterview.durationMinutes :=
       match Js.parseInt (duration st) with
       | Some n => JsonNum n
       | None => JsonNull
       end;
     ScheduleInterview.interviewType := Some (interviewType st);
     ScheduleInterview.candidateEmail := Some (email (candidate app));
     ScheduleInterview.candidateName := Some (full_name (candidate app));
     ScheduleInterview.jobTitle := Some (title (job app));
     ScheduleInterview.meetingUrl := url;
     ScheduleInterview.meetingId := id |}.

Definition findApplication (st : DialogState) : option Application :=
  applications st ≫=
    List.find (fun a => String.eqb (app_id a) (selectedApplication st)).

(** [mutationFn] of [scheduleInterview]: the answer of the function and the
    Meet link obtained by the dialog. *)
Definition mutationFn (sv : Services) (st : DialogState)
    : M (option Body * option string) :=
  match selectedDate st with
  | Some date =>
      if negb (Js.truthy (selectedApplication st))
         || negb (Js.truthy (selectedTime st))
      then throw (newError "Please select a candidate, date and time")
      else
        match findApplication st with
        | None => throw (newError "Application not found")
        | Some app =>
            let scheduledAt := atTimeOfDay tz date (selectedTime st) in
            let endTime := addMinutes scheduledAt (Js.parseInt (duration st)) in
            '(meetingUrl, calendarEventId) ←
              (if calendarConnected st && createMeetLink st
               then createCalendarEvent sv st app scheduledAt endTime
               else mret (None, None));
            at_ ← isoString toISOString scheduledAt;
            r ← invoke sv "schedule-interview"
                  (ScheduleInterview.serve toISOString dateOfString sv
                     (scheduleRequest st app at_ meetingUrl calendarEventId));
            match error r with
            | Some e => throw e
            | None => mret (data r, meetingUrl)
            end
        end
  | None => throw (newError "Please select a candidate, date and time")
  end.

Definition onSuccess (st : DialogState) (d : option Body * option string)
    : M DialogState :=
  (if Js.truthy_opt (snd d)
   then call (Toast ToastSuccess "Interview scheduled with Google Meet link!")
   else call (Toast ToastSuccess
                (default "Interview scheduled successfully"
                   (Js.or_str (fst d ≫= textOf) None))));;
  mret (resetForm (setOpen false st)).

Definition onError (st : DialogState) (e : JsError) : M DialogState :=
  call (Toast ToastError
          (if Js.truthy (message e) then message e
           else "Failed to schedule interview"));;
  mret st.

(** [scheduleInterview.mutate()]. *)
Definition mutate (sv : Services) (st : DialogState) : M DialogState :=
  fun w =>
    match mutationFn sv st w with
    | (Returned d, w') => onSuccess st d w'
    | (Thrown e, w') => onError st e w'
    end.

End Client.

(** ** Conditions on requests and services *)

(** A [durationMinutes] that counts as false: missing, [null] or [0]. *)
Definition falsyNumber (v : JsonNumber) : Prop :=
  v = Absent \/ v = JsonNull \/ v = JsonNum 0.

(** A string field that counts as false: missing, [null] or empty. *)
Definition falsyString (o : option string) : Prop :=
  o = None \/ o = Some "".

(** A call to an edge function failed: it threw, or it came back with an
    error. *)
Definition failed (o : Outcome InvokeResult) : Prop :=
  match o with
  | Thrown _ => True
  | Returned r => is_Some (error r)
  end.

(** The Teams fallback of schedule-interview cannot produce a meeting: it is
    not configured, or its token request or its meeting request does not
    succeed. *)
Definition teamsFails (sv : Services) : Prop :=
  msConfigured sv = false \/
  (forall a, teamsToken sv <> FetchOk a) \/
  (forall a, teamsMeeting sv <> FetchOk a).

(** The second world has the applications, the interviews and the id supply
    of the first. *)
Definition sameInterviews (w w' : World) : Prop :=
  applicationsTable w' = applicationsTable w /\
  interviewsTable w' = interviewsTable w /\
  nextId w' = nextId w.

(** A computation that leaves applications, interviews and the id supply as
    they are, whatever it returns. *)
Definition framed {A : Type} (m : M A) : Prop :=
  forall w, sameInterviews w (snd (m w)).

(** A computation that does not throw. *)
Definition returns {A : Type} (m : M A) : Prop :=
  forall w, exists a, fst (m w) = Returned a.

(** ** More setters of the dialog state *)

Definition setDuration (v : string) (st : DialogState) : DialogState :=
  {| open := open st; selectedApplication := selectedApplication st;
     selectedDate := selectedDate st; selectedTime := selectedTime st;
     duration := v; interviewType := interviewType st;
     createMeetLink := createMeetLink st; busySlots := busySlots st;
     loadingBusy := loadingBusy st; calendarConnected := calendarConnected st;
     checkingCalendar := checkingCalendar st;
     applications := applications st |}.

(** ** Variations of the services *)

(** The same services with other outcomes of the status update and of the two
    notifications of schedule-interview. *)
Definition withNotifications (update : option JsError) (mail slack : Invoked)
    (sv : Services) : Services :=
  {| msConfigured := msConfigured sv; teamsToken := teamsToken sv;
     teamsMeeting := teamsMeeting sv; insertFault := insertFault sv;
     foreignKeyViolation := foreignKeyViolation sv;
     updateFault := update; sendEmail := mail; slackNotify := slack;
     googleClientId := googleClientId sv;
     googleClientSecret := googleClientSecret sv;
     getUser := getUser sv; now := now sv; tokenRefresh := tokenRefresh sv;
     calendarList := calendarList sv; freeBusy := freeBusy sv;
     createEvent := createEvent sv; transport := transport sv;
     sessionToken := sessionToken sv |}.

(** The same services at another time, with another answer to a token
    refresh. *)
Definition withClock (t : Z) (refresh : Fetched string) (sv : Services)
    : Services :=
  {| msConfigured := msConfigured sv; teamsToken := teamsToken sv;
     teamsMeeting := teamsMeeting sv; insertFault := insertFault sv;
     foreignKeyViolation := foreignKeyViolation sv;
     updateFault := updateFault sv; sendEmail := sendEmail sv;
     slackNotify := slackNotify sv;
     googleClientId := googleClientId sv;
     googleClientSecret := googleClientSecret sv;
     getUser := getUser sv; now := t; tokenRefresh := refresh;
     calendarList := calendarList sv; freeBusy := freeBusy sv;
     createEvent := createEvent sv; transport := transport sv;
     sessionToken := sessionToken sv |}.

(** ** What a computation sends *)

(** Every call a computation adds to the outbox satisfies [P]. *)
Definition emits {A : Type} (P : Call -> bool) (m : M A) : Prop :=
  forall w, exists cs,
    outbox (snd (m w)) = (outbox w ++ cs)%list /\
    Forall (fun c => P c = true) cs.

(** The calls of the calendar function to Google. *)
Definition isGoogleCall (c : Call) : bool :=
  match c with
  | GoogleTokenRefresh | GoogleCalendarList | GoogleFreeBusy _ _
  | GoogleCreateEvent _ _ _ => true
  | _ => false
  end.

(** The calls of schedule-interview: Teams, the two writes, the two
    notifications. *)
Definition isSchedulingCall (c : Call) : bool :=
  match c with
  | TeamsTokenRequest | TeamsMeetingRequest _ _ | InsertInterview _
  | UpdateApplicationStatus _ _ | SendEmail _ | SlackNotify => true
  | _ => false
  end.

Definition isTeamsCall (c : Call) : bool :=
  match c with
  | TeamsTokenRequest | TeamsMeetingRequest _ _ => true
  | _ => false
  end.

(** The row ids of the interviews are below the id supply, hence distinct
    from the next ones. *)
Definition idsBelowSupply (w : World) : Prop :=
  Forall (fun r => (row_id r < nextId w)%nat) (interviewsTable w).

Definition isMeetingRequest (c : Call) : bool :=
  match c with TeamsMeetingRequest _ _ => true | _ => false end.

(** Whatever a computation returns satisfies [Q]. *)
Definition yields {A : Type} (Q : A -> Prop) (m : M A) : Prop :=
  forall w a w', m w = (Returned a, w') -> Q a.

(** Two dialog states that differ at most in the busy periods and the loading
    flag. *)
Definition sameSelections (st st' : DialogState) : Prop :=
  open st' = open st /\ selectedApplication st' = selectedApplication st /\
  selectedDate st' = selectedDate st /\ selectedTime st' = selectedTime st /\
  duration st' = duration st /\ interviewType st' = interviewType st /\
  createMeetLink st' = createMeetLink st /\
  calendarConnected st' = calendarConnected st /\
  checkingCalendar st' = checkingCalendar st /\
  applications st' = applications st.

(** The same services with another answer of Google to the free/busy
    request. *)
Definition withCalendar (busy : Fetched (list BusySlot)) (sv : Services)
    : Services :=
  {| msConfigured := msConfigured sv; teamsToken := teamsToken sv;
     teamsMeeting := teamsMeeting sv; insertFault := insertFault sv;
     foreignKeyViolation := foreignKeyViolation sv;
     updateFault := updateFault sv; sendEmail := sendEmail sv;
     slackNotify := slackNotify sv;
     googleClientId := googleClientId sv;
     googleClientSecret := googleClientSecret sv;
     getUser := getUser sv; now := now sv; tokenRefresh := tokenRefresh sv;
     calendarList := calendarList sv; freeBusy := busy;
     createEvent := createEvent sv; transport := transport sv;
     sessionToken := sessionToken sv |}.

Definition notGoogleCall (c : Call) : bool := negb (isGoogleCall c).

(** ** The other edge functions *)

(** Computations of the functions that work on tables of their own: the
    same shape as [M], over any store. *)
Module Eff.

Definition t (S A : Type) : Type := S -> Outcome A * S.

#[global] Instance ret {S : Type} : MRet (t S) | 10 :=
  fun A a s => (Returned a, s).

#[global] Instance bind {S : Type} : MBind (t S) | 10 := fun A B f m s =>
  match m s with
  | (Returned a, s') => f a s'
  | (Thrown e, s') => (Thrown e, s')
  end.

Definition throw {S A : Type} (e : JsError) : t S A := fun s => (Thrown e, s).

(** [try { body } catch (e) { handler e }]. *)
Definition tryCatch {S A : Type} (body : t S A) (handler : JsError -> t S A)
    : t S A :=
  fun s =>
    match body s with
    | (Returned a, s') => (Returned a, s')
    | (Thrown e, s') => handler e s'
    end.

Definition step {S A : Type} (f : S -> Outcome A * S) : t S A := f.

(** A synchronous call that returns or throws. *)
Definition lift {S A : Type} (o : Outcome A) : t S A := fun s => (o, s).

End Eff.

(** The outcome of an awaited [fetch] and of reading its answer: the fetch
    or the reading of an [ok] body rejects, or the response is not [ok] (its
    status, and what reading its text gives), or it is [ok]. *)
Inductive Http (A : Type) : Type :=
| HttpThrows (e : JsError)
| HttpNotOk (code : Z) (text : Outcome string)
| HttpOk (a : A).
Arguments HttpThrows {A} e.
Arguments HttpNotOk {A} code text.
Arguments HttpOk {A} a.

(** A number in a template literal. *)
Definition decimal (n : Z) : string :=
  DecimalString.NilZero.string_of_int (Z.to_int n).

(** *** The auto-process-application function *)

Module AutoProcess.

Definition RESUME_BUCKET : string := "resumes".

(** [s.toLowerCase()]: the letters A to Z; a character outside ASCII is
    left as it is. *)
Definition lowerChar (c : ascii) : ascii :=
  let n := nat_of_ascii c in
  if ((65 <=? n) && (n <=? 90))%nat then ascii_of_nat (n + 32) else c.

Fixpoint toLowerCase (s : string) : string :=
  match s with
  | EmptyString => EmptyString
  | String c s' => String (lowerChar c) (toLowerCase s')
  end.

(** [s.endsWith(suffix)]: [s] is [suffix], or its tail ends with it. *)
Fixpoint endsWith (s suffix : string) : bool :=
  if String.eqb s suffix then true
  else match s with
       | EmptyString => false
       | String _ s' => endsWith s' suffix
       end.

Definition guessMimeType (pathOrUrl : string) : string :=
  let lower := toLowerCase pathOrUrl in
  if endsWith lower ".pdf" then "application/pdf"
  else if endsWith lower ".png" then "image/png"
  else if endsWith lower ".jpg" || endsWith lower ".jpeg" then "image/jpeg"
  else if endsWith lower ".webp" then "image/webp"
  else "application/pdf".

(** [0x8000]. *)
Definition chunkSize : nat := N.to_nat 32768.

(** [String.fromCharCode(...codes)] on bytes. *)
Definition fromCharCode (codes : list Byte.byte) : string :=
  String.string_of_list_byte codes.

(** [bytes.subarray(begin, end)], for [begin <= end]. *)
Definition subarray (bytes : list Byte.byte) (begin_ end_ : nat)
    : list Byte.byte :=
  take (end_ - begin_) (drop begin_ bytes).

(** The [for] loop of [toBase64] from index [i] on, [binary] being what has
    been collected; [fuel] bounds the number of rounds. *)
Fixpoint chunkLoop (fuel : nat) (i : nat) (bytes : list Byte.byte)
    (binary : string) : string :=
  match fuel with
  | O => binary
  | S fuel' =>
      if (i <? length bytes)%nat
      then chunkLoop fuel' (i + chunkSize)%nat bytes
             (binary ++ fromCharCode (subarray bytes i (i + chunkSize)%nat))
      else binary
  end.

(** [btoa] is the platform's encoder.  Every round moves [i] forward, so
    [length bytes] rounds are enough. *)
Definition toBase64 (btoa : string -> string) (bytes : list Byte.byte)
    : string :=
  btoa (chunkLoop (length bytes) 0 bytes "").

Definition markers : list string :=
  [ "/storage/v1/object/public/" ++ RESUME_BUCKET ++ "/";
    "/storage/v1/object/sign/" ++ RESUME_BUCKET ++ "/";
    "/storage/v1/object/" ++ RESUME_BUCKET ++ "/" ].

(** [s.slice(from)], for [from] within the string. *)
Definition slice (s : string) (from : nat) : string :=
  String.substring from (String.length s - from) s.

(** The loop over the markers: what follows the first occurrence of the
    first marker that occurs in [pathname]. *)
Fixpoint afterMarker (pathname : string) (ms : list string) : option string :=
  match ms with
  | [] => None
  | marker :: ms' =>
      match String.index 0 marker pathname with
      | Some idx => Some (slice pathname (idx + String.length marker))
      | None => afterMarker pathname ms'
      end
  end.

(** [pathnameOf] is [new URL(s).pathname] and [decodeURIComponent] the
    global function, each [None] where it throws. *)
Definition extractStoragePathFromUrl (pathnameOf : string -> option string)
    (decodeURIComponent : string -> option string) (maybeUrl : string)
    : option string :=
  if negb (String.prefix "http" maybeUrl) then None
  else
    match pathnameOf maybeUrl with
    | Some pathname =>
        match afterMarker pathname markers with
        | Some rest => decodeURIComponent rest
        | None => None
        end
    | None => None
    end.

(** The columns of [candidates], [applications] and [jobs] that the function
    reads or writes.  The parse-resume function, which is invoked at the
    end, writes other columns: the status and the analysis of the
    application and the links of the candidate; they are not part of these
    rows. *)
Record CandidateRow : Type := {
  resume_text : option string;
  resume_url : option string
}.

Record ApplicationRow : Type := { candidate_id : string; job_id : string }.

Record JobRow : Type := { requirements : option string }.

(** What the function asks of other services. *)
Inductive Call : Type :=
| StorageDownload (path : string)
| FetchFile (url : string)
| ExtractText (apiKey dataUrl : string)
| ParseResume (resumeText applicationId : string)
    (jobRequirements : option string).

(** The tables, the roles of each user, and the calls issued so far. *)
Record Db : Type := {
  applications : gmap string ApplicationRow;
  candidates : gmap string CandidateRow;
  jobs : gmap string JobRow;
  userRoles : gmap string (list string);
  outbox : list Call
}.

(** What [storage.download] gives: an error or no data, or the file. *)
Inductive Downloaded : Type :=
| DownloadFailed (message : option string)
| DownloadData (bytes : list Byte.byte).

(** What the function gets from outside.  [getUser] is [auth.getUser] by
    the authorization header, [None] for an error or no user; [rolesFault]
    says that the query of the roles gives no data, [fetchFault] and
    [saveFault] are the errors of the select and of the update;
    [fetchFile] gives the [content-type] header and the bytes,
    [extractText] the [content] of the first choice, by the data URL sent;
    [parseResume] is the [data] or the [error] of the invocation. *)
Record Services : Type := {
  getUser : string -> option string;
  rolesFault : bool;
  fetchFault : option JsError;
  aiapiApiKey : option string;
  pathnameOf : string -> option string;
  decodeURIComponent : string -> option string;
  btoa : string -> string;
  download : string -> Downloaded;
  fetchFile : string -> Http (option string * list Byte.byte);
  extractText : string -> Http (option string);
  saveFault : option JsError;
  parseResume : string -> string + JsError
}.

Record Request : Type := {
  method : string;
  authorization : option string;
  applicationId : option string
}.

Inductive Body : Type :=
| NoBody
| ErrorBody (error : string)
| Unprocessed (message : string)
| Parsed (parseData : string).

Record Response : Type := { status : Z; body : Body }.

Definition json (code : Z) (b : Body) : Response :=
  {| status := code; body := b |}.

Definition call (c : Call) : Eff.t Db unit := fun db =>
  (Returned tt,
   {| applications := applications db;
      candidates := candidates db;
      jobs := jobs db;
      userRoles := userRoles db;
      outbox := outbox db ++ [c] |}).

(** [from('candidates').update({ resume_text }).eq('id', candidateId)]. *)
Definition setResumeText (candidateId text : string) (db : Db) : Db :=
  {| applications := applications db;
     candidates :=
       alter (fun row => {| resume_text := Some text;
                            resume_url := resume_url row |})
             candidateId (candidates db);
     jobs := jobs db;
     userRoles := userRoles db;
     outbox := outbox db |}.

(** [from('user_roles').select('role').eq('user_id', userId).limit(1)] as
    the user, who may read the rows of their own roles. *)
Definition selectRoles (sv : Services) (userId : string)
    : Eff.t Db (option (list string)) :=
  Eff.step (fun db =>
    (Returned (if rolesFault sv then None
               else Some (take 1 (default [] (userRoles db !! userId)))),
     db)).

(** The value of [isAuthenticated] after the check of the caller. *)
Definition isAuthenticated (sv : Services) (req : Request) : Eff.t Db bool :=
  match authorization req with
  | Some authHeader =>
      if Js.truthy authHeader && String.prefix "Bearer " authHeader then
        match getUser sv authHeader with
        | Some userId =>
            roles ← selectRoles sv userId;
            mret (match roles with
                  | Some (_ :: _) => true
                  | _ => false
                  end)
        | None => mret false
        end
      else mret false
  | None => mret false
  end.

(** The application with its candidate and its job, as the two inner joins
    give them; [maybeSingle] gives [null] when there is no such row. *)
Definition selectApplication (sv : Services) (id : string)
    : Eff.t Db (option (string * CandidateRow * JobRow) + JsError) :=
  Eff.step (fun db =>
    (Returned
       match fetchFault sv with
       | Some fetchError => inr fetchError
       | None =>
           inl (application ← applications db !! id;
                candidate ← candidates db !! candidate_id application;
                job ← jobs db !! job_id application;
                Some (candidate_id application, candidate, job))
       end,
     db)).

(** The bytes of the resume and their mime type. *)
Definition getResumeBytes (sv : Services) (resumeUrlOrPath : string)
    : Eff.t Db (list Byte.byte * string) :=
  let storagePath :=
    if String.prefix "http" resumeUrlOrPath
    then extractStoragePathFromUrl (pathnameOf sv) (decodeURIComponent sv)
           resumeUrlOrPath
    else Some resumeUrlOrPath in
  match storagePath with
  | Some (String c rest) =>
      let path := String c rest in
      call (StorageDownload path);;
      match download sv path with
      | DownloadFailed message =>
          Eff.throw
            (newError ("Failed to download resume from storage: "
                       ++ default "Unknown error"
                            (Js.or_str message (Some "Unknown error"))))
      | DownloadData bytes => mret (bytes, guessMimeType path)
      end
  | _ =>
      call (FetchFile resumeUrlOrPath);;
      match fetchFile sv resumeUrlOrPath with
      | HttpThrows e => Eff.throw e
      | HttpNotOk code _ =>
          Eff.throw (newError ("Failed to fetch resume file: " ++ decimal code))
      | HttpOk (contentType, bytes) =>
          mret (bytes,
                default (guessMimeType resumeUrlOrPath)
                  (Js.or_str contentType None))
      end
  end.

(** The body of the inner [try]: it gives the new value of [resumeText]. *)
Definition extraction (sv : Services) (resumeUrl candidateId : string)
    : Eff.t Db (option string) :=
  match aiapiApiKey sv with
  | Some (String c rest) =>
      let key := String c rest in
      '(bytes, mime) ← getResumeBytes sv resumeUrl;
      let docBase64 := toBase64 (btoa sv) bytes in
      let dataUrl := "data:" ++ mime ++ ";base64," ++ docBase64 in
      call (ExtractText key dataUrl);;
      match extractText sv dataUrl with
      | HttpThrows e => Eff.throw e
      | HttpNotOk _ (Thrown e) => Eff.throw e
      | HttpNotOk _ (Returned errorText) =>
          Eff.throw (newError ("Text extraction failed: " ++ errorText))
      | HttpOk content =>
          match content with
          | Some (String c' rest') =>
              match saveFault sv with
              | Some _ => mret content
              | None =>
                  Eff.step (fun db =>
                    (Returned content,
                     setResumeText candidateId (String c' rest') db))
              end
          | _ => mret content
          end
      end
  | _ => Eff.throw (newError "AIAPI_API_KEY not configured")
  end.

Definition noResumeText : string :=
  "No resume text available for AI processing. Please ensure a valid PDF resume was uploaded.".

(** What follows the check of the caller. *)
Definition processApplication (sv : Services) (id : string)
    : Eff.t Db Response :=
  selected ← selectApplication sv id;
  match selected with
  | inr fetchError => Eff.throw fetchError
  | inl None => mret (json 404 (ErrorBody "Application not found"))
  | inl (Some (candidateId, candidate, job)) =>
      resumeText ←
        (if negb (Js.truthy_opt (resume_text candidate))
            && Js.truthy_opt (resume_url candidate)
            && Js.truthy candidateId
         then Eff.tryCatch
                (extraction sv (default "" (resume_url candidate)) candidateId)
                (fun _ => mret (resume_text candidate))
         else mret (resume_text candidate));
      match resumeText with
      | Some (String c rest) =>
          let text := String c rest in
          call (ParseResume text id (requirements job));;
          match parseResume sv text with
          | inr parseError => Eff.throw parseError
          | inl parseData => mret (json 200 (Parsed parseData))
          end
      | _ => mret (json 200 (Unprocessed noResumeText))
      end
  end.

(** The body of the outer [try]. *)
Definition handle (sv : Services) (req : Request) : Eff.t Db Response :=
  match applicationId req with
  | Some (String c rest) =>
      authenticated ← isAuthenticated sv req;
      let isInternalTrigger := negb (Js.truthy_opt (authorization req)) in
      if negb authenticated && negb isInternalTrigger
      then mret (json 403 (ErrorBody "Forbidden"))
      else processApplication sv (String c rest)
  | _ => mret (json 400 (ErrorBody "Application ID is required"))
  end.

Definition serve (sv : Services) (req : Request) : Eff.t Db Response :=
  if String.eqb (method req) "OPTIONS" then mret (json 200 NoBody)
  else Eff.tryCatch (handle sv req)
         (fun e => mret (json 500 (ErrorBody (errorMessage e)))).

(** The caller presents a bearer credential of a user who has a role. *)
Definition hrCaller (sv : Services) (db : Db) (req : Request) : Prop :=
  exists authHeader userId role roles,
    authorization req = Some authHeader
    /\ String.prefix "Bearer " authHeader = true
    /\ getUser sv authHeader = Some userId
    /\ rolesFault sv = false
    /\ userRoles db !! userId = Some (role :: roles).

(** A candidate's row keeps its resume text, or gets one where it had
    none. *)
Definition textKeptOrFilled (before after : option CandidateRow) : Prop :=
  after = before
  \/ exists row text,
       before = Some row /\ Js.truthy_opt (resume_text row) = false
       /\ Js.truthy text = true
       /\ after = Some {| resume_text := Some text;
                          resume_url := resume_url row |}.

(** The text extraction cannot succeed: there is no key, or no file can be
    had, or the model never gives a text. *)
Definition extractionFails (sv : Services) : Prop :=
  Js.truthy_opt (aiapiApiKey sv) = false
  \/ (forall path, exists message, download sv path = DownloadFailed message)
     /\ (forall url, forall a, fetchFile sv url <> HttpOk a)
  \/ (forall dataUrl text,
        extractText sv dataUrl = HttpOk (Some text) -> Js.truthy text = false).

Definition isParseRequest (c : Call) : bool :=
  match c with ParseResume _ _ _ => true | _ => false end.

Definition hasText (c : Call) : bool :=
  match c with ParseResume text _ _ => Js.truthy text | _ => true end.

End AutoProcess.

(** *** The send-offer-letter function *)

Module SendOfferLetter.

(** The columns of [offer_letters] that the function or the trigger on
    [applications] decides on; the terms of the offer, which only the text
    of the letter depends on, are left out. *)
Record OfferRow : Type := {
  application_id : string;
  position_title : string;
  department : string;
  work_location : string;
  letter_status : string;
  sent_at : option string
}.

Record ApplicationRow : Type := {
  candidate_id : string;
  job_id : string;
  app_status : string
}.

Record CandidateRow : Type := { full_name : string; email : string }.

Record JobRow : Type := {
  title : string;
  job_department : string;
  location : string
}.

(** The object given to [insert] on [email_logs]. *)
Record EmailLog : Type := {
  recipient_email : string;
  subject : string;
  email_type : string;
  log_status : string;
  log_candidate_id : option string
}.

(** The request to the mail service. *)
Inductive Call : Type :=
| ResendEmail (apiKey to subject html : string).

Record Db : Type := {
  offerLetters : gmap string OfferRow;
  applications : gmap string ApplicationRow;
  candidates : gmap string CandidateRow;
  jobs : gmap string JobRow;
  userRoles : gmap string (list string);
  emailLogs : list EmailLog;
  outbox : list Call
}.

(** What the function gets from outside.  [getUser] is [auth.getUser] by
    the token, [None] for an error or no user; [roleFault] and [offerFault]
    say that the role check and the select of the letter give an error, the
    three other faults that a write is refused.  [generateOfferLetterHTML]
    is taken as given: the text of the letter, or what it throws
    ([Intl.NumberFormat] rejects a malformed currency code).  [resend] is
    the answer of the mail service, [nowIso] the current time as
    [toISOString] gives it, [newLetterId] the [gen_random_uuid()] of the
    trigger. *)
Record Services : Type := {
  getUser : string -> option string;
  roleFault : bool;
  offerFault : bool;
  generateOfferLetterHTML : OfferRow -> CandidateRow -> JobRow -> Outcome string;
  resendApiKey : option string;
  resend : Http unit;
  letterUpdateFault : bool;
  applicationUpdateFault : bool;
  logFault : bool;
  nowIso : string;
  newLetterId : string
}.

Record Request : Type := {
  method : string;
  authorization : option string;
  offerLetterId : option string
}.

Inductive Body : Type :=
| NoBody
| ErrorBody (error : string)
| Sent (success : bool) (message offerLetterId candidateName
          candidateEmail : string).

Record Response : Type := { status : Z; body : Body }.

Definition json (code : Z) (b : Body) : Response :=
  {| status := code; body := b |}.

Definition withOfferLetters (t : gmap string OfferRow) (db : Db) : Db :=
  {| offerLetters := t;
     applications := applications db;
     candidates := candidates db;
     jobs := jobs db;
     userRoles := userRoles db;
     emailLogs := emailLogs db;
     outbox := outbox db |}.

Definition withApplications (t : gmap string ApplicationRow) (db : Db) : Db :=
  {| offerLetters := offerLetters db;
     applications := t;
     candidates := candidates db;
     jobs := jobs db;
     userRoles := userRoles db;
     emailLogs := emailLogs db;
     outbox := outbox db |}.

Definition appendLog (l : EmailLog) (db : Db) : Db :=
  {| offerLetters := offerLetters db;
     applications := applications db;
     candidates := candidates db;
     jobs := jobs db;
     userRoles := userRoles db;
     emailLogs := emailLogs db ++ [l];
     outbox := outbox db |}.

Definition call (c : Call) : Eff.t Db unit := fun db =>
  (Returned tt,
   {| offerLetters := offerLetters db;
      applications := applications db;
      candidates := candidates db;
      jobs := jobs db;
      userRoles := userRoles db;
      emailLogs := emailLogs db;
      outbox := outbox db ++ [c] |}).

(** [s.trim()], on the white space of [Js.isWhite]. *)
Definition trim (s : string) : string :=
  String.rev (Js.skipWhite (String.rev (Js.skipWhite s))).

(** [rpc('is_hr_staff', { _user_id })]: the user has a row in [user_roles];
    [None] stands for an error of the call. *)
Definition isHrStaff (sv : Services) (userId : string)
    : Eff.t Db (option bool) :=
  Eff.step (fun db =>
    (Returned (if roleFault sv then None
               else Some match userRoles db !! userId with
                         | Some (_ :: _) => true
                         | _ => false
                         end),
     db)).

(** The offer letter with the candidate and the job of its application, as
    the inner joins and [single] give them: [None] stands for an error. *)
Definition selectOffer (sv : Services) (id : string)
    : Eff.t Db (option (OfferRow * CandidateRow * JobRow)) :=
  Eff.step (fun db =>
    (Returned
       (if offerFault sv then None
        else
          offer ← offerLetters db !! id;
          application ← applications db !! application_id offer;
          candidate ← candidates db !! candidate_id application;
          job ← jobs db !! job_id application;
          Some (offer, candidate, job)),
     db)).

(** [from('offer_letters').update({ status, sent_at }).eq('id', id)]. *)
Definition updateLetter (sv : Services) (id : string) (emailSent : bool)
    : Eff.t Db unit :=
  Eff.step (fun db =>
    (Returned tt,
     if letterUpdateFault sv then db
     else
       withOfferLetters
         (alter (fun row =>
            {| application_id := application_id row;
               position_title := position_title row;
               department := department row;
               work_location := work_location row;
               letter_status := if emailSent then "sent" else "draft";
               sent_at := if emailSent then Some (nowIso sv) else None |})
            id (offerLetters db)) db)).

(** The trigger [auto_create_offer_on_status_change] after the update of the
    application [id] from [old] to [new]: [None] when it raises. *)
Definition autoCreateOfferDraft (sv : Services) (id : string)
    (old new : ApplicationRow) (db : Db) : option Db :=
  if String.eqb (app_status new) "offer"
     && negb (String.eqb (app_status old) "offer")
  then
    if bool_decide
         (map_Exists (fun _ letter => application_id letter = id)
            (offerLetters db))
    then Some db
    else
      match jobs db !! job_id new with
      | Some job =>
          if bool_decide (is_Some (offerLetters db !! newLetterId sv))
          then None
          else Some (withOfferLetters
                       (<[newLetterId sv :=
                            {| application_id := id;
                               position_title := title job;
                               department := job_department job;
                               work_location := location job;
                               letter_status := "draft";
                               sent_at := None |}]> (offerLetters db)) db)
      | None => None
      end
  else Some db.

(** [from('applications').update({ status: 'offer' }).eq('id', id)], with
    its trigger; a trigger that raises undoes the update. *)
Definition updateApplication (sv : Services) (id : string) : Eff.t Db unit :=
  Eff.step (fun db =>
    (Returned tt,
     if applicationUpdateFault sv then db
     else
       match applications db !! id with
       | Some old =>
           let new := {| candidate_id := candidate_id old;
                         job_id := job_id old;
                         app_status := "offer" |} in
           default db
             (autoCreateOfferDraft sv id old new
                (withApplications (<[id := new]> (applications db)) db))
       | None => db
       end)).

(** [from('email_logs').insert(l)]. *)
Definition insertLog (sv : Services) (l : EmailLog) : Eff.t Db unit :=
  Eff.step (fun db =>
    (Returned tt, if logFault sv then db else appendLog l db)).

Definition subjectOf (offer : OfferRow) : string :=
  "Offer Letter - " ++ position_title offer ++ " at CortexHR".

(** The sending block: the value of [emailSent]. *)
Definition sendLetter (sv : Services) (offer : OfferRow)
    (candidate : CandidateRow) (offerLetterHTML : string) : Eff.t Db bool :=
  match resendApiKey sv with
  | Some (String c rest) =>
      call (ResendEmail (String c rest) (email candidate) (subjectOf offer)
              offerLetterHTML);;
      match resend sv with
      | HttpThrows e => Eff.throw e
      | HttpNotOk _ (Thrown e) => Eff.throw e
      | HttpNotOk _ (Returned _) => mret false
      | HttpOk _ => mret true
      end
  | _ => mret false
  end.

(** What is done with the letter once it has been found. *)
Definition deliver (sv : Services) (id : string) (offer : OfferRow)
    (candidate : CandidateRow) (job : JobRow) : Eff.t Db Response :=
  offerLetterHTML ← Eff.lift (generateOfferLetterHTML sv offer candidate job);
  emailSent ← sendLetter sv offer candidate offerLetterHTML;
  updateLetter sv id emailSent;;
  (if emailSent then updateApplication sv (application_id offer)
   else mret tt);;
  insertLog sv
    {| recipient_email := email candidate;
       subject := subjectOf offer;
       email_type := "offer_letter";
       log_status := if emailSent then "sent" else "failed";
       log_candidate_id := None |};;
  mret (json 200
          (Sent emailSent
             (if emailSent then "Offer letter sent successfully"
              else "Offer letter saved (email service not configured)")
             id (full_name candidate) (email candidate))).

(** The body of the [try]. *)
Definition handle (sv : Services) (req : Request) : Eff.t Db Response :=
  let authHeader := default "" (Js.or_str (authorization req) (Some "")) in
  if negb (String.prefix "Bearer " authHeader)
  then mret (json 401 (ErrorBody "Missing Authorization header"))
  else
    let jwt := trim (GoogleCalendar.replaceFirst "Bearer " "" authHeader) in
    match getUser sv jwt with
    | None => mret (json 401 (ErrorBody "Invalid JWT"))
    | Some userId =>
        hrStaff ← isHrStaff sv userId;
        match hrStaff with
        | None => mret (json 500 (ErrorBody "Authorization check failed"))
        | Some false => mret (json 403 (ErrorBody "Forbidden"))
        | Some true =>
            match offerLetterId req with
            | Some (String c rest) =>
                selected ← selectOffer sv (String c rest);
                match selected with
                | None => mret (json 404 (ErrorBody "Offer letter not found"))
                | Some (offer, candidate, job) =>
                    deliver sv (String c rest) offer candidate job
                end
            | _ => mret (json 400 (ErrorBody "offerLetterId is required"))
            end
        end
    end.

Definition serve (sv : Services) (req : Request) : Eff.t Db Response :=
  if String.eqb (method req) "OPTIONS" then mret (json 200 NoBody)
  else Eff.tryCatch (handle sv req)
         (fun e => mret (json 500 (ErrorBody (errorMessage e)))).

(** The caller presents the bearer token of a user who has a role, and the
    role check answers. *)
Definition hrCaller (sv : Services) (db : Db) (req : Request) : Prop :=
  exists authHeader userId role roles,
    authorization req = Some authHeader
    /\ String.prefix "Bearer " authHeader = true
    /\ getUser sv (trim (GoogleCalendar.replaceFirst "Bearer " "" authHeader))
       = Some userId
    /\ roleFault sv = false
    /\ userRoles db !! userId = Some (role :: roles).




End SendOfferLetter.

(** ** Sample data

    A concrete UTC clock, for running the definitions above on examples:
    ISO strings of the form [YYYY-MM-DDTHH:MM:SS.sssZ] (the milliseconds are
    optional when read), for the years 0 to 9999. *)

Module Sample.

(** Days since the epoch of a civil date, and back. *)
Definition daysFromCivil (y m d : Z) : Z :=
  let y' := if m <=? 2 then y - 1 else y in
  let era := y' / 400 in
  let yoe := y' - era * 400 in
  let mp := if m >? 2 then m - 3 else m + 9 in
  let doy := (153 * mp + 2) / 5 + d - 1 in
  let doe := yoe * 365 + yoe / 4 - yoe / 100 + doy in
  era * 146097 + doe - 719468.

Definition civilFromDays (z : Z) : Z * Z * Z :=
  let z' := z + 719468 in
  let era := z' / 146097 in
  let doe := z' - era * 146097 in
  let yoe := (doe - doe / 1460 + doe / 36524 - doe / 146096) / 365 in
  let doy := doe - (365 * yoe + yoe / 4 - yoe / 100) in
  let mp := (5 * doy + 2) / 153 in
  let d := doy - (153 * mp + 2) / 5 + 1 in
  let m := if mp <? 10 then mp + 3 else mp - 9 in
  let y := yoe + era * 400 in
  (if m <=? 2 then y + 1 else y, m, d).

Definition digitChar (n : Z) : ascii := ascii_of_nat (Z.to_nat (48 + n mod 10)).

(** The last [width] decimal digits of [n]. *)
Fixpoint digits (width : nat) (n : Z) : string :=
  match width with
  | O => EmptyString
  | S k => String.append (digits k (n / 10)) (String (digitChar n) EmptyString)
  end.

Definition toISOString (t : Z) : string :=
  let '(y, m, d) := civilFromDays (t / msPerDay) in
  let r := t mod msPerDay in
  String.append (digits 4 y) (String.append "-" (String.append (digits 2 m)
    (String.append "-" (String.append (digits 2 d) (String.append "T"
    (String.append (digits 2 (r / msPerHour)) (String.append ":"
    (String.append (digits 2 (r / msPerMinute mod 60)) (String.append ":"
    (String.append (digits 2 (r / 1000 mod 60)) (String.append "."
    (String.append (digits 3 (r mod 1000)) "Z")))))))))))).

Definition field (s : string) (from len : nat) : option Z :=
  let f := String.substring from len s in
  if (String.length f =? len)%nat && Js.allDigits f then Js.Number f else None.

Definition parseISO (s : string) : JsDate :=
  let millis :=
    if String.eqb (String.substring 19 5 s) "Z" then Some 0
    else if String.eqb (String.substring 19 1 s) "."
            && String.eqb (String.substring 23 2 s) "Z"
         then field s 20 3 else None in
  let punctuation :=
    String.eqb (String.substring 4 1 s) "-"
    && String.eqb (String.substring 7 1 s) "-"
    && String.eqb (String.substring 10 1 s) "T"
    && String.eqb (String.substring 13 1 s) ":"
    && String.eqb (String.substring 16 1 s) ":" in
  match field s 0 4, field s 5 2, field s 8 2,
        field s 11 2, field s 14 2, field s 17 2, millis with
  | Some y, Some m, Some d, Some h, Some mi, Some sec, Some ms =>
      if punctuation
         && (1 <=? m) && (m <=? 12) && (1 <=? d) && (d <=? 31)
         && (h <=? 23) && (mi <=? 59) && (sec <=? 59)
      then TimeValue (daysFromCivil y m d * msPerDay + h * msPerHour
                      + mi * msPerMinute + sec * 1000 + ms)
      else InvalidDate
  | _, _, _, _, _, _, _ => InvalidDate
  end.

(** Monday 5 January 2026, 00:00 UTC. *)
Definition monday : Z := 1767571200000.

(** The dialog with an application, that Monday and one hour chosen, and
    one busy period from 10:00 to 11:00. *)
Definition busyTenToEleven : BusySlot :=
  {| start := "2026-01-05T10:00:00Z"; end_ := "2026-01-05T11:00:00Z" |}.

Definition application : Application :=
  {| app_id := "app-1";
     candidate := {| full_name := "Ada Lovelace"; email := "ada@example.org" |};
     job := {| title := "Engineer" |} |}.

Definition dialog : DialogState :=
  {| open := true; selectedApplication := "app-1";
     selectedDate := Some (TimeValue monday); selectedTime := "";
     duration := "60"; interviewType := "Technical";
     createMeetLink := true; busySlots := [busyTenToEleven];
     loadingBusy := false; calendarConnected := true;
     checkingCalendar := false; applications := Some [application] |}.

(** The same dialog before any answer of the calendar: nothing known to be
    busy, the request for the busy periods in flight. *)
Definition pendingDialog : DialogState :=
  setLoadingBusy true (setBusySlots [] dialog).

(** The dialog of a connected user as it opens: no date picked, nothing
    known to be busy. *)
Definition freshDialog : DialogState :=
  setBusySlots [] (setSelectedDate None dialog).

(** One period over the whole day, and one from 09:00 to 17:00 sharp. *)
Definition busyAllDay : BusySlot :=
  {| start := "2026-01-05T00:00:00Z"; end_ := "2026-01-06T00:00:00Z" |}.

Definition busyNineToFive : BusySlot :=
  {| start := "2026-01-05T09:00:00Z"; end_ := "2026-01-05T17:00:00Z" |}.

(** Services that all answer; whether Teams is configured and what the
    calendar answers to a create-event request are left open. *)
Definition foreignKey : JsError :=
  {| isError := true;
     message := "insert or update on table interviews violates foreign key constraint" |}.

Definition services (teams : bool)
    (created : Fetched (option string * option string * option string))
    : Services :=
  {| msConfigured := teams;
     teamsToken := FetchOk tt;
     teamsMeeting := FetchOk (Some "https://teams.example/meet/1", Some "teams-1");
     insertFault := fun _ => None;
     foreignKeyViolation := foreignKey;
     updateFault := None;
     sendEmail := InvokeReturns;
     slackNotify := InvokeReturns;
     googleClientId := true;
     googleClientSecret := true;
     getUser := fun t => if String.eqb t "jwt-1" then Some "user-1" else None;
     now := monday + 8 * msPerHour;
     tokenRefresh := FetchNotOk;
     calendarList := FetchOk tt;
     freeBusy := FetchOk [busyTenToEleven];
     createEvent := created;
     transport := fun _ => Delivered;
     sessionToken := "jwt-1" |}.

Definition credential : TokenRow :=
  {| access_token := "access-1"; refresh_token := "refresh-1";
     token_expiry := TimeValue (monday + 9 * msPerHour) |}.

(** One application in screening, no interview yet, one connected calendar. *)
Definition world : World :=
  {| applicationsTable := {[ "app-1" := "screening" ]};
     interviewsTable := [];
     googleTokens := {[ "user-1" := credential ]};
     nextId := 0;
     outbox := [] |}.


Definition request (appId : string) (minutes : JsonNumber)
    (type : option string) : ScheduleInterview.Request :=
  {| ScheduleInterview.method := "POST";
     ScheduleInterview.applicationId := Some appId;
     ScheduleInterview.scheduledAt := Some "2026-01-05T09:00:00.000Z";
     ScheduleInterview.durationMinutes := minutes;
     ScheduleInterview.interviewType := type;
     ScheduleInterview.candidateEmail := Some "ada@example.org";
     ScheduleInterview.candidateName := Some "Ada Lovelace";
     ScheduleInterview.jobTitle := Some "Engineer";
     ScheduleInterview.meetingUrl := None;
     ScheduleInterview.meetingId := None |}.

(** The dialog with 09:00 chosen as well. *)
Definition chosen : DialogState := setSelectedTime "09:00" dialog.

(** A request that brings its own meeting link. *)
(** Services whose calendar reports the day busy from 09:00 to 17:00. *)
Definition busyCalendar : Services :=
  withCalendar (FetchOk [busyNineToFive]) (services false FetchNotOk).

Definition requestWithLink : ScheduleInterview.Request :=
  {| ScheduleInterview.method := "POST";
     ScheduleInterview.applicationId := Some "app-1";
     ScheduleInterview.scheduledAt := Some "2026-01-05T09:00:00.000Z";
     ScheduleInterview.durationMinutes := JsonNum 60;
     ScheduleInterview.interviewType := Some "Technical";
     ScheduleInterview.candidateEmail := Some "ada@example.org";
     ScheduleInterview.candidateName := Some "Ada Lovelace";
     ScheduleInterview.jobTitle := Some "Engineer";
     ScheduleInterview.meetingUrl := Some "https://meet.example/abc";
     ScheduleInterview.meetingId := Some "event-1" |}.

(** A calendar request with a token that is not that of a user. *)
Definition strangerRequest : GoogleCalendar.Request :=
  {| GoogleCalendar.method := "POST";
     GoogleCalendar.authorization := Some "Bearer someone-else";
     GoogleCalendar.action := "get-free-busy";
     GoogleCalendar.timeMin := Some "2026-01-05T00:00:00.000Z";
     GoogleCalendar.timeMax := Some "2026-01-05T23:59:59.999Z";
     GoogleCalendar.event := None |}.

(** The dialog with an application chosen that is not in its list. *)
Definition strayDialog : DialogState :=
  {| open := true; selectedApplication := "app-7";
     selectedDate := Some (TimeValue monday); selectedTime := "09:00";
     duration := "60"; interviewType := "Technical";
     createMeetLink := true; busySlots := [];
     loadingBusy := false; calendarConnected := true;
     checkingCalendar := false; applications := Some [application] |}.

(** The database after the application has been deleted. *)
Definition worldWithoutApplications : World := withApplications ∅ world.

(** The store and the services of auto-process-application: one application
    whose candidate has uploaded a resume that has not been read yet. *)
Definition resumeBytes : list Byte.byte :=
  [Byte.x25; Byte.x50; Byte.x44; Byte.x46].

Definition autoServices : AutoProcess.Services :=
  {| AutoProcess.getUser := fun authHeader =>
       if String.eqb authHeader "Bearer hr-token" then Some "hr-1"
       else if String.eqb authHeader "Bearer visitor-token" then Some "visitor"
       else None;
     AutoProcess.rolesFault := false;
     AutoProcess.fetchFault := None;
     AutoProcess.aiapiApiKey := Some "key";
     AutoProcess.pathnameOf := fun _ => None;
     AutoProcess.decodeURIComponent := Some;
     AutoProcess.btoa := fun binary => binary;
     AutoProcess.download := fun path =>
       if String.eqb path "cv/ada.PDF"
       then AutoProcess.DownloadData resumeBytes
       else AutoProcess.DownloadFailed None;
     AutoProcess.fetchFile := fun _ => HttpNotOk 404 (Returned "");
     AutoProcess.extractText := fun _ =>
       HttpOk (Some "Ada Lovelace, mathematician");
     AutoProcess.saveFault := None;
     AutoProcess.parseResume := fun _ => inl "score 87" |}.

(** The same services when the text extraction is refused. *)
Definition autoServicesWithoutText : AutoProcess.Services :=
  {| AutoProcess.getUser := AutoProcess.getUser autoServices;
     AutoProcess.rolesFault := false;
     AutoProcess.fetchFault := None;
     AutoProcess.aiapiApiKey := Some "key";
     AutoProcess.pathnameOf := fun _ => None;
     AutoProcess.decodeURIComponent := Some;
     AutoProcess.btoa := fun binary => binary;
     AutoProcess.download := AutoProcess.download autoServices;
     AutoProcess.fetchFile := fun _ => HttpNotOk 404 (Returned "");
     AutoProcess.extractText := fun _ => HttpNotOk 429 (Returned "busy");
     AutoProcess.saveFault := None;
     AutoProcess.parseResume := fun _ => inl "score 87" |}.

Definition autoDb : AutoProcess.Db :=
  {| AutoProcess.applications :=
       {[ "app-1" := {| AutoProcess.candidate_id := "cand-1";
                        AutoProcess.job_id := "job-1" |} ]};
     AutoProcess.candidates :=
       {[ "cand-1" := {| AutoProcess.resume_text := None;
                         AutoProcess.resume_url := Some "cv/ada.PDF" |} ]};
     AutoProcess.jobs :=
       {[ "job-1" := {| AutoProcess.requirements := Some "Analysis" |} ]};
     AutoProcess.userRoles := {[ "hr-1" := ["recruiter"] ]};
     AutoProcess.outbox := [] |}.

(** The call of the database trigger, and one of a signed-in visitor who
    has no role. *)
Definition triggerRequest : AutoProcess.Request :=
  {| AutoProcess.method := "POST";
     AutoProcess.authorization := None;
     AutoProcess.applicationId := Some "app-1" |}.


(** The store and the services of send-offer-letter: a letter that was
    sent before, for an application in the interview stage. *)
Definition offerServices (key : option string) (answer : Http unit)
    : SendOfferLetter.Services :=
  {| SendOfferLetter.getUser := fun jwt =>
       if String.eqb jwt "hr-token" then Some "hr-1"
       else if String.eqb jwt "visitor-token" then Some "visitor"
       else None;
     SendOfferLetter.roleFault := false;
     SendOfferLetter.offerFault := false;
     SendOfferLetter.generateOfferLetterHTML := fun offer candidate _ =>
       Returned ("Dear " ++ SendOfferLetter.full_name candidate);
     SendOfferLetter.resendApiKey := key;
     SendOfferLetter.resend := answer;
     SendOfferLetter.letterUpdateFault := false;
     SendOfferLetter.applicationUpdateFault := false;
     SendOfferLetter.logFault := false;
     SendOfferLetter.nowIso := "2026-01-05T09:00:00.000Z";
     SendOfferLetter.newLetterId := "offer-2" |}.

Definition offerLetter : SendOfferLetter.OfferRow :=
  {| SendOfferLetter.application_id := "app-1";
     SendOfferLetter.position_title := "Analyst";
     SendOfferLetter.department := "Research";
     SendOfferLetter.work_location := "London";
     SendOfferLetter.letter_status := "sent";
     SendOfferLetter.sent_at := Some "2025-12-24T10:00:00.000Z" |}.

Definition offerDb : SendOfferLetter.Db :=
  {| SendOfferLetter.offerLetters := {[ "offer-1" := offerLetter ]};
     SendOfferLetter.applications :=
       {[ "app-1" := {| SendOfferLetter.candidate_id := "cand-1";
                        SendOfferLetter.job_id := "job-1";
                        SendOfferLetter.app_status := "interview" |} ]};
     SendOfferLetter.candidates :=
       {[ "cand-1" := {| SendOfferLetter.full_name := "Ada Lovelace";
                         SendOfferLetter.email := "ada@example.org" |} ]};
     SendOfferLetter.jobs :=
       {[ "job-1" := {| SendOfferLetter.title := "Analyst";
                        SendOfferLetter.job_department := "Research";
                        SendOfferLetter.location := "London" |} ]};
     SendOfferLetter.userRoles := {[ "hr-1" := ["recruiter"] ]};
     SendOfferLetter.emailLogs := [];
     SendOfferLetter.outbox := [] |}.


Definition visitorOfferRequest : SendOfferLetter.Request :=
  {| SendOfferLetter.method := "POST";
     SendOfferLetter.authorization := Some "Bearer visitor-token";
     SendOfferLetter.offerLetterId := Some "offer-1" |}.

End Sample.

(** * Properties *)

(** ** Availability *)

Lemma timeClip_representable (t : Z) :
  representable t -> timeClip t = TimeValue t.
Proof.
  unfold representable, timeClip. intros [Hlo Hhi].
  destruct (Z.leb_spec (- maxTime) t), (Z.leb_spec t maxTime);
    try lia; reflexivity.
Qed.

Lemma timeClip_beyond (t : Z) :
  ~ representable t -> timeClip t = InvalidDate.
Proof.
  unfold representable, timeClip. intros Hout.
  destruct (Z.leb_spec (- maxTime) t), (Z.leb_spec t maxTime);
    try reflexivity; lia.
Qed.

Lemma timeClip_cases (t : Z) :
  timeClip t = TimeValue t \/ timeClip t = InvalidDate.
Proof. unfold timeClip. destruct (_ && _); auto. Qed.

Section AvailabilityFacts.

Variable tz : Z.
Variable parseISO : string -> JsDate.

Lemma timeOptions_labels (st : DialogState) :
  map fst (timeOptions tz parseISO st) = timeSlots.
Proof.
  unfold timeOptions. rewrite map_map. apply map_id.
Qed.

(** The overlap test on valid dates is the strict comparison of the time
    values. *)
Lemma overlaps_true_iff (s e : Z) (b : BusySlot) :
  overlaps parseISO (TimeValue s) (TimeValue e) b = true <->
  exists b0 b1, parseISO (start b) = TimeValue b0 /\
                parseISO (end_ b) = TimeValue b1 /\ s < b1 /\ e > b0.
Proof.
  unfold overlaps, isBefore, isAfter. split.
  - intros H. apply andb_true_iff in H as [H1 H2].
    destruct (parseISO (end_ b)) as [|b1]; [discriminate|].
    destruct (parseISO (start b)) as [|b0]; [discriminate|].
    exists b0, b1. repeat split; lia.
  - intros (b0 & b1 & -> & -> & Hs & He).
    apply andb_true_iff. split; lia.
Qed.

(** With a date selected, the conflict check is the search for an
    overlapping period, also on an empty list. *)
Lemma isSlotBusy_exists (st : DialogState) (date : JsDate) (timeSlot : string) :
  selectedDate st = Some date ->
  isSlotBusy tz parseISO st timeSlot =
  existsb (overlaps parseISO (atTimeOfDay tz date timeSlot)
             (addMinutes (atTimeOfDay tz date timeSlot)
                (Js.parseInt (duration st))))
    (busySlots st).
Proof.
  intros Hd. unfold isSlotBusy. rewrite Hd.
  destruct (busySlots st); reflexivity.
Qed.

(** A slot whose end is no date conflicts with nothing. *)
Lemma overlaps_invalid_end (slotStart : JsDate) (b : BusySlot) :
  overlaps parseISO slotStart InvalidDate b = false.
Proof. unfold overlaps. simpl. apply andb_false_r. Qed.

Lemma isSlotBusy_no_busy (st : DialogState) (timeSlot : string) :
  busySlots st = [] -> isSlotBusy tz parseISO st timeSlot = false.
Proof.
  intros Hb. unfold isSlotBusy. rewrite Hb. destruct (selectedDate st); reflexivity.
Qed.

(** The scan returns the first element that is not busy. *)
Lemma firstFree_Some (st : DialogState) (slots : list string) (slot : string) :
  firstFree tz parseISO st slots = Some slot <->
  exists before after,
    slots = (before ++ slot :: after)%list /\
    Forall (fun s => isSlotBusy tz parseISO st s = true) before /\
    isSlotBusy tz parseISO st slot = false.
Proof.
  induction slots as [|x rest IH]; simpl.
  - split; [discriminate|]. intros (before & after & H & _).
    destruct before; discriminate.
  - destruct (isSlotBusy tz parseISO st x) eqn:Hx; simpl.
    + rewrite IH. split.
      * intros (before & after & -> & Hall & Hfree).
        exists (x :: before), after. repeat split; auto.
      * intros (before & after & Heq & Hall & Hfree).
        destruct before as [|y before]; simpl in Heq; inversion Heq; subst.
        -- congruence.
        -- inversion Hall; subst. exists before, after. auto.
    + split.
      * intros [= <-]. exists [], rest. repeat split; auto.
      * intros (before & after & Heq & Hall & Hfree).
        destruct before as [|y before]; simpl in Heq; inversion Heq; subst.
        -- reflexivity.
        -- inversion Hall; subst. congruence.
Qed.

Lemma firstFree_None (st : DialogState) (slots : list string) :
  firstFree tz parseISO st slots = None <->
  Forall (fun s => isSlotBusy tz parseISO st s = true) slots.
Proof.
  induction slots as [|x rest IH]; simpl.
  - split; auto.
  - destruct (isSlotBusy tz parseISO st x) eqn:Hx; simpl.
    + rewrite IH. split.
      * intros H. constructor; auto.
      * intros H. inversion H; auto.
    + split; [discriminate|]. intros H. inversion H; congruence.
Qed.

End AvailabilityFacts.

Lemma atTimeOfDay_minutes (tz t m : Z) (time : string) :
  minutesOfDay time = Some m ->
  atTimeOfDay tz (TimeValue t) time = TimeValue (dayBase tz t + m * msPerMinute).
Proof.
  unfold minutesOfDay, atTimeOfDay, setHours, dayBase.
  destruct (Js.at_num _ 0) as [h|]; [|discriminate].
  destruct (Js.at_num _ 1) as [mi|]; [|discriminate].
  simpl. intros [= <-]. f_equal. unfold msPerHour, msPerMinute, msPerDay. lia.
Qed.

Lemma grid_minutes :
  map minutesOfDay timeSlots = map (fun i => Some (slotMinutes i)) (seq 0 17).
Proof. reflexivity. Qed.

Lemma grid_minutes_range (slot : string) :
  slot ∈ timeSlots -> exists m, minutesOfDay slot = Some m /\ 540 <= m <= 1020.
Proof.
  intros H. apply list_elem_of_In in H. unfold timeSlots in H. simpl in H.
  repeat (destruct H as [<- | H];
          [eexists; split; [vm_compute; reflexivity | lia] |]).
  contradiction.
Qed.

(** C9: the slot grid has exactly 17 values, "09:00" to "17:00" in steps of
    30 minutes, in this order, and the time options offered for any dialog
    state (any selected date, duration and busy set) are these 17 values. *)
Theorem slot_grid_is_fixed :
  length timeSlots = 17%nat /\
  timeSlots = map slotLabel (seq 0 17) /\
  map minutesOfDay timeSlots = map (fun i => Some (slotMinutes i)) (seq 0 17) /\
  head timeSlots = Some "09:00" /\
  last timeSlots = Some "17:00" /\
  forall (tz : Z) (parseISO : string -> JsDate) (st : DialogState),
    map fst (timeOptions tz parseISO st) = timeSlots.
Proof.
  do 5 (split; [reflexivity|]).
  intros. apply timeOptions_labels.
Qed.

(** The conflict check, for a slot with a valid start, a numeric duration
    and an end that is a date, as the existence of a period that overlaps
    the half-open slot. *)
Lemma isSlotBusy_iff
    (tz : Z) (parseISO : string -> JsDate) (st : DialogState)
    (date : JsDate) (timeSlot : string) (d s : Z) :
  selectedDate st = Some date ->
  Js.parseInt (duration st) = Some d ->
  atTimeOfDay tz date timeSlot = TimeValue s ->
  representable (s + d * msPerMinute) ->
  (isSlotBusy tz parseISO st timeSlot = true <->
   exists b b0 b1,
     b ∈ busySlots st /\
     parseISO (start b) = TimeValue b0 /\ parseISO (end_ b) = TimeValue b1 /\
     s < b1 /\ s + d * msPerMinute > b0).
Proof.
  intros Hdate Hdur Hs Hrange.
  rewrite (isSlotBusy_exists tz parseISO st date timeSlot Hdate), Hs, Hdur.
  simpl addMinutes. rewrite (timeClip_representable _ Hrange).
  rewrite existsb_exists. split.
  - intros (b & Hin & Hov). apply overlaps_true_iff in Hov.
    destruct Hov as (b0 & b1 & H0 & H1 & Hlt & Hgt).
    exists b, b0, b1. rewrite list_elem_of_In. auto.
  - intros (b & b0 & b1 & Hin & H0 & H1 & Hlt & Hgt).
    exists b. rewrite <- list_elem_of_In. split; [assumption|].
    apply overlaps_true_iff. exists b0, b1. auto.
Qed.

(** A slot whose end is beyond the range of dates is classified free. *)
Lemma isSlotBusy_beyond
    (tz : Z) (parseISO : string -> JsDate) (st : DialogState)
    (date : JsDate) (timeSlot : string) (d s : Z) :
  selectedDate st = Some date ->
  Js.parseInt (duration st) = Some d ->
  atTimeOfDay tz date timeSlot = TimeValue s ->
  ~ representable (s + d * msPerMinute) ->
  isSlotBusy tz parseISO st timeSlot = false.
Proof.
  intros Hdate Hdur Hs Hout.
  rewrite (isSlotBusy_exists tz parseISO st date timeSlot Hdate), Hs, Hdur.
  simpl addMinutes. rewrite (timeClip_beyond _ Hout).
  induction (busySlots st) as [|b rest IH]; [reflexivity|].
  simpl. rewrite overlaps_invalid_end. exact IH.
Qed.

(** C1, as the code has it: with a date selected and a duration of [d > 0]
    minutes, a slot starting at the date [s] whose end [s + d] is a date too
    (a time value of at most 8.64e15 ms on either side of the epoch) is
    classified busy
    exactly when some busy period [[b0, b1)] has [s < b1] and [s + d > b0]
    (in milliseconds, [s + d * 60000 > b0]); a period that starts where the
    slot ends, or ends where the slot starts, does not conflict with it, and
    the slot is free when this is the only period.  A slot whose end is
    beyond the range of dates is classified free, whatever the busy
    periods. *)
Theorem conflict_check_is_half_open_overlap
    (tz : Z) (parseISO : string -> JsDate) (st : DialogState)
    (date : JsDate) (timeSlot : string) (d s : Z) :
  selectedDate st = Some date ->
  Js.parseInt (duration st) = Some d ->
  0 < d ->
  atTimeOfDay tz date timeSlot = TimeValue s ->
  (representable s -> representable (s + d * msPerMinute) ->
   (isSlotBusy tz parseISO st timeSlot = true <->
    exists b b0 b1,
      b ∈ busySlots st /\
      parseISO (start b) = TimeValue b0 /\ parseISO (end_ b) = TimeValue b1 /\
      s < b1 /\ s + d * msPerMinute > b0) /\
   (forall b b0 b1,
      parseISO (start b) = TimeValue b0 -> parseISO (end_ b) = TimeValue b1 ->
      s + d * msPerMinute = b0 \/ s = b1 ->
      overlaps parseISO (TimeValue s) (TimeValue (s + d * msPerMinute)) b
      = false /\
      (busySlots st = [b] -> isSlotBusy tz parseISO st timeSlot = false))) /\
  (~ representable (s + d * msPerMinute) ->
   isSlotBusy tz parseISO st timeSlot = false).
Proof.
  intros Hdate Hdur Hpos Hs. split.
  - intros _ Hrange. split.
    + exact (isSlotBusy_iff tz parseISO st date timeSlot d s Hdate Hdur Hs
               Hrange).
    + intros b b0 b1 H0 H1 Hedge.
      assert (Hfree : overlaps parseISO (TimeValue s)
                        (TimeValue (s + d * msPerMinute)) b = false).
      { unfold overlaps, isBefore, isAfter. rewrite H0, H1.
        apply andb_false_iff. destruct Hedge; [right | left]; lia. }
      split; [exact Hfree|].
      intros Hb.
      rewrite (isSlotBusy_exists tz parseISO st date timeSlot Hdate), Hs, Hdur,
        Hb.
      simpl addMinutes. rewrite (timeClip_representable _ Hrange).
      simpl. rewrite Hfree. reflexivity.
  - exact (isSlotBusy_beyond tz parseISO st date timeSlot d s Hdate Hdur Hs).
Qed.

(** C2, as the code has it: the first-available selector returns the
    earliest slot of the grid that is not classified busy (every slot before
    it in the grid is busy), and none exactly when every slot is busy; the
    grid is in chronological order; for an empty busy set the result is
    "09:00".  The result is none for a busy set that reaches past the start
    of the last slot, every instant from 09:00 to 17:00 included of the
    selected date being busy, and a duration [d > 0] for which the slots end
    at dates.  When no busy period goes beyond 17:00 of the selected date,
    the 17:00 slot is free and the result is not none. *)
Theorem first_available_is_earliest_free
    (tz : Z) (parseISO : string -> JsDate) (st : DialogState) :
  (forall slot,
     findFirstAvailable tz parseISO st = Some slot <->
     exists before after,
       timeSlots = (before ++ slot :: after)%list /\
       Forall (fun s => isSlotBusy tz parseISO st s = true) before /\
       isSlotBusy tz parseISO st slot = false) /\
  (findFirstAvailable tz parseISO st = None <->
   Forall (fun s => isSlotBusy tz parseISO st s = true) timeSlots) /\
  map minutesOfDay timeSlots = map (fun i => Some (slotMinutes i)) (seq 0 17) /\
  (busySlots st = [] -> findFirstAvailable tz parseISO st = Some "09:00") /\
  (forall t0 d,
     selectedDate st = Some (TimeValue t0) ->
     Js.parseInt (duration st) = Some d -> 0 < d ->
     representable (dayBase tz t0) ->
     representable (dayBase tz t0 + (1020 + d) * msPerMinute) ->
     busyThroughLastSlot tz parseISO (busySlots st) t0 ->
     findFirstAvailable tz parseISO st = None) /\
  (forall t0,
     selectedDate st = Some (TimeValue t0) ->
     (forall b b1, b ∈ busySlots st -> parseISO (end_ b) = TimeValue b1 ->
                   b1 <= dayBase tz t0 + 1020 * msPerMinute) ->
     isSlotBusy tz parseISO st "17:00" = false /\
     findFirstAvailable tz parseISO st <> None).
Proof.
  split; [|split; [|split; [|split; [|split]]]].
  - intros slot. apply firstFree_Some.
  - apply firstFree_None.
  - reflexivity.
  - intros Hb. unfold findFirstAvailable, timeSlots. simpl.
    rewrite (isSlotBusy_no_busy tz parseISO st "09:00" Hb). reflexivity.
  - intros t0 d Hdate Hdur Hpos Hlow Hhigh Hcover.
    apply firstFree_None. apply Forall_forall. intros slot Hin.
    destruct (grid_minutes_range slot Hin) as (m & Hm & Hrange).
    pose proof (atTimeOfDay_minutes tz t0 m slot Hm) as Hs.
    apply (isSlotBusy_iff tz parseISO st (TimeValue t0) slot d _ Hdate Hdur Hs).
    { unfold representable, msPerMinute in *. lia. }
    destruct (Hcover (dayBase tz t0 + m * msPerMinute)) as (b & b0 & b1 & Hb & H0 & H1 & Hle).
    { unfold msPerMinute. lia. }
    exists b, b0, b1. repeat split; auto; unfold msPerMinute in *; lia.
  - intros t0 Hdate Hends.
    assert (Hfree : isSlotBusy tz parseISO st "17:00" = false).
    { rewrite (isSlotBusy_exists tz parseISO st (TimeValue t0) "17:00" Hdate).
      rewrite (atTimeOfDay_minutes tz t0 1020 "17:00" eq_refl).
      apply not_true_is_false. intros Hbusy.
      apply existsb_exists in Hbusy. destruct Hbusy as (b & Hin & Hov).
      unfold overlaps in Hov. apply andb_prop in Hov as [Hbefore _].
      destruct (parseISO (end_ b)) as [|b1] eqn:Hb1; [discriminate Hbefore|].
      apply list_elem_of_In in Hin. specialize (Hends b b1 Hin Hb1).
      simpl in Hbefore. lia. }
    split; [exact Hfree|].
    intros Hnone. apply firstFree_None in Hnone.
    rewrite Forall_forall in Hnone.
    assert (Hlast : "17:00" ∈ timeSlots)
      by (apply list_elem_of_In; unfold timeSlots; simpl; tauto).
    rewrite (Hnone _ Hlast) in Hfree. discriminate Hfree.
Qed.

(** C1 as stated fails: with a duration of 200000000000 minutes the end of
    the 10:30 slot is beyond the range of dates; the busy period from 10:00
    to 11:00 overlaps the slot in the sense of the claim, and the slot is
    classified free. *)
Lemma unrepresentable_end_is_classified_free :
  selectedDate (setDuration "200000000000" Sample.dialog)
  = Some (TimeValue Sample.monday) /\
  Js.parseInt (duration (setDuration "200000000000" Sample.dialog))
  = Some 200000000000 /\
  atTimeOfDay 0 (TimeValue Sample.monday) "10:30"
  = TimeValue (Sample.monday + 37800000) /\
  (exists b b0 b1,
     b ∈ busySlots (setDuration "200000000000" Sample.dialog) /\
     Sample.parseISO (start b) = TimeValue b0 /\
     Sample.parseISO (end_ b) = TimeValue b1 /\
     Sample.monday + 37800000 < b1 /\
     Sample.monday + 37800000 + 200000000000 * msPerMinute > b0) /\
  isSlotBusy 0 Sample.parseISO (setDuration "200000000000" Sample.dialog)
    "10:30" = false.
Proof.
  split; [reflexivity|]. split; [reflexivity|]. split; [reflexivity|].
  split; [|reflexivity].
  exists Sample.busyTenToEleven, (Sample.monday + 36000000),
    (Sample.monday + 39600000).
  split; [apply list_elem_of_here|].
  split; [reflexivity|]. split; [reflexivity|].
  unfold Sample.monday, msPerMinute. lia.
Qed.

(** C2 as stated fails: a busy period from 09:00 to 17:00 covers the
    business day, every instant from 09:00 up to 17:00 being busy, and the
    selector returns "17:00", not none; and with the whole day busy and a
    duration of 200000000000 minutes it returns "09:00". *)
Lemma busy_business_day_leaves_the_last_slot :
  coversBusinessDay 0 Sample.parseISO [Sample.busyNineToFive] Sample.monday /\
  findFirstAvailable 0 Sample.parseISO
    (setBusySlots [Sample.busyNineToFive] Sample.dialog) = Some "17:00" /\
  busyThroughLastSlot 0 Sample.parseISO [Sample.busyAllDay] Sample.monday /\
  findFirstAvailable 0 Sample.parseISO
    (setDuration "200000000000" (setBusySlots [Sample.busyAllDay] Sample.dialog))
  = Some "09:00".
Proof.
  split; [|split; [reflexivity|split; [|reflexivity]]].
  - intros t Ht.
    exists Sample.busyNineToFive, (Sample.monday + 9 * msPerHour),
      (Sample.monday + 17 * msPerHour).
    split; [apply list_elem_of_here|].
    split; [reflexivity|]. split; [reflexivity|].
    change (dayBase 0 Sample.monday) with Sample.monday in Ht.
    unfold Sample.monday, msPerHour, msPerMinute in *. lia.
  - intros t Ht.
    exists Sample.busyAllDay, Sample.monday, (Sample.monday + msPerDay).
    split; [apply list_elem_of_here|].
    split; [reflexivity|]. split; [reflexivity|].
    change (dayBase 0 Sample.monday) with Sample.monday in Ht.
    unfold Sample.monday, msPerDay, msPerMinute in *. lia.
Qed.

Lemma conflict_check_witness :
  isSlotBusy 0 Sample.parseISO Sample.dialog "10:30" = true <->
  exists b b0 b1,
    b ∈ busySlots Sample.dialog /\
    Sample.parseISO (start b) = TimeValue b0 /\
    Sample.parseISO (end_ b) = TimeValue b1 /\
    Sample.monday + 37800000 < b1 /\
    Sample.monday + 37800000 + 60 * msPerMinute > b0.
Proof.
  refine (proj1 (proj1 (conflict_check_is_half_open_overlap 0 Sample.parseISO
                         Sample.dialog (TimeValue Sample.monday) "10:30" 60
                         (Sample.monday + 37800000)
                         eq_refl eq_refl ltac:(lia) eq_refl) _ _));
    unfold representable, maxTime, Sample.monday, msPerMinute; lia.
Defined.

(** One busy period 10:00 to 11:00 and a duration of 60 minutes: "10:30" is
    busy, "09:00" and "11:00" are free, and the first available slot is
    "09:00". *)
Example busy_ten_to_eleven :
  isSlotBusy 0 Sample.parseISO Sample.dialog "10:30" = true /\
  isSlotBusy 0 Sample.parseISO Sample.dialog "09:00" = false /\
  isSlotBusy 0 Sample.parseISO Sample.dialog "11:00" = false /\
  findFirstAvailable 0 Sample.parseISO Sample.dialog = Some "09:00".
Proof. vm_compute. repeat split. Qed.

(** A busy period that ends at 17:00 sharp leaves the 17:00 slot free. *)
Example busy_nine_to_five :
  findFirstAvailable 0 Sample.parseISO
    (setBusySlots [Sample.busyNineToFive] Sample.dialog) = Some "17:00".
Proof. vm_compute. reflexivity. Qed.

Lemma first_available_witness :
  findFirstAvailable 0 Sample.parseISO
    (setBusySlots [Sample.busyAllDay] Sample.dialog) = None.
Proof.
  refine (proj1 (proj2 (proj2 (proj2 (proj2
            (first_available_is_earliest_free 0 Sample.parseISO
               (setBusySlots [Sample.busyAllDay] Sample.dialog))))))
            Sample.monday 60 eq_refl eq_refl ltac:(lia) _ _ _).
  1, 2: change (dayBase 0 Sample.monday) with Sample.monday;
    unfold representable, maxTime, Sample.monday, msPerMinute; lia.
  intros t Ht. exists Sample.busyAllDay, Sample.monday, (Sample.monday + msPerDay).
  split; [apply list_elem_of_here|].
  split; [reflexivity|]. split; [reflexivity|].
  change (dayBase 0 Sample.monday) with Sample.monday in Ht.
  unfold Sample.monday, msPerDay, msPerMinute in *. lia.
Defined.

(** The selector does not look at the loading flag. *)
Lemma findFirstAvailable_loading (tz : Z) (parseISO : string -> JsDate)
    (st : DialogState) (v : bool) :
  findFirstAvailable tz parseISO (setLoadingBusy v st) =
  findFirstAvailable tz parseISO st.
Proof. reflexivity. Qed.

(** The guards of the auto-select effect: while the request for the busy
    periods is in flight in the state it reads, it leaves that state as it
    is, and it never replaces a time that is already selected.  When it does
    change the state, no time was selected, no request was in flight, a date
    was selected, and the new time is the selector's answer. *)
Lemma autoSelect_guards
    (tz : Z) (parseISO : string -> JsDate) (st : DialogState) :
  (loadingBusy st = true -> autoSelect tz parseISO st = st) /\
  (selectedTime st <> "" -> autoSelect tz parseISO st = st) /\
  (autoSelect tz parseISO st <> st ->
   selectedTime st = "" /\ loadingBusy st = false /\
   is_Some (selectedDate st) /\
   exists slot, findFirstAvailable tz parseISO st = Some slot /\
                autoSelect tz parseISO st = setSelectedTime slot st).
Proof.
  unfold autoSelect. split; [|split].
  - intros ->. rewrite andb_false_r. reflexivity.
  - intros Hsel. destruct (_ && _); [|reflexivity].
    destruct (findFirstAvailable tz parseISO st) as [slot|]; [|reflexivity].
    destruct (selectedTime st) eqn:Ht; [congruence|].
    simpl. rewrite andb_false_r. reflexivity.
  - destruct (bool_decide (is_Some (selectedDate st))) eqn:Hd; simpl;
      [|congruence].
    destruct (loadingBusy st) eqn:Hl; simpl; [congruence|].
    destruct (findFirstAvailable tz parseISO st) as [slot|]; [|congruence].
    destruct (Js.truthy slot); simpl; [|congruence].
    destruct (selectedTime st) eqn:Ht; simpl; [|congruence].
    intros _. apply bool_decide_eq_true in Hd. eauto 10.
Qed.

(** In the render that follows the pick of a date the request for the busy
    periods has not set its flag yet: whatever the state before, the
    auto-select effect of that commit, finding no time selected, selects the
    first slot free against the busy set held so far. *)
Lemma dateEffects_select_at_once
    (tz : Z) (parseISO : string -> JsDate) (st : DialogState) (date : JsDate)
    (slot : string) :
  loadingBusy st = false ->
  findFirstAvailable tz parseISO (onSelectDate (Some date) st) = Some slot ->
  selectedTime (dateEffects tz parseISO (onSelectDate (Some date) st)) = slot.
Proof.
  intros Hidle Hfirst. unfold dateEffects, autoSelect. rewrite Hfirst.
  assert (Hslot : Js.truthy slot = true).
  { apply firstFree_Some in Hfirst.
    destruct Hfirst as (before & after & Hgrid & _).
    assert (Hin : In slot timeSlots)
      by (rewrite Hgrid; apply in_or_app; right; left; reflexivity).
    unfold timeSlots in Hin. simpl in Hin.
    repeat (destruct Hin as [<- | Hin]; [reflexivity|]). contradiction. }
  simpl. rewrite Hidle, Hslot. simpl.
  destruct (calendarConnected st); reflexivity.
Qed.

(** C6: the code does not wait for the answer.  A connected user picks
    Monday 5 January 2026 in the dialog as it opened.  In the render of the
    pick no request is in flight and nothing is known to be busy, and the
    effects of that commit select "09:00" while starting the request.  The
    calendar then reports the day busy from 09:00 to 17:00: the auto-select
    effect keeps "09:00", which is now a busy slot, though "17:00" is
    free. *)
Theorem auto_select_does_not_wait_for_the_answer :
  let picked := onSelectDate (Some (TimeValue Sample.monday)) Sample.freshDialog in
  let next := dateEffects 0 Sample.parseISO picked in
  selectedTime picked = "" /\ loadingBusy picked = false /\
  busySlots picked = [] /\
  selectedTime next = "09:00" /\ loadingBusy next = true /\
  exists answered w',
    fetchBusySlots 0 Sample.toISOString Sample.busyCalendar next
      (TimeValue Sample.monday) Sample.world = (Returned answered, w') /\
    busySlots answered = [Sample.busyNineToFive] /\
    loadingBusy answered = false /\
    autoSelect 0 Sample.parseISO answered = answered /\
    selectedTime answered = "09:00" /\
    isSlotBusy 0 Sample.parseISO answered "09:00" = true /\
    findFirstAvailable 0 Sample.parseISO answered = Some "17:00".
Proof.
  cbv zeta. do 5 (split; [reflexivity|]).
  eexists _, _. split; [vm_compute; reflexivity|].
  repeat split; reflexivity.
Qed.

(** ** Running computations *)

Lemma emitAll_nil (w : World) : emitAll [] w = w.
Proof. destruct w. unfold emitAll. simpl. rewrite app_nil_r. reflexivity. Qed.

Lemma emit_emitAll (c : Call) (cs : list Call) (w : World) :
  emit c (emitAll cs w) = emitAll (cs ++ [c]) w.
Proof. unfold emit, emitAll. simpl. rewrite app_assoc. reflexivity. Qed.

Lemma emitAll_emitAll (cs1 cs2 : list Call) (w : World) :
  emitAll cs2 (emitAll cs1 w) = emitAll (cs1 ++ cs2) w.
Proof. unfold emitAll. simpl. rewrite app_assoc. reflexivity. Qed.

Lemma emit_one (c : Call) (w : World) : emit c w = emitAll [c] w.
Proof. reflexivity. Qed.

Ltac run :=
  unfold mbind, M_bind, mret, M_ret, tryCatch, throw, call, fetch, step,
    getWorld, invokeFunction, isoString in *;
  simpl in *.

Section ServerFacts.

Variable toISOString : Z -> string.
Variable dateOfString : string -> JsDate.

Abbreviation resolveMeeting := (ScheduleInterview.resolveMeeting toISOString dateOfString).
Abbreviation serve := (ScheduleInterview.serve toISOString dateOfString).
Abbreviation handle := (ScheduleInterview.handle toISOString dateOfString).

(** The Teams block never throws, and only adds calls to Teams. *)
Lemma resolveMeeting_frame (sv : Services) (req : ScheduleInterview.Request)
    (at_ : string) (w : World) :
  exists url id cs,
    resolveMeeting sv req at_ w = (Returned (url, id), emitAll cs w) /\
    Forall (fun c => isDownstream c = false) cs.
Proof.
  unfold ScheduleInterview.resolveMeeting.
  destruct (negb _ && msConfigured sv).
  2:{ eexists _, _, []. rewrite emitAll_nil. split; [reflexivity | constructor]. }
  unfold ScheduleInterview.createTeamsMeeting. run.
  destruct (teamsToken sv) as [e | | []]; simpl.
  - eexists _, _, [_]. split; [reflexivity | repeat constructor].
  - eexists _, _, [_]. split; [reflexivity | repeat constructor].
  - destruct (dateOfString at_) as [|t]; simpl.
    { eexists _, _, [_]. split; [reflexivity | repeat constructor]. }
    destruct (toNumber _) as [n|]; simpl.
    2:{ eexists _, _, [_]. split; [reflexivity | repeat constructor]. }
    destruct (timeClip (t + n * 60000)) as [|endTime]; simpl.
    { eexists _, _, [_]. split; [reflexivity | repeat constructor]. }
    destruct (teamsMeeting sv) as [e | | [u i]]; simpl;
      rewrite !emit_one, emitAll_emitAll;
      eexists _, _, _; (split; [reflexivity | repeat constructor]).
Qed.

(** What an insertion does: the request leaves, then the row is appended with
    a fresh id, or an error comes back and the tables stay as they were. *)
Lemma insertInterview_run (sv : Services) (p : InterviewInsert) (w : World) :
  ScheduleInterview.insertInterview sv p w =
  match insertFault sv p with
  | Some e => (Returned (inr e), emit (InsertInterview p) w)
  | None =>
      if bool_decide (is_Some (applicationsTable w !! ins_application_id p))
      then (Returned (inl (ScheduleInterview.rowOf (nextId w) p)),
            appendInterview (ScheduleInterview.rowOf (nextId w) p)
              (emit (InsertInterview p) w))
      else (Returned (inr (foreignKeyViolation sv)), emit (InsertInterview p) w)
  end.
Proof.
  unfold ScheduleInterview.insertInterview. run.
  destruct (insertFault sv p); [reflexivity|].
  destruct (bool_decide _); reflexivity.
Qed.

Lemma insertInterview_error (sv : Services) (p : InterviewInsert)
    (w w' : World) (e : JsError) :
  ScheduleInterview.insertInterview sv p w = (Returned (inr e), w') ->
  w' = emit (InsertInterview p) w.
Proof.
  rewrite insertInterview_run.
  destruct (insertFault sv p); [congruence|].
  destruct (bool_decide _); congruence.
Qed.

(** The handler once the meeting link is settled: insertion, and on success
    the status update and the two notifications, whatever their outcome. *)
Lemma handle_after_meeting (sv : Services) (req : ScheduleInterview.Request)
    (w w1 : World) (appId at_ : string) (url id : option string) :
  ScheduleInterview.applicationId req = Some appId -> Js.truthy appId = true ->
  ScheduleInterview.scheduledAt req = Some at_ -> Js.truthy at_ = true ->
  resolveMeeting sv req at_ w = (Returned (url, id), w1) ->
  handle sv req w =
  match ScheduleInterview.insertInterview sv
          (ScheduleInterview.interviewInsert req appId at_ url id) w1 with
  | (Returned (inl row), w2) =>
      (Returned (json 200 (Scheduled row url (ScheduleInterview.successText url))),
       emit SlackNotify
         (emit (SendEmail (ScheduleInterview.candidateEmail req))
            (snd (ScheduleInterview.updateApplication sv appId "interview" w2))))
  | (Returned (inr e), w2) => (Thrown e, w2)
  | (Thrown e, w2) => (Thrown e, w2)
  end.
Proof.
  intros Happ Htapp Hat Htat Hmeet.
  unfold ScheduleInterview.handle. rewrite Happ, Hat. simpl.
  rewrite Htapp, Htat. simpl.
  unfold mbind at 1. unfold M_bind at 1. rewrite Hmeet.
  unfold mbind at 1. unfold M_bind at 1.
  destruct (ScheduleInterview.insertInterview _ _ w1) as [[[row|e]|e] w2];
    try reflexivity.
  unfold ScheduleInterview.updateApplication. run.
  destruct (updateFault sv); simpl;
    destruct (sendEmail sv); simpl; destruct (slackNotify sv); reflexivity.
Qed.

Lemma serve_not_options (sv : Services) (req : ScheduleInterview.Request)
    (w : World) :
  ScheduleInterview.method req <> "OPTIONS" ->
  serve sv req w =
  match handle sv req w with
  | (Returned r, w') => (Returned r, w')
  | (Thrown e, w') => (Returned (json 500 (ErrorBody (errorMessage e) None)), w')
  end.
Proof.
  intros Hm. unfold ScheduleInterview.serve.
  destruct (String.eqb_spec (ScheduleInterview.method req) "OPTIONS");
    [contradiction | reflexivity].
Qed.

(** A request that passes validation, for an application that exists, on a
    database that is not at fault, once the meeting link is settled: the
    interview is stored with that link and the answer is a success. *)
Lemma serve_success_at (sv : Services) (req : ScheduleInterview.Request)
    (w : World) (appId at_ : string) (url id : option string)
    (cs : list Call) :
  ScheduleInterview.method req <> "OPTIONS" ->
  ScheduleInterview.applicationId req = Some appId -> Js.truthy appId = true ->
  ScheduleInterview.scheduledAt req = Some at_ -> Js.truthy at_ = true ->
  is_Some (applicationsTable w !! appId) ->
  (forall p, ins_application_id p = appId -> ins_scheduled_at p = at_ ->
             insertFault sv p = None) ->
  resolveMeeting sv req at_ w = (Returned (url, id), emitAll cs w) ->
  exists w',
    let row := ScheduleInterview.rowOf (nextId w)
                 (ScheduleInterview.interviewInsert req appId at_ url id) in
    serve sv req w =
      (Returned (json 200 (Scheduled row url (ScheduleInterview.successText url))),
       w') /\
    interviewsTable w' = (interviewsTable w ++ [row])%list /\
    nextId w' = S (nextId w) /\
    is_Some (applicationsTable w' !! appId) /\
    In (InsertInterview (ScheduleInterview.interviewInsert req appId at_ url id))
       (outbox w').
Proof.
  intros Hm Happ Htapp Hat Htat Hex Hok Hmeet.
  eexists. cbv zeta.
  rewrite (serve_not_options sv req w Hm).
  rewrite (handle_after_meeting sv req w _ appId at_ url id
             Happ Htapp Hat Htat Hmeet).
  rewrite insertInterview_run.
  rewrite (Hok (ScheduleInterview.interviewInsert req appId at_ url id)
             eq_refl eq_refl).
  simpl ins_application_id.
  rewrite (bool_decide_eq_true_2 _ Hex).
  split; [reflexivity|].
  unfold ScheduleInterview.updateApplication. run.
  assert (Halter : is_Some (alter (fun _ : string => "interview") appId
                              (applicationsTable w) !! appId)).
  { rewrite lookup_alter. destruct (decide (appId = appId)); [|congruence].
    destruct Hex as [x ->]. simpl. eauto. }
  destruct (updateFault sv); simpl; repeat split; try assumption;
    rewrite !in_app_iff; simpl; tauto.
Qed.

Lemma serve_success (sv : Services) (req : ScheduleInterview.Request)
    (w : World) (appId at_ : string) :
  ScheduleInterview.method req <> "OPTIONS" ->
  ScheduleInterview.applicationId req = Some appId -> Js.truthy appId = true ->
  ScheduleInterview.scheduledAt req = Some at_ -> Js.truthy at_ = true ->
  is_Some (applicationsTable w !! appId) ->
  (forall p, ins_application_id p = appId -> ins_scheduled_at p = at_ ->
             insertFault sv p = None) ->
  exists url id w',
    let row := ScheduleInterview.rowOf (nextId w)
                 (ScheduleInterview.interviewInsert req appId at_ url id) in
    serve sv req w =
      (Returned (json 200 (Scheduled row url (ScheduleInterview.successText url))),
       w') /\
    interviewsTable w' = (interviewsTable w ++ [row])%list /\
    nextId w' = S (nextId w) /\
    is_Some (applicationsTable w' !! appId) /\
    In (InsertInterview (ScheduleInterview.interviewInsert req appId at_ url id))
       (outbox w').
Proof.
  intros Hm Happ Htapp Hat Htat Hex Hok.
  destruct (resolveMeeting_frame sv req at_ w) as (url & id & cs & Hmeet & _).
  exists url, id.
  exact (serve_success_at sv req w appId at_ url id cs
           Hm Happ Htapp Hat Htat Hex Hok Hmeet).
Qed.

(** Without a link in the request and without a working Teams fallback, the
    interview is stored without a link. *)
Lemma resolveMeeting_no_link (sv : Services) (req : ScheduleInterview.Request)
    (at_ : string) (w : World) :
  ScheduleInterview.meetingUrl req = None ->
  ScheduleInterview.meetingId req = None ->
  teamsFails sv ->
  exists cs, resolveMeeting sv req at_ w = (Returned (None, None), emitAll cs w).
Proof.
  intros Hurl Hid Hfails.
  unfold ScheduleInterview.resolveMeeting. rewrite Hurl, Hid. simpl.
  destruct (msConfigured sv) eqn:Hms.
  2:{ exists []. rewrite emitAll_nil. reflexivity. }
  unfold ScheduleInterview.createTeamsMeeting. run.
  destruct (teamsToken sv) as [e | | []] eqn:Htoken; simpl;
    try (exists [TeamsTokenRequest]; reflexivity).
  destruct (dateOfString at_) as [|t]; simpl;
    try (exists [TeamsTokenRequest]; reflexivity).
  destruct (toNumber _) as [n|]; simpl;
    try (exists [TeamsTokenRequest]; reflexivity).
  destruct (timeClip (t + n * 60000)) as [|endTime]; simpl;
    try (exists [TeamsTokenRequest]; reflexivity).
  destruct (teamsMeeting sv) as [e | | a] eqn:Hmeeting; simpl;
    rewrite !emit_one, emitAll_emitAll; try (eexists; reflexivity).
  destruct Hfails as [Hf | [Hf | Hf]]; [congruence | |].
  - exfalso. exact (Hf tt Htoken).
  - exfalso. exact (Hf a Hmeeting).
Qed.

End ServerFacts.

(** C3: when the insertion of the interview fails, the function answers with
    status 500 and the error, and nothing downstream happens: the
    applications and interviews tables are as before the request, and no
    status update, e-mail or chat notification has been issued. *)
Theorem persistence_failure_is_fatal
    (toISOString : Z -> string) (dateOfString : string -> JsDate)
    (sv : Services) (req : ScheduleInterview.Request) (w w1 w2 : World)
    (appId at_ : string) (url id : option string) (e : JsError) :
  ScheduleInterview.method req <> "OPTIONS" ->
  ScheduleInterview.applicationId req = Some appId -> Js.truthy appId = true ->
  ScheduleInterview.scheduledAt req = Some at_ -> Js.truthy at_ = true ->
  ScheduleInterview.resolveMeeting toISOString dateOfString sv req at_ w =
    (Returned (url, id), w1) ->
  ScheduleInterview.insertInterview sv
    (ScheduleInterview.interviewInsert req appId at_ url id) w1 =
    (Returned (inr e), w2) ->
  ScheduleInterview.serve toISOString dateOfString sv req w =
    (Returned (json 500 (ErrorBody (errorMessage e) None)), w2) /\
  applicationsTable w2 = applicationsTable w /\
  interviewsTable w2 = interviewsTable w /\
  exists cs, outbox w2 = (outbox w ++ cs)%list /\
             Forall (fun c => isDownstream c = false) cs.
Proof.
  intros Hm Happ Htapp Hat Htat Hmeet Hins.
  rewrite (serve_not_options _ _ sv req w Hm).
  rewrite (handle_after_meeting _ _ sv req w w1 appId at_ url id
             Happ Htapp Hat Htat Hmeet), Hins.
  split; [reflexivity|].
  apply insertInterview_error in Hins. subst w2.
  destruct (resolveMeeting_frame toISOString dateOfString sv req at_ w)
    as (url' & id' & cs & Hrun & Hcs).
  rewrite Hmeet in Hrun. injection Hrun as _ _ ->.
  rewrite emit_emitAll. simpl. repeat split.
  exists (cs ++ [InsertInterview
                   (ScheduleInterview.interviewInsert req appId at_ url id)])%list.
  split; [reflexivity|].
  apply Forall_app. split; [assumption | repeat constructor].
Qed.


Lemma persistence_failure_witness :
  exists w2,
    ScheduleInterview.serve Sample.toISOString Sample.parseISO
      (Sample.services false FetchNotOk)
      (Sample.request "app-9" (JsonNum 60) (Some "Technical")) Sample.world =
    (Returned (json 500 (ErrorBody (message Sample.foreignKey) None)), w2) /\
    applicationsTable w2 = applicationsTable Sample.world /\
    interviewsTable w2 = [].
Proof.
  eexists.
  pose proof (persistence_failure_is_fatal Sample.toISOString Sample.parseISO
                (Sample.services false FetchNotOk)
                (Sample.request "app-9" (JsonNum 60) (Some "Technical"))
                Sample.world Sample.world _
                "app-9" "2026-01-05T09:00:00.000Z" None None Sample.foreignKey
                ltac:(discriminate) eq_refl eq_refl eq_refl eq_refl eq_refl
                eq_refl) as (H1 & H2 & H3 & _).
  split; [exact H1 | split; [exact H2 | exact H3]].
Defined.

(** C10: a request with an application id and a time is not rejected for a
    missing or falsy [durationMinutes] or [interviewType]: the insertion it
    issues carries 60 minutes and "Technical" in their place, and when the
    application exists and the database is not at fault, the answer is a
    success and the stored interview has these values. *)
Theorem missing_duration_and_type_get_defaults
    (toISOString : Z -> string) (dateOfString : string -> JsDate)
    (sv : Services) (req : ScheduleInterview.Request) (w : World)
    (appId at_ : string) :
  ScheduleInterview.method req <> "OPTIONS" ->
  ScheduleInterview.applicationId req = Some appId -> Js.truthy appId = true ->
  ScheduleInterview.scheduledAt req = Some at_ -> Js.truthy at_ = true ->
  is_Some (applicationsTable w !! appId) ->
  (forall p, insertFault sv p = None) ->
  exists row url text w',
    ScheduleInterview.serve toISOString dateOfString sv req w =
      (Returned (json 200 (Scheduled row url text)), w') /\
    interviewsTable w' = (interviewsTable w ++ [row])%list /\
    application_id row = appId /\ scheduled_at row = at_ /\
    (falsyNumber (ScheduleInterview.durationMinutes req) ->
     duration_minutes row = 60) /\
    (falsyString (ScheduleInterview.interviewType req) ->
     interview_type row = "Technical") /\
    (forall n, ScheduleInterview.durationMinutes req = JsonNum n -> n <> 0 ->
               duration_minutes row = n) /\
    (forall t, ScheduleInterview.interviewType req = Some t -> t <> "" ->
               interview_type row = t).
Proof.
  intros Hm Happ Htapp Hat Htat Hex Hok.
  destruct (serve_success toISOString dateOfString sv req w appId at_
              Hm Happ Htapp Hat Htat Hex (fun p _ _ => Hok p))
    as (url & id & w' & Hrun & Hrows & _).
  eexists _, _, _, w'. split; [exact Hrun|]. split; [exact Hrows|].
  simpl. repeat split.
  - intros [-> | [-> | ->]]; reflexivity.
  - intros [-> | ->]; reflexivity.
  - intros n -> Hn. simpl. destruct (Z.eqb_spec n 0); [contradiction|reflexivity].
  - intros t -> Ht. destruct t; [contradiction|reflexivity].
Qed.

Lemma missing_duration_and_type_witness :
  exists row url text w',
    ScheduleInterview.serve Sample.toISOString Sample.parseISO
      (Sample.services false FetchNotOk)
      (Sample.request "app-1" Absent None) Sample.world =
      (Returned (json 200 (Scheduled row url text)), w') /\
    interviewsTable w' = [row] /\
    duration_minutes row = 60 /\ interview_type row = "Technical".
Proof.
  destruct (missing_duration_and_type_get_defaults
              Sample.toISOString Sample.parseISO
              (Sample.services false FetchNotOk)
              (Sample.request "app-1" Absent None) Sample.world
              "app-1" "2026-01-05T09:00:00.000Z"
              ltac:(discriminate) eq_refl eq_refl eq_refl eq_refl
              ltac:(vm_compute; eauto) (fun _ => eq_refl))
    as (row & url & text & w' & H1 & H2 & _ & _ & H3 & H4 & _).
  exists row, url, text, w'.
  split; [exact H1|]. split; [exact H2|].
  split; [apply H3; left; reflexivity | apply H4; left; reflexivity].
Defined.

(** C7: two requests for the same application and the same time, whatever
    else they carry and whatever the services answer, for an application that
    exists and on a database that is not at fault for them, succeed both and
    store two interviews with different ids, the same application and the
    same time: nothing at the insertion looks for an interview already stored
    for that application and time. *)
Theorem scheduling_twice_stores_two_interviews
    (toISOString : Z -> string) (dateOfString : string -> JsDate)
    (sv1 sv2 : Services) (req1 req2 : ScheduleInterview.Request) (w : World)
    (appId at_ : string) :
  ScheduleInterview.method req1 <> "OPTIONS" ->
  ScheduleInterview.method req2 <> "OPTIONS" ->
  ScheduleInterview.applicationId req1 = Some appId ->
  ScheduleInterview.applicationId req2 = Some appId ->
  Js.truthy appId = true ->
  ScheduleInterview.scheduledAt req1 = Some at_ ->
  ScheduleInterview.scheduledAt req2 = Some at_ ->
  Js.truthy at_ = true ->
  is_Some (applicationsTable w !! appId) ->
  (forall p, ins_application_id p = appId -> ins_scheduled_at p = at_ ->
             insertFault sv1 p = None /\ insertFault sv2 p = None) ->
  exists r1 r2 u1 u2 t1 t2 w1 w2,
    ScheduleInterview.serve toISOString dateOfString sv1 req1 w =
      (Returned (json 200 (Scheduled r1 u1 t1)), w1) /\
    ScheduleInterview.serve toISOString dateOfString sv2 req2 w1 =
      (Returned (json 200 (Scheduled r2 u2 t2)), w2) /\
    interviewsTable w2 = (interviewsTable w ++ [r1; r2])%list /\
    row_id r1 <> row_id r2 /\
    application_id r1 = appId /\ application_id r2 = appId /\
    scheduled_at r1 = at_ /\ scheduled_at r2 = at_.
Proof.
  intros Hm1 Hm2 Happ1 Happ2 Htapp Hat1 Hat2 Htat Hex Hok.
  destruct (serve_success toISOString dateOfString sv1 req1 w appId at_
              Hm1 Happ1 Htapp Hat1 Htat Hex
              (fun p Ha Hs => proj1 (Hok p Ha Hs)))
    as (u1 & i1 & w1 & Hrun1 & Hrows1 & Hnext1 & Hex1 & _).
  destruct (serve_success toISOString dateOfString sv2 req2 w1 appId at_
              Hm2 Happ2 Htapp Hat2 Htat Hex1
              (fun p Ha Hs => proj2 (Hok p Ha Hs)))
    as (u2 & i2 & w2 & Hrun2 & Hrows2 & Hnext2 & _).
  eexists _, _, u1, u2, _, _, w1, w2.
  split; [exact Hrun1|]. split; [exact Hrun2|].
  split. { rewrite Hrows2, Hrows1, <- app_assoc. reflexivity. }
  simpl. rewrite Hnext1. repeat split. lia.
Qed.

Lemma scheduling_twice_witness :
  exists r1 r2 w2,
    interviewsTable w2 = [r1; r2] /\ row_id r1 <> row_id r2 /\
    application_id r1 = "app-1" /\ application_id r2 = "app-1" /\
    scheduled_at r1 = scheduled_at r2.
Proof.
  destruct (scheduling_twice_stores_two_interviews
              Sample.toISOString Sample.parseISO
              (Sample.services false FetchNotOk)
              (Sample.services false FetchNotOk)
              (Sample.request "app-1" (JsonNum 60) (Some "Technical"))
              (Sample.request "app-1" (JsonNum 60) (Some "Technical"))
              Sample.world "app-1" "2026-01-05T09:00:00.000Z"
              ltac:(discriminate) ltac:(discriminate)
              eq_refl eq_refl eq_refl eq_refl eq_refl eq_refl
              ltac:(vm_compute; eauto) (fun _ _ _ => conj eq_refl eq_refl))
    as (r1 & r2 & u1 & u2 & t1 & t2 & w1 & w2 & _ & _ & H3 & H4 & H5 & H6 & H7 & H8).
  exists r1, r2, w2. rewrite H7, H8. auto.
Defined.

(** ** Validation *)

(** C8: when the application, the date or the time is not selected, the
    mutation throws the validation error before anything else, the error is
    shown to the user as a toast, and the world is otherwise untouched: no
    request has left and no table has changed.  The function itself answers
    400, and does nothing, when the application id or the time is missing. *)
Theorem missing_selection_is_rejected
    (tz : Z) (toISOString : Z -> string) (dateOfString : string -> JsDate)
    (sv : Services) (st : DialogState) (w : World) :
  selectedApplication st = "" \/ selectedDate st = None \/
  selectedTime st = "" ->
  mutationFn tz toISOString dateOfString sv st w =
    (Thrown (newError "Please select a candidate, date and time"), w) /\
  mutate tz toISOString dateOfString sv st w =
    (Returned st,
     emit (Toast ToastError "Please select a candidate, date and time") w) /\
  (forall req,
     ScheduleInterview.method req <> "OPTIONS" ->
     Js.truthy_opt (ScheduleInterview.applicationId req) = false \/
     Js.truthy_opt (ScheduleInterview.scheduledAt req) = false ->
     ScheduleInterview.serve toISOString dateOfString sv req w =
       (Returned ScheduleInterview.validationError, w)).
Proof.
  intros Hmissing.
  assert (Hfn : mutationFn tz toISOString dateOfString sv st w =
                (Thrown (newError "Please select a candidate, date and time"), w)).
  { unfold mutationFn.
    destruct (selectedDate st) as [date|]; [|reflexivity].
    destruct Hmissing as [Ha | [Hd | Ht]]; [|discriminate|].
    - rewrite Ha. reflexivity.
    - rewrite Ht. rewrite orb_true_r. reflexivity. }
  split; [exact Hfn|]. split.
  - unfold mutate. rewrite Hfn. reflexivity.
  - intros req Hm Hreq. rewrite (serve_not_options _ _ sv req w Hm).
    unfold ScheduleInterview.handle.
    destruct Hreq as [-> | ->]; simpl; rewrite ?orb_true_r; reflexivity.
Qed.

Lemma missing_selection_witness :
  mutate 0 Sample.toISOString Sample.parseISO
    (Sample.services false FetchNotOk) Sample.dialog Sample.world =
  (Returned Sample.dialog,
   emit (Toast ToastError "Please select a candidate, date and time")
     Sample.world).
Proof.
  exact (proj1 (proj2 (missing_selection_is_rejected 0 Sample.toISOString
                         Sample.parseISO (Sample.services false FetchNotOk)
                         Sample.dialog Sample.world
                         (or_intror (or_intror eq_refl))))).
Defined.

(** ** The calendar function without a credential *)

Lemma substring_all (s : string) : String.substring 0 (String.length s) s = s.
Proof. induction s as [|c s IH]; simpl; [reflexivity | rewrite IH; reflexivity]. Qed.

Lemma bearer_token (token : string) :
  GoogleCalendar.replaceFirst "Bearer " "" (String.append "Bearer " token) = token.
Proof.
  simpl. change (String.append "" token) with token. simpl.
  rewrite Nat.sub_0_r.
  replace (String.prefix "" token) with true by (destruct token; reflexivity).
  change (String.append "" ?x) with x. apply substring_all.
Qed.

Lemma calendar_serve_not_options (sv : Services) (req : GoogleCalendar.Request)
    (w : World) :
  GoogleCalendar.method req <> "OPTIONS" ->
  GoogleCalendar.serve sv req w =
  match GoogleCalendar.handle sv req w with
  | (Returned r, w') => (Returned r, w')
  | (Thrown e, w') => (Returned (json 500 (ErrorBody (errorMessage e) None)), w')
  end.
Proof.
  intros Hm. unfold GoogleCalendar.serve.
  destruct (String.eqb_spec (GoogleCalendar.method req) "OPTIONS");
    [contradiction | reflexivity].
Qed.



Lemma calendarRequest_user (sv : Services) (act : string)
    (tmin tmax : option string) (ev : option GoogleCalendar.EventInput) :
  GoogleCalendar.method (calendarRequest sv act tmin tmax ev) <> "OPTIONS" /\
  Js.truthy_opt
    (GoogleCalendar.authorization (calendarRequest sv act tmin tmax ev)) = true /\
  GoogleCalendar.replaceFirst "Bearer " ""
    (default "" (GoogleCalendar.authorization
                   (calendarRequest sv act tmin tmax ev))) = sessionToken sv.
Proof.
  split; [discriminate|]. split; [reflexivity|]. apply bearer_token.
Qed.







(** ** A failed meeting creation *)

Lemma sameInterviews_refl (w : World) : sameInterviews w w.
Proof. repeat split. Qed.

Lemma sameInterviews_trans (w1 w2 w3 : World) :
  sameInterviews w1 w2 -> sameInterviews w2 w3 -> sameInterviews w1 w3.
Proof.
  intros (H1 & H2 & H3) (H4 & H5 & H6). repeat split; congruence.
Qed.

Lemma framed_ret {A : Type} (a : A) : framed (mret a).
Proof. intros w. apply sameInterviews_refl. Qed.

Lemma framed_throw {A : Type} (e : JsError) : framed (@throw A e).
Proof. intros w. apply sameInterviews_refl. Qed.

Lemma framed_call (c : Call) : framed (call c).
Proof. intros w. repeat split. Qed.

Lemma framed_getWorld : framed getWorld.
Proof. intros w. apply sameInterviews_refl. Qed.

Lemma framed_bind {A B : Type} (m : M A) (f : A -> M B) :
  framed m -> (forall a, framed (f a)) -> framed (m ≫= f).
Proof.
  intros Hm Hf w. unfold mbind, M_bind. specialize (Hm w).
  destruct (m w) as [[a|e] w1]; simpl in *; [|exact Hm].
  exact (sameInterviews_trans _ _ _ Hm (Hf a w1)).
Qed.

Lemma framed_tryCatch {A : Type} (m : M A) (h : JsError -> M A) :
  framed m -> (forall e, framed (h e)) -> framed (tryCatch m h).
Proof.
  intros Hm Hh w. unfold tryCatch. specialize (Hm w).
  destruct (m w) as [[a|e] w1]; simpl in *; [exact Hm|].
  exact (sameInterviews_trans _ _ _ Hm (Hh e w1)).
Qed.

Lemma framed_fetch {A : Type} (c : Call) (answer : Fetched A) :
  framed (fetch c answer).
Proof. intros w. destruct answer; repeat split. Qed.

Ltac frame :=
  repeat first
    [ apply framed_ret | apply framed_throw | apply framed_call
    | apply framed_getWorld | apply framed_fetch
    | apply framed_tryCatch | apply framed_bind
    | match goal with
      | |- forall _, _ => intro
      | |- framed (if ?c then _ else _) => destruct c
      | |- framed (match ?x with _ => _ end) => destruct x
      | |- framed (step _) => intros ?; repeat split
      end ].

Lemma calendar_serve_framed (sv : Services) (req : GoogleCalendar.Request) :
  framed (GoogleCalendar.serve sv req).
Proof.
  unfold GoogleCalendar.serve, GoogleCalendar.handle,
    GoogleCalendar.freshAccessToken, GoogleCalendar.dispatch.
  frame.
Qed.

Lemma calendar_serve_returns (sv : Services) (req : GoogleCalendar.Request) :
  returns (GoogleCalendar.serve sv req).
Proof.
  intros w. unfold GoogleCalendar.serve.
  destruct (String.eqb _ _); [eexists; reflexivity|].
  unfold tryCatch. destruct (GoogleCalendar.handle sv req w) as [[r|e] w'];
    eexists; reflexivity.
Qed.

Lemma invoke_framed (sv : Services) (name : string) (run : M Response) :
  framed run -> framed (invoke sv name run).
Proof. intros H. unfold invoke. frame. exact H. Qed.

Section ClientFacts.

Variable tz : Z.
Variable toISOString : Z -> string.
Variable dateOfString : string -> JsDate.

(** When the meeting-creation call fails, the dialog goes on without a link
    and without an event id. *)
Lemma createCalendarEvent_failed (sv : Services) (st : DialogState)
    (app : Application) (s e : Z) (w : World) :
  failed (fst (createEventCall sv st app (toISOString s) (toISOString e) w)) ->
  exists w1,
    createCalendarEvent toISOString sv st app (TimeValue s) (TimeValue e) w =
      (Returned (None, None), w1) /\
    sameInterviews w w1.
Proof.
  intros Hfailed.
  pose proof (invoke_framed sv "google-calendar" _
                (calendar_serve_framed sv
                   (calendarRequest sv "create-event" None None
                      (Some (eventInput st app (toISOString s) (toISOString e)))))
                w) as Hframe.
  fold (createEventCall sv st app (toISOString s) (toISOString e)) in Hframe.
  unfold createCalendarEvent, tryCatch. simpl isoString.
  unfold mbind, M_bind, mret, M_ret. simpl.
  destruct (createEventCall sv st app (toISOString s) (toISOString e) w)
    as [[r|err] w1]; simpl in *.
  - destruct (error r) as [x|]; [|destruct Hfailed; discriminate].
    exists w1. split; [reflexivity | exact Hframe].
  - exists (emit (Toast ToastError
                    "Calendar event creation failed, but continuing with scheduling")
              w1).
    split; [reflexivity|].
    destruct Hframe as (H1 & H2 & H3). repeat split; assumption.
Qed.

(** When the end of the interview is no date, the request is not even made:
    [toISOString] throws inside the [try], and the dialog goes on without a
    link. *)
Lemma createCalendarEvent_invalid_end (sv : Services) (st : DialogState)
    (app : Application) (scheduledAt : JsDate) (w : World) :
  exists w1,
    createCalendarEvent toISOString sv st app scheduledAt InvalidDate w =
      (Returned (None, None), w1) /\
    sameInterviews w w1 /\
    w1 = emit (Toast ToastError
                 "Calendar event creation failed, but continuing with scheduling")
           w.
Proof.
  unfold createCalendarEvent, tryCatch.
  destruct scheduledAt as [|s]; simpl isoString;
    unfold mbind, M_bind, mret, M_ret, throw, call; simpl;
    eexists; (split; [reflexivity|]); split; try reflexivity;
    repeat split; reflexivity.
Qed.

End ClientFacts.

(** C4, as the code has it: with an application, a date and a time selected,
    when the meeting-creation call of the dialog fails and the Teams fallback
    of the function cannot produce a meeting either, the interview is still
    stored, without a meeting link, and the mutation succeeds (given that the
    function is reached, the application exists and the database is not at
    fault). *)
Theorem failed_meeting_creation_still_schedules
    (tz : Z) (toISOString : Z -> string) (dateOfString : string -> JsDate)
    (sv : Services) (st : DialogState) (w : World)
    (date : JsDate) (app : Application) (s d : Z) :
  selectedDate st = Some date ->
  Js.truthy (selectedApplication st) = true ->
  Js.truthy (selectedTime st) = true ->
  findApplication st = Some app ->
  atTimeOfDay tz date (selectedTime st) = TimeValue s ->
  Js.parseInt (duration st) = Some d ->
  Js.truthy (toISOString s) = true ->
  calendarConnected st = true -> createMeetLink st = true ->
  failed (fst (createEventCall sv st app (toISOString s)
                 (toISOString (s + d * msPerMinute)) w)) ->
  teamsFails sv ->
  transport sv "schedule-interview" = Delivered ->
  is_Some (applicationsTable w !! selectedApplication st) ->
  (forall p, insertFault sv p = None) ->
  exists row w',
    mutationFn tz toISOString dateOfString sv st w =
      (Returned (Some (Scheduled row None
                         "Interview scheduled (add meeting link manually)"),
                 None), w') /\
    interviewsTable w' = (interviewsTable w ++ [row])%list /\
    meeting_url row = None /\
    application_id row = selectedApplication st /\
    scheduled_at row = toISOString s /\
    mutate tz toISOString dateOfString sv st w =
      (Returned (resetForm (setOpen false st)),
       emit (Toast ToastSuccess
               "Interview scheduled (add meeting link manually)") w').
Proof.
  intros Hdate Happ Htime Hfind Hs Hd Hiso Hconn Hmeet Hfailed Hteams
         Hdelivered Hex Hok.
  assert (Hev : exists w1,
            createCalendarEvent toISOString sv st app (TimeValue s)
              (timeClip (s + d * msPerMinute)) w
            = (Returned (None, None), w1)
            /\ sameInterviews w w1).
  { destruct (timeClip_cases (s + d * msPerMinute)) as [-> | ->].
    - exact (createCalendarEvent_failed toISOString sv st app s
               (s + d * msPerMinute) w Hfailed).
    - destruct (createCalendarEvent_invalid_end toISOString sv st app
                  (TimeValue s) w) as (w1 & Hrun & Hsame & _).
      exists w1. auto. }
  destruct Hev as (w1 & Hevent & Hsame1).
  destruct Hsame1 as (Ha1 & Hi1 & Hn1).
  set (req := scheduleRequest st app (toISOString s) None None).
  destruct (resolveMeeting_no_link toISOString dateOfString sv req
              (toISOString s) w1 eq_refl eq_refl Hteams) as (cs & Hresolve).
  assert (Hex1 : is_Some (applicationsTable w1 !! selectedApplication st))
    by (rewrite Ha1; exact Hex).
  destruct (serve_success_at toISOString dateOfString sv req w1
              (selectedApplication st) (toISOString s) None None cs
              ltac:(discriminate) eq_refl Happ eq_refl Hiso Hex1
              (fun p _ _ => Hok p) Hresolve)
    as (w' & Hserve & Hrows & _).
  cbv zeta in Hserve.
  assert (Hfn : mutationFn tz toISOString dateOfString sv st w =
                (Returned
                   (Some (Scheduled
                            (ScheduleInterview.rowOf (nextId w1)
                               (ScheduleInterview.interviewInsert req
                                  (selectedApplication st) (toISOString s)
                                  None None))
                            None
                            "Interview scheduled (add meeting link manually)"),
                    None), w')).
  { unfold mutationFn. rewrite Hdate, Happ, Htime, Hfind, Hs, Hd, Hconn, Hmeet.
    cbn [negb orb andb addMinutes].
    unfold mbind at 1. unfold M_bind at 1. cbv beta. rewrite Hevent.
    simpl isoString. unfold mbind, M_bind, mret, M_ret, invoke.
    rewrite Hdelivered. fold req.
    unfold mbind, M_bind. rewrite Hserve. reflexivity. }
  eexists _, w'. split; [exact Hfn|].
  split; [rewrite Hrows, Hi1; reflexivity|].
  repeat split.
  unfold mutate. rewrite Hfn. reflexivity.
Qed.

Lemma failed_meeting_creation_witness :
  exists row w',
    mutationFn 0 Sample.toISOString Sample.parseISO
      (Sample.services false FetchNotOk) Sample.chosen Sample.world =
      (Returned (Some (Scheduled row None
                         "Interview scheduled (add meeting link manually)"),
                 None), w') /\
    interviewsTable w' = [row] /\
    meeting_url row = None.
Proof.
  destruct (failed_meeting_creation_still_schedules
              0 Sample.toISOString Sample.parseISO
              (Sample.services false FetchNotOk) Sample.chosen Sample.world
              (TimeValue Sample.monday) Sample.application
              (Sample.monday + 9 * msPerHour) 60
              eq_refl eq_refl eq_refl eq_refl eq_refl eq_refl eq_refl
              eq_refl eq_refl
              ltac:(vm_compute; eauto)
              (or_introl eq_refl) eq_refl
              ltac:(vm_compute; eauto) (fun _ => eq_refl))
    as (row & w' & H1 & H2 & H3 & _).
  exists row, w'. split; [exact H1 | split; [exact H2 | exact H3]].
Defined.

(** C4 as stated fails: the meeting-creation call of the dialog fails, Teams
    is configured on the function's side and answers, and the interview is
    stored with the Teams link, not without a link. *)
Lemma teams_fallback_stores_a_link :
  failed (fst (createEventCall (Sample.services true FetchNotOk) Sample.chosen
                 Sample.application "2026-01-05T09:00:00.000Z"
                 "2026-01-05T10:00:00.000Z" Sample.world)) /\
  exists row text w',
    mutationFn 0 Sample.toISOString Sample.parseISO
      (Sample.services true FetchNotOk) Sample.chosen Sample.world =
      (Returned (Some (Scheduled row (Some "https://teams.example/meet/1") text),
                 None), w') /\
    interviewsTable w' = [row] /\
    meeting_url row = Some "https://teams.example/meet/1" /\
    meeting_url row <> None.
Proof.
  split; [vm_compute; eauto|].
  eexists _, _, _. split; [vm_compute; reflexivity|].
  repeat split. discriminate.
Qed.

(** * Further properties *)

(** ** The conflict check under longer interviews and more busy periods *)

(** When every slot busy in one state is busy in another, the first free slot
    of the second is the first free slot of the first or comes after it. *)
Lemma firstFree_mono (tz : Z) (parseISO : string -> JsDate)
    (st st' : DialogState) (slots : list string) (s' : string) :
  (forall slot, isSlotBusy tz parseISO st slot = true ->
                isSlotBusy tz parseISO st' slot = true) ->
  firstFree tz parseISO st' slots = Some s' ->
  exists s before after,
    firstFree tz parseISO st slots = Some s /\
    slots = (before ++ s :: after)%list /\
    (s' = s \/ In s' after).
Proof.
  intros Hmono. induction slots as [|x rest IH]; simpl; [discriminate|].
  destruct (isSlotBusy tz parseISO st x) eqn:Hx; simpl.
  - rewrite (Hmono x Hx). simpl. intros Hrest.
    destruct (IH Hrest) as (s & before & after & Hs & -> & Hpos).
    exists s, (x :: before), after. auto.
  - intros Hfirst. exists x, [], rest. split; [reflexivity|]. split; [reflexivity|].
    destruct (isSlotBusy tz parseISO st' x); simpl in Hfirst.
    + right. apply firstFree_Some in Hfirst.
      destruct Hfirst as (before & after & -> & _ & _).
      apply in_or_app. right. left. reflexivity.
    + left. congruence.
Qed.

Lemma overlaps_longer (parseISO : string -> JsDate) (s d d' : Z)
    (b : BusySlot) :
  d <= d' ->
  s + d' * msPerMinute <= maxTime ->
  overlaps parseISO (TimeValue s) (addMinutes (TimeValue s) (Some d)) b = true ->
  overlaps parseISO (TimeValue s) (addMinutes (TimeValue s) (Some d')) b = true.
Proof.
  intros Hle Hhigh. simpl addMinutes.
  destruct (timeClip_cases (s + d * msPerMinute)) as [Hd | Hd]; rewrite Hd;
    [|rewrite overlaps_invalid_end; discriminate].
  assert (Hrange : representable (s + d * msPerMinute)).
  { unfold timeClip in Hd.
    destruct (Z.leb_spec (- maxTime) (s + d * msPerMinute)),
             (Z.leb_spec (s + d * msPerMinute) maxTime);
      try discriminate Hd. split; assumption. }
  rewrite (timeClip_representable (s + d' * msPerMinute)).
  2:{ unfold representable, msPerMinute in *. lia. }
  rewrite !overlaps_true_iff.
  intros (b0 & b1 & H0 & H1 & Hlt & Hgt). exists b0, b1.
  repeat split; auto. unfold msPerMinute in *. lia.
Qed.

(** X1: lengthening the interview never frees a slot, as long as the longer
    interview still ends at a date: with the same date and busy periods, a
    slot that conflicts for [d] minutes conflicts for every [d' >= d] for
    which its end is within the range of dates; and when this is so for the
    last slot of the grid, the first available slot for the longer interview
    is the one for the shorter interview or a later one of the grid. *)
Theorem longer_interview_keeps_conflicts
    (tz : Z) (parseISO : string -> JsDate) (st st' : DialogState)
    (date : JsDate) (d d' : Z) :
  selectedDate st = Some date -> selectedDate st' = Some date ->
  busySlots st' = busySlots st ->
  Js.parseInt (duration st) = Some d ->
  Js.parseInt (duration st') = Some d' ->
  d <= d' ->
  (forall slot,
     (forall s, atTimeOfDay tz date slot = TimeValue s ->
                s + d' * msPerMinute <= maxTime) ->
     isSlotBusy tz parseISO st slot = true ->
     isSlotBusy tz parseISO st' slot = true) /\
  (forall t0,
     date = TimeValue t0 ->
     dayBase tz t0 + (1020 + d') * msPerMinute <= maxTime ->
     forall s', findFirstAvailable tz parseISO st' = Some s' ->
       exists s before after,
         findFirstAvailable tz parseISO st = Some s /\
         timeSlots = (before ++ s :: after)%list /\
         (s' = s \/ In s' after)).
Proof.
  intros Hdate Hdate' Hbusy Hd Hd' Hle.
  assert (Hmono : forall slot,
            (forall s, atTimeOfDay tz date slot = TimeValue s ->
                       s + d' * msPerMinute <= maxTime) ->
            isSlotBusy tz parseISO st slot = true ->
            isSlotBusy tz parseISO st' slot = true).
  { intros slot Hhigh.
    rewrite (isSlotBusy_exists tz parseISO st date slot Hdate).
    rewrite (isSlotBusy_exists tz parseISO st' date slot Hdate').
    rewrite Hbusy, Hd, Hd', !existsb_exists.
    intros (b & Hin & Hov). exists b. split; [exact Hin|].
    destruct (atTimeOfDay tz date slot) as [|s] eqn:Hs.
    - unfold overlaps in Hov. simpl in Hov. discriminate Hov.
    - exact (overlaps_longer parseISO s d d' b Hle (Hhigh s eq_refl) Hov). }
  split; [exact Hmono|].
  intros t0 -> Hhigh s' Hfirst.
  assert (Hgrid : forall slots,
            (forall slot, In slot slots -> slot ∈ timeSlots) ->
            firstFree tz parseISO st' slots = Some s' ->
            exists s before after,
              firstFree tz parseISO st slots = Some s /\
              slots = (before ++ s :: after)%list /\
              (s' = s \/ In s' after)).
  { clear Hfirst. induction slots as [|x rest IH]; simpl; [discriminate|].
    intros Hin.
    assert (Hx : isSlotBusy tz parseISO st x = true ->
                 isSlotBusy tz parseISO st' x = true).
    { apply Hmono. intros s Hs.
      destruct (grid_minutes_range x (Hin x (or_introl eq_refl)))
        as (m & Hm & Hrange).
      rewrite (atTimeOfDay_minutes tz t0 m x Hm) in Hs.
      injection Hs as <-. unfold msPerMinute in *. lia. }
    destruct (isSlotBusy tz parseISO st x) eqn:Hbx; simpl.
    - rewrite (Hx eq_refl). simpl. intros Hrest.
      destruct (IH (fun slot H => Hin slot (or_intror H)) Hrest)
        as (s & before & after & Hs & -> & Hpos).
      exists s, (x :: before), after. auto.
    - intros Hf. exists x, [], rest. split; [reflexivity|].
      split; [reflexivity|].
      destruct (isSlotBusy tz parseISO st' x); simpl in Hf.
      + right. apply firstFree_Some in Hf.
        destruct Hf as (before & after & -> & _ & _).
        apply in_or_app. right. left. reflexivity.
      + left. congruence. }
  apply (Hgrid timeSlots); [|exact Hfirst].
  intros slot Hin. apply list_elem_of_In. exact Hin.
Qed.

(** X2: more busy periods never free a slot: with the same date and
    duration, a slot that conflicts with a busy set conflicts with every
    larger one, and the first available slot can only move later in the
    grid. *)
Theorem more_busy_periods_keep_conflicts
    (tz : Z) (parseISO : string -> JsDate) (st st' : DialogState) :
  selectedDate st' = selectedDate st ->
  duration st' = duration st ->
  (forall b, b ∈ busySlots st -> b ∈ busySlots st') ->
  (forall slot, isSlotBusy tz parseISO st slot = true ->
                isSlotBusy tz parseISO st' slot = true) /\
  (forall s', findFirstAvailable tz parseISO st' = Some s' ->
     exists s before after,
       findFirstAvailable tz parseISO st = Some s /\
       timeSlots = (before ++ s :: after)%list /\
       (s' = s \/ In s' after)).
Proof.
  intros Hdate Hdur Hsub.
  assert (Hmono : forall slot, isSlotBusy tz parseISO st slot = true ->
                               isSlotBusy tz parseISO st' slot = true).
  { intros slot. destruct (selectedDate st) as [date|] eqn:Hd.
    - rewrite (isSlotBusy_exists tz parseISO st date slot Hd).
      rewrite (isSlotBusy_exists tz parseISO st' date slot Hdate).
      rewrite Hdur, !existsb_exists.
      intros (b & Hin & Hov). exists b. split; [|exact Hov].
      apply list_elem_of_In, Hsub, list_elem_of_In, Hin.
    - unfold isSlotBusy at 1. rewrite Hd. discriminate. }
  split; [exact Hmono|].
  intros s'. apply firstFree_mono. exact Hmono.
Qed.

Lemma longer_interview_witness :
  isSlotBusy 0 Sample.parseISO (setDuration "90" Sample.dialog) "09:30" = true.
Proof.
  refine (proj1 (longer_interview_keeps_conflicts 0 Sample.parseISO
                   Sample.dialog (setDuration "90" Sample.dialog)
                   (TimeValue Sample.monday) 60 90
                   eq_refl eq_refl eq_refl eq_refl eq_refl ltac:(lia))
            "09:30" _ eq_refl).
  intros s Hs. vm_compute in Hs. injection Hs as <-.
  unfold maxTime, msPerMinute. lia.
Defined.

Lemma more_busy_periods_witness :
  isSlotBusy 0 Sample.parseISO
    (setBusySlots [Sample.busyTenToEleven; Sample.busyNineToFive] Sample.dialog)
    "10:30" = true.
Proof.
  refine (proj1 (more_busy_periods_keep_conflicts 0 Sample.parseISO
                   Sample.dialog
                   (setBusySlots [Sample.busyTenToEleven; Sample.busyNineToFive]
                      Sample.dialog)
                   eq_refl eq_refl _)
            "10:30" eq_refl).
  intros b Hb. apply list_elem_of_In. apply list_elem_of_In in Hb.
  simpl in *. tauto.
Defined.

(** ** The auto-select effect *)

Lemma timeSlots_truthy (slot : string) :
  In slot timeSlots -> Js.truthy slot = true.
Proof.
  unfold timeSlots. simpl.
  intros H. repeat (destruct H as [<- | H]; [reflexivity|]). contradiction.
Qed.

Lemma findFirstAvailable_in_grid (tz : Z) (parseISO : string -> JsDate)
    (st : DialogState) (slot : string) :
  findFirstAvailable tz parseISO st = Some slot ->
  In slot timeSlots /\ isSlotBusy tz parseISO st slot = false.
Proof.
  intros H. apply firstFree_Some in H.
  destruct H as (before & after & Heq & _ & Hfree).
  split; [|exact Hfree]. rewrite Heq. apply in_or_app. right. left. reflexivity.
Qed.

(** The effect either leaves the state alone or sets the time to the
    selector's answer. *)
Lemma autoSelect_cases (tz : Z) (parseISO : string -> JsDate)
    (st : DialogState) :
  autoSelect tz parseISO st = st \/
  exists slot,
    findFirstAvailable tz parseISO st = Some slot /\
    selectedTime st = "" /\
    autoSelect tz parseISO st = setSelectedTime slot st.
Proof.
  unfold autoSelect.
  destruct (_ && _); [|left; reflexivity].
  destruct (findFirstAvailable tz parseISO st) as [slot|]; [|left; reflexivity].
  destruct (Js.truthy slot); simpl; [|left; reflexivity].
  destruct (selectedTime st) eqn:Ht; simpl; [|left; reflexivity].
  right. exists slot. auto.
Qed.

(** X3: whenever the auto-select effect changes the time, the new time is a
    slot of the grid that is not busy, in the state before and in the state
    after the change, so that it is an enabled option of the time list; every
    other field of the dialog is left as it was. *)
Theorem auto_select_picks_an_enabled_slot
    (tz : Z) (parseISO : string -> JsDate) (st : DialogState) :
  autoSelect tz parseISO st <> st ->
  let st' := autoSelect tz parseISO st in
  In (selectedTime st') timeSlots /\
  isSlotBusy tz parseISO st (selectedTime st') = false /\
  In (selectedTime st', false) (timeOptions tz parseISO st') /\
  st' = setSelectedTime (selectedTime st') st.
Proof.
  intros Hchanged. cbv zeta.
  destruct (autoSelect_cases tz parseISO st) as [Hsame | (slot & Hfirst & _ & Hset)];
    [contradiction|].
  rewrite Hset. simpl selectedTime.
  destruct (findFirstAvailable_in_grid tz parseISO st slot Hfirst) as [Hin Hfree].
  repeat split; auto.
  unfold timeOptions. apply in_map_iff. exists slot. split; [|exact Hin].
  f_equal. exact Hfree.
Qed.

Lemma auto_select_picks_witness :
  In (selectedTime (autoSelect 0 Sample.parseISO Sample.dialog)) timeSlots /\
  isSlotBusy 0 Sample.parseISO Sample.dialog
    (selectedTime (autoSelect 0 Sample.parseISO Sample.dialog)) = false.
Proof.
  destruct (auto_select_picks_an_enabled_slot 0 Sample.parseISO Sample.dialog
              ltac:(vm_compute; discriminate)) as (H1 & H2 & _).
  split; [exact H1 | exact H2].
Defined.

(** X4: the auto-select effect is idempotent: run again on its own result
    (the date, the busy periods and the loading flag unchanged), it changes
    nothing, so a time it has set is not moved by a re-run. *)
Theorem auto_select_is_idempotent
    (tz : Z) (parseISO : string -> JsDate) (st : DialogState) :
  autoSelect tz parseISO (autoSelect tz parseISO st) = autoSelect tz parseISO st.
Proof.
  destruct (autoSelect_cases tz parseISO st) as [Hsame | (slot & Hfirst & _ & Hset)].
  - rewrite Hsame. exact Hsame.
  - rewrite Hset.
    destruct (findFirstAvailable_in_grid tz parseISO st slot Hfirst) as [Hin _].
    pose proof (timeSlots_truthy slot Hin) as Htruthy.
    unfold autoSelect at 1. simpl selectedTime. rewrite Htruthy.
    destruct (_ && _); [|reflexivity].
    destruct (findFirstAvailable _ _ _) as [slot'|]; [|reflexivity].
    simpl. rewrite andb_false_r. reflexivity.
Qed.

(** ** What the functions send and touch *)

Lemma emits_ret {A : Type} (P : Call -> bool) (a : A) : emits P (mret a).
Proof. intros w. exists []. simpl. rewrite app_nil_r. auto. Qed.

Lemma emits_throw {A : Type} (P : Call -> bool) (e : JsError) :
  emits P (@throw A e).
Proof. intros w. exists []. simpl. rewrite app_nil_r. auto. Qed.

Lemma emits_getWorld (P : Call -> bool) : emits P getWorld.
Proof. intros w. exists []. simpl. rewrite app_nil_r. auto. Qed.

Lemma emits_call (P : Call -> bool) (c : Call) :
  P c = true -> emits P (call c).
Proof. intros Hc w. exists [c]. simpl. auto. Qed.

Lemma emits_bind {A B : Type} (P : Call -> bool) (m : M A) (f : A -> M B) :
  emits P m -> (forall a, emits P (f a)) -> emits P (m ≫= f).
Proof.
  intros Hm Hf w. unfold mbind, M_bind. destruct (Hm w) as (cs & Hcs & Hall).
  destruct (m w) as [[a|e] w1]; simpl in *; [|eauto].
  destruct (Hf a w1) as (cs' & Hcs' & Hall').
  exists (cs ++ cs')%list. rewrite Hcs', Hcs, app_assoc.
  split; [reflexivity | apply Forall_app; auto].
Qed.

Lemma emits_tryCatch {A : Type} (P : Call -> bool) (m : M A)
    (h : JsError -> M A) :
  emits P m -> (forall e, emits P (h e)) -> emits P (tryCatch m h).
Proof.
  intros Hm Hh w. unfold tryCatch. destruct (Hm w) as (cs & Hcs & Hall).
  destruct (m w) as [[a|e] w1]; simpl in *; [eauto|].
  destruct (Hh e w1) as (cs' & Hcs' & Hall').
  exists (cs ++ cs')%list. rewrite Hcs', Hcs, app_assoc.
  split; [reflexivity | apply Forall_app; auto].
Qed.

Lemma emits_fetch {A : Type} (P : Call -> bool) (c : Call)
    (answer : Fetched A) :
  P c = true -> emits P (fetch c answer).
Proof.
  intros Hc. unfold fetch. apply emits_bind; [apply emits_call, Hc|].
  intros _. destruct answer; [apply emits_throw | apply emits_ret | apply emits_ret].
Qed.

Lemma emits_silent {A : Type} (P : Call -> bool) (f : World -> Outcome A * World) :
  (forall w, outbox (snd (f w)) = outbox w) -> emits P (step f).
Proof.
  intros Hf w. exists []. unfold step. rewrite Hf, app_nil_r. auto.
Qed.

Ltac sends :=
  repeat first
    [ apply emits_ret | apply emits_throw | apply emits_getWorld
    | apply emits_fetch; reflexivity | apply emits_call; reflexivity
    | apply emits_tryCatch | apply emits_bind
    | apply emits_silent; intros ?; simpl; repeat case_match; reflexivity
    | match goal with
      | |- forall _, _ => intro
      | |- emits _ (if ?c then _ else _) => destruct c
      | |- emits _ (match ?x with _ => _ end) => destruct x
      end ].

Lemma calendar_serve_emits (sv : Services) (req : GoogleCalendar.Request) :
  emits isGoogleCall (GoogleCalendar.serve sv req).
Proof.
  unfold GoogleCalendar.serve, GoogleCalendar.handle,
    GoogleCalendar.freshAccessToken, GoogleCalendar.dispatch.
  sends.
Qed.

Lemma schedule_serve_emits (toISOString : Z -> string)
    (dateOfString : string -> JsDate) (sv : Services)
    (req : ScheduleInterview.Request) :
  emits isSchedulingCall
    (ScheduleInterview.serve toISOString dateOfString sv req).
Proof.
  unfold ScheduleInterview.serve, ScheduleInterview.handle,
    ScheduleInterview.resolveMeeting, ScheduleInterview.createTeamsMeeting,
    ScheduleInterview.insertInterview, ScheduleInterview.updateApplication,
    invokeFunction, isoString.
  sends.
Qed.

(** X5: the calendar function always answers (it never throws), every
    request it sends goes to Google (no e-mail, no chat message, no Teams
    request, no write to interviews or applications), and it leaves the
    applications, the interviews and the supply of interview ids as they
    were. *)
Theorem calendar_function_only_talks_to_google
    (sv : Services) (req : GoogleCalendar.Request) (w : World) :
  exists r w' cs,
    GoogleCalendar.serve sv req w = (Returned r, w') /\
    outbox w' = (outbox w ++ cs)%list /\
    Forall (fun c => isGoogleCall c = true) cs /\
    applicationsTable w' = applicationsTable w /\
    interviewsTable w' = interviewsTable w /\
    nextId w' = nextId w.
Proof.
  destruct (calendar_serve_returns sv req w) as (r & Hr).
  destruct (calendar_serve_emits sv req w) as (cs & Hcs & Hall).
  destruct (calendar_serve_framed sv req w) as (Ha & Hi & Hn).
  destruct (GoogleCalendar.serve sv req w) as [o w'] eqn:Hrun.
  simpl in *. subst o. exists r, w', cs. auto 10.
Qed.

Lemma truthy_opt_Some (o : option string) :
  Js.truthy_opt o = true -> exists s, o = Some s /\ Js.truthy s = true.
Proof. destruct o as [s|]; simpl; [eauto | discriminate]. Qed.

(** Every run of schedule-interview answers, leaves the calendar credentials
    alone, and either stores nothing or appends one interview whose id is the
    next of the supply, answering with that interview. *)
Lemma schedule_serve_rows (toISOString : Z -> string)
    (dateOfString : string -> JsDate) (sv : Services)
    (req : ScheduleInterview.Request) (w : World) :
  exists r w',
    ScheduleInterview.serve toISOString dateOfString sv req w =
      (Returned r, w') /\
    googleTokens w' = googleTokens w /\
    ((interviewsTable w' = interviewsTable w /\ nextId w' = nextId w /\
      forall row url text, body r <> Scheduled row url text) \/
     (exists row url text,
        r = json 200 (Scheduled row url text) /\
        interviewsTable w' = (interviewsTable w ++ [row])%list /\
        row_id row = nextId w /\ nextId w' = S (nextId w))).
Proof.
  destruct (String.eqb_spec (ScheduleInterview.method req) "OPTIONS") as [Hm|Hm].
  { unfold ScheduleInterview.serve. rewrite Hm. simpl.
    eexists _, _. split; [reflexivity|]. split; [reflexivity|].
    left. repeat split. discriminate. }
  rewrite (serve_not_options toISOString dateOfString sv req w Hm).
  destruct (Js.truthy_opt (ScheduleInterview.applicationId req)) eqn:Happ.
  2:{ unfold ScheduleInterview.handle. rewrite Happ. simpl.
      eexists _, _. split; [reflexivity|]. split; [reflexivity|].
      left. repeat split. discriminate. }
  destruct (Js.truthy_opt (ScheduleInterview.scheduledAt req)) eqn:Hat.
  2:{ unfold ScheduleInterview.handle. rewrite Happ, Hat. simpl.
      eexists _, _. split; [reflexivity|]. split; [reflexivity|].
      left. repeat split. discriminate. }
  apply truthy_opt_Some in Happ. destruct Happ as (appId & Happ & Htapp).
  apply truthy_opt_Some in Hat. destruct Hat as (at_ & Hat & Htat).
  destruct (resolveMeeting_frame toISOString dateOfString sv req at_ w)
    as (url & id & cs & Hmeet & _).
  rewrite (handle_after_meeting toISOString dateOfString sv req w _ appId at_
             url id Happ Htapp Hat Htat Hmeet).
  rewrite insertInterview_run.
  destruct (insertFault sv _) as [e|].
  { eexists _, _. split; [reflexivity|]. split; [reflexivity|].
    left. repeat split. discriminate. }
  destruct (bool_decide _).
  2:{ eexists _, _. split; [reflexivity|]. split; [reflexivity|].
      left. repeat split. discriminate. }
  eexists _, _. split; [reflexivity|].
  unfold ScheduleInterview.updateApplication. run.
  destruct (updateFault sv); simpl; (split; [reflexivity|]);
    right; eexists _, _, _; repeat split.
Qed.

(** X6: schedule-interview always answers (it never throws); it never calls
    Google and never touches the calendar credentials; one request stores at
    most one interview, exactly when it answers with that interview, under
    the next id of the supply, so that the ids of the stored interviews stay
    below the supply and pairwise distinct. *)
Theorem scheduling_stores_at_most_one_interview
    (toISOString : Z -> string) (dateOfString : string -> JsDate)
    (sv : Services) (req : ScheduleInterview.Request) (w : World) :
  exists r w' cs,
    ScheduleInterview.serve toISOString dateOfString sv req w =
      (Returned r, w') /\
    googleTokens w' = googleTokens w /\
    outbox w' = (outbox w ++ cs)%list /\
    Forall (fun c => isGoogleCall c = false) cs /\
    ((interviewsTable w' = interviewsTable w /\
      forall row url text, body r <> Scheduled row url text) \/
     (exists row url text,
        r = json 200 (Scheduled row url text) /\
        interviewsTable w' = (interviewsTable w ++ [row])%list)) /\
    (idsBelowSupply w -> idsBelowSupply w') /\
    (idsBelowSupply w -> NoDup (map row_id (interviewsTable w)) ->
     NoDup (map row_id (interviewsTable w'))).
Proof.
  destruct (schedule_serve_rows toISOString dateOfString sv req w)
    as (r & w' & Hrun & Htok & Hrows).
  destruct (schedule_serve_emits toISOString dateOfString sv req w)
    as (cs & Hcs & Hall).
  rewrite Hrun in Hcs. simpl in Hcs.
  exists r, w', cs. split; [exact Hrun|]. split; [exact Htok|].
  split; [exact Hcs|]. split.
  { eapply Forall_impl; [exact Hall|]. intros c Hc. destruct c; simpl in *;
      congruence. }
  unfold idsBelowSupply.
  destruct Hrows as [(Hi & Hn & Hbody) | (row & url & text & -> & Hi & Hid & Hn)].
  - rewrite Hi, Hn. split; [left; auto|]. auto.
  - rewrite Hi, Hn. split; [right; eauto|]. split.
    + intros Hbelow. apply Forall_app. split.
      * eapply Forall_impl; [exact Hbelow|]. simpl. intros; lia.
      * constructor; [lia | constructor].
    + intros Hbelow Hnodup. rewrite map_app. simpl.
      apply NoDup_app. split; [exact Hnodup|]. split.
      * intros n Hn1 Hn2. apply list_elem_of_In in Hn1.
        apply list_elem_of_In in Hn2.
        apply in_map_iff in Hn1. destruct Hn1 as (r0 & <- & Hr0).
        rewrite Forall_forall in Hbelow. apply list_elem_of_In in Hr0.
        specialize (Hbelow r0 Hr0). simpl in Hn2.
        destruct Hn2 as [Heq | []]. lia.
      * apply NoDup_singleton.
Qed.

(** ** schedule-interview after the insertion *)

(** The run of schedule-interview from a successful insertion on. *)
Lemma serve_after_insert
    (toISOString : Z -> string) (dateOfString : string -> JsDate)
    (sv : Services) (req : ScheduleInterview.Request) (w w1 w2 : World)
    (appId at_ : string) (url id : option string) (row : InterviewRow) :
  ScheduleInterview.method req <> "OPTIONS" ->
  ScheduleInterview.applicationId req = Some appId -> Js.truthy appId = true ->
  ScheduleInterview.scheduledAt req = Some at_ -> Js.truthy at_ = true ->
  ScheduleInterview.resolveMeeting toISOString dateOfString sv req at_ w =
    (Returned (url, id), w1) ->
  ScheduleInterview.insertInterview sv
    (ScheduleInterview.interviewInsert req appId at_ url id) w1 =
    (Returned (inl row), w2) ->
  exists w3,
    ScheduleInterview.serve toISOString dateOfString sv req w =
      (Returned (json 200 (Scheduled row url (ScheduleInterview.successText url))),
       w3) /\
    outbox w3 =
      (outbox w2 ++ [UpdateApplicationStatus appId "interview";
                     SendEmail (ScheduleInterview.candidateEmail req);
                     SlackNotify])%list /\
    interviewsTable w3 = interviewsTable w2 /\
    (updateFault sv = None ->
     applicationsTable w3 =
       alter (fun _ => "interview") appId (applicationsTable w2)) /\
    (updateFault sv <> None -> applicationsTable w3 = applicationsTable w2).
Proof.
  intros Hm Happ Htapp Hat Htat Hmeet Hins.
  rewrite (serve_not_options toISOString dateOfString sv req w Hm).
  rewrite (handle_after_meeting toISOString dateOfString sv req w w1 appId at_
             url id Happ Htapp Hat Htat Hmeet), Hins.
  eexists. split; [reflexivity|].
  unfold ScheduleInterview.updateApplication. run.
  destruct (updateFault sv); simpl; rewrite <- !app_assoc; simpl;
    repeat split; congruence.
Qed.


(** X7: once the interview is inserted, the answer is a success whatever
    happens next: the status update and the two notifications are each
    attempted once, in this order, and neither an error of the update nor a
    failing or throwing notification changes the answer or the stored
    interviews; a failed update only leaves the applications as they were. *)
Theorem notifications_are_best_effort
    (toISOString : Z -> string) (dateOfString : string -> JsDate)
    (sv : Services) (req : ScheduleInterview.Request) (w w1 w2 : World)
    (appId at_ : string) (url id : option string) (row : InterviewRow) :
  ScheduleInterview.method req <> "OPTIONS" ->
  ScheduleInterview.applicationId req = Some appId -> Js.truthy appId = true ->
  ScheduleInterview.scheduledAt req = Some at_ -> Js.truthy at_ = true ->
  ScheduleInterview.resolveMeeting toISOString dateOfString sv req at_ w =
    (Returned (url, id), w1) ->
  ScheduleInterview.insertInterview sv
    (ScheduleInterview.interviewInsert req appId at_ url id) w1 =
    (Returned (inl row), w2) ->
  exists w3,
    ScheduleInterview.serve toISOString dateOfString sv req w =
      (Returned (json 200 (Scheduled row url (ScheduleInterview.successText url))),
       w3) /\
    outbox w3 =
      (outbox w2 ++ [UpdateApplicationStatus appId "interview";
                     SendEmail (ScheduleInterview.candidateEmail req);
                     SlackNotify])%list /\
    interviewsTable w3 = interviewsTable w2 /\
    (updateFault sv = None ->
     applicationsTable w3 =
       alter (fun _ => "interview") appId (applicationsTable w2)) /\
    (updateFault sv <> None -> applicationsTable w3 = applicationsTable w2).
Proof. apply serve_after_insert. Qed.

Lemma notifications_witness :
  exists r w3,
    ScheduleInterview.serve Sample.toISOString Sample.parseISO
      (withNotifications (Some Sample.foreignKey)
         (InvokeThrows (newError "mail is down"))
         (InvokeThrows (newError "no webhook"))
         (Sample.services false FetchNotOk))
      (Sample.request "app-1" (JsonNum 60) (Some "Technical")) Sample.world =
      (Returned r, w3) /\
    status r = 200 /\
    applicationsTable w3 = applicationsTable Sample.world.
Proof.
  destruct (notifications_are_best_effort Sample.toISOString Sample.parseISO
              (withNotifications (Some Sample.foreignKey)
                 (InvokeThrows (newError "mail is down"))
                 (InvokeThrows (newError "no webhook"))
                 (Sample.services false FetchNotOk))
              (Sample.request "app-1" (JsonNum 60) (Some "Technical"))
              Sample.world Sample.world _
              "app-1" "2026-01-05T09:00:00.000Z" None None _
              ltac:(discriminate) eq_refl eq_refl eq_refl eq_refl eq_refl
              eq_refl)
    as (w3 & H1 & _ & _ & _ & H5).
  eexists _, w3. split; [exact H1|]. split; [reflexivity|].
  apply H5. discriminate.
Defined.

(** A request that passes validation, for an application that exists, on a
    database that accepts the row, once the meeting link is settled: the
    answer, the stored interview, everything sent, and the applications. *)
Lemma serve_success_full
    (toISOString : Z -> string) (dateOfString : string -> JsDate)
    (sv : Services) (req : ScheduleInterview.Request) (w : World)
    (appId at_ : string) (url id : option string) (cs : list Call) :
  ScheduleInterview.method req <> "OPTIONS" ->
  ScheduleInterview.applicationId req = Some appId -> Js.truthy appId = true ->
  ScheduleInterview.scheduledAt req = Some at_ -> Js.truthy at_ = true ->
  is_Some (applicationsTable w !! appId) ->
  insertFault sv (ScheduleInterview.interviewInsert req appId at_ url id) = None ->
  ScheduleInterview.resolveMeeting toISOString dateOfString sv req at_ w =
    (Returned (url, id), emitAll cs w) ->
  exists w',
    ScheduleInterview.serve toISOString dateOfString sv req w =
      (Returned
         (json 200
            (Scheduled
               (ScheduleInterview.rowOf (nextId w)
                  (ScheduleInterview.interviewInsert req appId at_ url id))
               url (ScheduleInterview.successText url))), w') /\
    interviewsTable w' =
      (interviewsTable w ++
       [ScheduleInterview.rowOf (nextId w)
          (ScheduleInterview.interviewInsert req appId at_ url id)])%list /\
    outbox w' =
      (outbox w ++ cs ++
       [InsertInterview (ScheduleInterview.interviewInsert req appId at_ url id);
        UpdateApplicationStatus appId "interview";
        SendEmail (ScheduleInterview.candidateEmail req);
        SlackNotify])%list /\
    (updateFault sv = None ->
     applicationsTable w' =
       alter (fun _ => "interview") appId (applicationsTable w)) /\
    (updateFault sv <> None -> applicationsTable w' = applicationsTable w).
Proof.
  intros Hm Happ Htapp Hat Htat Hex Hok Hmeet.
  assert (Hins : ScheduleInterview.insertInterview sv
                   (ScheduleInterview.interviewInsert req appId at_ url id)
                   (emitAll cs w) =
                 (Returned (inl (ScheduleInterview.rowOf (nextId w)
                      (ScheduleInterview.interviewInsert req appId at_ url id))),
                  appendInterview
                    (ScheduleInterview.rowOf (nextId w)
                       (ScheduleInterview.interviewInsert req appId at_ url id))
                    (emit (InsertInterview
                             (ScheduleInterview.interviewInsert req appId at_ url id))
                       (emitAll cs w)))).
  { rewrite insertInterview_run, Hok. simpl ins_application_id.
    simpl applicationsTable. rewrite (bool_decide_eq_true_2 _ Hex). reflexivity. }
  destruct (serve_after_insert toISOString dateOfString sv req w _ _ appId at_
              url id _ Hm Happ Htapp Hat Htat Hmeet Hins)
    as (w' & Hrun & Hout & Hrows & Hupd & Hkeep).
  exists w'. split; [exact Hrun|]. split; [exact Hrows|].
  split; [|split; [exact Hupd | exact Hkeep]].
  rewrite Hout. simpl. rewrite <- !app_assoc. reflexivity.
Qed.

(** X8: a successful scheduling moves the application to the status
    "interview" and changes no other application; when only the status
    update fails, the interview is stored and success is answered all the
    same, with the applications as they were. *)
Theorem scheduling_moves_the_application_to_interview
    (toISOString : Z -> string) (dateOfString : string -> JsDate)
    (sv : Services) (req : ScheduleInterview.Request) (w : World)
    (appId at_ : string) :
  ScheduleInterview.method req <> "OPTIONS" ->
  ScheduleInterview.applicationId req = Some appId -> Js.truthy appId = true ->
  ScheduleInterview.scheduledAt req = Some at_ -> Js.truthy at_ = true ->
  is_Some (applicationsTable w !! appId) ->
  (forall p, insertFault sv p = None) ->
  exists row url text w',
    ScheduleInterview.serve toISOString dateOfString sv req w =
      (Returned (json 200 (Scheduled row url text)), w') /\
    (updateFault sv = None ->
     applicationsTable w' !! appId = Some "interview" /\
     forall other, other <> appId ->
       applicationsTable w' !! other = applicationsTable w !! other) /\
    (updateFault sv <> None -> applicationsTable w' = applicationsTable w).
Proof.
  intros Hm Happ Htapp Hat Htat Hex Hok.
  destruct (resolveMeeting_frame toISOString dateOfString sv req at_ w)
    as (url & id & cs & Hmeet & _).
  destruct (serve_success_full toISOString dateOfString sv req w appId at_
              url id cs Hm Happ Htapp Hat Htat Hex (Hok _) Hmeet)
    as (w' & Hrun & _ & _ & Hupd & Hkeep).
  eexists _, _, _, w'. split; [exact Hrun|]. split; [|exact Hkeep].
  intros Hnone. rewrite (Hupd Hnone). split.
  - rewrite lookup_alter. destruct (decide (appId = appId)); [|congruence].
    destruct Hex as [x ->]. reflexivity.
  - intros other Hne. rewrite lookup_alter.
    destruct (decide (appId = other)); [congruence | reflexivity].
Qed.

Lemma scheduling_moves_the_application_witness :
  exists r w',
    ScheduleInterview.serve Sample.toISOString Sample.parseISO
      (Sample.services false FetchNotOk)
      (Sample.request "app-1" (JsonNum 60) (Some "Technical")) Sample.world =
      (Returned r, w') /\
    applicationsTable w' !! "app-1" = Some "interview".
Proof.
  destruct (scheduling_moves_the_application_to_interview
              Sample.toISOString Sample.parseISO
              (Sample.services false FetchNotOk)
              (Sample.request "app-1" (JsonNum 60) (Some "Technical"))
              Sample.world "app-1" "2026-01-05T09:00:00.000Z"
              ltac:(discriminate) eq_refl eq_refl eq_refl eq_refl
              ltac:(vm_compute; eauto) (fun _ => eq_refl))
    as (row & url & text & w' & H1 & H2 & _).
  eexists _, w'. split; [exact H1|]. exact (proj1 (H2 eq_refl)).
Defined.

(** ** The meeting link of the stored interview *)

Lemma resolveMeeting_provided
    (toISOString : Z -> string) (dateOfString : string -> JsDate)
    (sv : Services) (req : ScheduleInterview.Request) (at_ : string)
    (w : World) :
  Js.truthy_opt (ScheduleInterview.meetingUrl req) = true ->
  ScheduleInterview.resolveMeeting toISOString dateOfString sv req at_ w =
  (Returned (ScheduleInterview.meetingUrl req,
             Js.or_str (ScheduleInterview.meetingId req) None), emitAll [] w).
Proof.
  intros Hurl. unfold ScheduleInterview.resolveMeeting, Js.or_str.
  rewrite !Hurl, emitAll_nil. reflexivity.
Qed.

(** X9: a request that brings a meeting link is stored with exactly that
    link (and its meeting id, if any), and Teams is not contacted, whether it
    is configured or not: nothing is sent but the insertion, the status
    update and the two notifications. *)
Theorem provided_meeting_link_is_kept
    (toISOString : Z -> string) (dateOfString : string -> JsDate)
    (sv : Services) (req : ScheduleInterview.Request) (w : World)
    (appId at_ link : string) :
  ScheduleInterview.method req <> "OPTIONS" ->
  ScheduleInterview.applicationId req = Some appId -> Js.truthy appId = true ->
  ScheduleInterview.scheduledAt req = Some at_ -> Js.truthy at_ = true ->
  ScheduleInterview.meetingUrl req = Some link -> Js.truthy link = true ->
  is_Some (applicationsTable w !! appId) ->
  (forall p, insertFault sv p = None) ->
  exists row w',
    ScheduleInterview.serve toISOString dateOfString sv req w =
      (Returned (json 200 (Scheduled row (Some link)
                             "Interview scheduled with video meeting link")),
       w') /\
    interviewsTable w' = (interviewsTable w ++ [row])%list /\
    meeting_url row = Some link /\
    meeting_id row = Js.or_str (ScheduleInterview.meetingId req) None /\
    outbox w' =
      (outbox w ++
       [InsertInterview
          (ScheduleInterview.interviewInsert req appId at_ (Some link)
             (Js.or_str (ScheduleInterview.meetingId req) None));
        UpdateApplicationStatus appId "interview";
        SendEmail (ScheduleInterview.candidateEmail req);
        SlackNotify])%list.
Proof.
  intros Hm Happ Htapp Hat Htat Hurl Htlink Hex Hok.
  assert (Htruthy : Js.truthy_opt (ScheduleInterview.meetingUrl req) = true)
    by (rewrite Hurl; exact Htlink).
  pose proof (resolveMeeting_provided toISOString dateOfString sv req at_ w
                Htruthy) as Hmeet.
  rewrite Hurl in Hmeet.
  destruct (serve_success_full toISOString dateOfString sv req w appId at_
              _ _ [] Hm Happ Htapp Hat Htat Hex (Hok _) Hmeet)
    as (w' & Hrun & Hrows & Hout & _).
  unfold ScheduleInterview.successText, Js.truthy_opt in Hrun.
  rewrite Htlink in Hrun.
  eexists _, w'.
  split; [exact Hrun|]. split; [exact Hrows|]. repeat split. exact Hout.
Qed.

Lemma provided_meeting_link_witness :
  exists row w',
    interviewsTable w' = [row] /\
    meeting_url row = Some "https://meet.example/abc" /\
    Forall (fun c => isTeamsCall c = false) (outbox w').
Proof.
  destruct (provided_meeting_link_is_kept Sample.toISOString Sample.parseISO
              (Sample.services true FetchNotOk) Sample.requestWithLink
              Sample.world "app-1" "2026-01-05T09:00:00.000Z"
              "https://meet.example/abc"
              ltac:(discriminate) eq_refl eq_refl eq_refl eq_refl eq_refl
              eq_refl ltac:(vm_compute; eauto) (fun _ => eq_refl))
    as (row & w' & _ & H2 & H3 & _ & H5).
  exists row, w'. split; [exact H2|]. split; [exact H3|].
  rewrite H5. repeat constructor.
Defined.

Lemma resolveMeeting_teams
    (toISOString : Z -> string) (dateOfString : string -> JsDate)
    (sv : Services) (req : ScheduleInterview.Request) (at_ : string)
    (w : World) (t n : Z) (joinWebUrl id : option string) :
  Js.truthy_opt (ScheduleInterview.meetingUrl req) = false ->
  msConfigured sv = true ->
  teamsToken sv = FetchOk tt ->
  dateOfString at_ = TimeValue t ->
  toNumber (ScheduleInterview.durationMinutes req) = Some n ->
  representable (t + n * 60000) ->
  teamsMeeting sv = FetchOk (joinWebUrl, id) ->
  ScheduleInterview.resolveMeeting toISOString dateOfString sv req at_ w =
  (Returned (joinWebUrl, id),
   emitAll [TeamsTokenRequest;
            TeamsMeetingRequest (toISOString t) (toISOString (t + n * 60000))] w).
Proof.
  intros Hurl Hms Htoken Hdate Hdur Hrange Hmeeting.
  unfold ScheduleInterview.resolveMeeting, Js.or_str.
  rewrite !Hurl. simpl. rewrite Hms.
  unfold ScheduleInterview.createTeamsMeeting. run.
  rewrite Htoken. simpl. rewrite Hdate, Hdur. simpl.
  rewrite (timeClip_representable _ Hrange). simpl. rewrite Hmeeting. simpl.
  rewrite !emit_one, emitAll_emitAll. reflexivity.
Qed.

(** X10: a request without a meeting link, with Teams configured and
    answering, whose scheduled time plus [durationMinutes] minutes is still a
    date, is stored with the join URL and the id of the Teams meeting, which
    was requested from the scheduled time to that time plus
    [durationMinutes] minutes as the request gives them, not the 60 stored by
    default. *)
Theorem teams_meeting_is_stored
    (toISOString : Z -> string) (dateOfString : string -> JsDate)
    (sv : Services) (req : ScheduleInterview.Request) (w : World)
    (appId at_ : string) (t n : Z) (joinWebUrl id : option string) :
  ScheduleInterview.method req <> "OPTIONS" ->
  ScheduleInterview.applicationId req = Some appId -> Js.truthy appId = true ->
  ScheduleInterview.scheduledAt req = Some at_ -> Js.truthy at_ = true ->
  Js.truthy_opt (ScheduleInterview.meetingUrl req) = false ->
  msConfigured sv = true ->
  teamsToken sv = FetchOk tt ->
  dateOfString at_ = TimeValue t ->
  toNumber (ScheduleInterview.durationMinutes req) = Some n ->
  representable (t + n * 60000) ->
  teamsMeeting sv = FetchOk (joinWebUrl, id) ->
  is_Some (applicationsTable w !! appId) ->
  (forall p, insertFault sv p = None) ->
  exists row text w',
    ScheduleInterview.serve toISOString dateOfString sv req w =
      (Returned (json 200 (Scheduled row joinWebUrl text)), w') /\
    interviewsTable w' = (interviewsTable w ++ [row])%list /\
    meeting_url row = joinWebUrl /\ meeting_id row = id /\
    In (TeamsMeetingRequest (toISOString t) (toISOString (t + n * 60000)))
       (outbox w').
Proof.
  intros Hm Happ Htapp Hat Htat Hurl Hms Htoken Hdate Hdur Hrange Hmeeting
    Hex Hok.
  pose proof (resolveMeeting_teams toISOString dateOfString sv req at_ w t n
                joinWebUrl id Hurl Hms Htoken Hdate Hdur Hrange Hmeeting)
    as Hmeet.
  destruct (serve_success_full toISOString dateOfString sv req w appId at_
              _ _ _ Hm Happ Htapp Hat Htat Hex (Hok _) Hmeet)
    as (w' & Hrun & Hrows & Hout & _).
  eexists _, _, w'. split; [exact Hrun|]. split; [exact Hrows|].
  repeat split. rewrite Hout, !in_app_iff. simpl. tauto.
Qed.

Lemma teams_meeting_witness :
  exists row w',
    interviewsTable w' = [row] /\
    meeting_url row = Some "https://teams.example/meet/1" /\
    In (TeamsMeetingRequest "2026-01-05T09:00:00.000Z" "2026-01-05T09:45:00.000Z")
       (outbox w').
Proof.
  destruct (teams_meeting_is_stored Sample.toISOString Sample.parseISO
              (Sample.services true FetchNotOk)
              (Sample.request "app-1" (JsonNum 45) (Some "Technical"))
              Sample.world "app-1" "2026-01-05T09:00:00.000Z"
              (Sample.monday + 9 * msPerHour) 45
              (Some "https://teams.example/meet/1") (Some "teams-1")
              ltac:(discriminate) eq_refl eq_refl eq_refl eq_refl eq_refl
              eq_refl eq_refl eq_refl eq_refl
              ltac:(unfold representable, maxTime, Sample.monday, msPerHour; lia)
              eq_refl
              ltac:(vm_compute; eauto) (fun _ => eq_refl))
    as (row & text & w' & _ & H2 & H3 & _ & H5).
  exists row, w'. split; [exact H2|]. split; [exact H3|]. exact H5.
Defined.

Lemma resolveMeeting_undated
    (toISOString : Z -> string) (dateOfString : string -> JsDate)
    (sv : Services) (req : ScheduleInterview.Request) (at_ : string)
    (w : World) :
  Js.truthy_opt (ScheduleInterview.meetingUrl req) = false ->
  dateOfString at_ = InvalidDate \/
  ScheduleInterview.durationMinutes req = Absent ->
  exists cs,
    ScheduleInterview.resolveMeeting toISOString dateOfString sv req at_ w =
      (Returned (None, Js.or_str (ScheduleInterview.meetingId req) None),
       emitAll cs w) /\
    (cs = [] \/ cs = [TeamsTokenRequest]).
Proof.
  intros Hurl Hundated.
  unfold ScheduleInterview.resolveMeeting, Js.or_str.
  rewrite !Hurl. simpl.
  destruct (msConfigured sv).
  2:{ exists []. rewrite emitAll_nil. auto. }
  unfold ScheduleInterview.createTeamsMeeting. run.
  destruct (teamsToken sv) as [e | | []]; simpl;
    try (exists [TeamsTokenRequest]; auto; fail).
  destruct Hundated as [-> | ->]; simpl.
  - exists [TeamsTokenRequest]. auto.
  - destruct (dateOfString at_); simpl; exists [TeamsTokenRequest]; auto.
Qed.

(** X11: a request without a meeting link whose time does not parse as a
    date, or that has no [durationMinutes], never gets a Teams meeting, even
    with Teams configured and answering: the meeting request is not sent, and
    the interview is stored without a link (with 60 minutes when the duration
    is missing). *)
Theorem no_teams_meeting_without_time_or_duration
    (toISOString : Z -> string) (dateOfString : string -> JsDate)
    (sv : Services) (req : ScheduleInterview.Request) (w : World)
    (appId at_ : string) :
  ScheduleInterview.method req <> "OPTIONS" ->
  ScheduleInterview.applicationId req = Some appId -> Js.truthy appId = true ->
  ScheduleInterview.scheduledAt req = Some at_ -> Js.truthy at_ = true ->
  Js.truthy_opt (ScheduleInterview.meetingUrl req) = false ->
  dateOfString at_ = InvalidDate \/
  ScheduleInterview.durationMinutes req = Absent ->
  is_Some (applicationsTable w !! appId) ->
  (forall p, insertFault sv p = None) ->
  exists row w',
    ScheduleInterview.serve toISOString dateOfString sv req w =
      (Returned (json 200 (Scheduled row None
                             "Interview scheduled (add meeting link manually)")),
       w') /\
    interviewsTable w' = (interviewsTable w ++ [row])%list /\
    meeting_url row = None /\
    (ScheduleInterview.durationMinutes req = Absent ->
     duration_minutes row = 60) /\
    exists sent,
      outbox w' = (outbox w ++ sent)%list /\
      Forall (fun c => isMeetingRequest c = false) sent.
Proof.
  intros Hm Happ Htapp Hat Htat Hurl Hundated Hex Hok.
  destruct (resolveMeeting_undated toISOString dateOfString sv req at_ w
              Hurl Hundated) as (cs & Hmeet & Hcs).
  destruct (serve_success_full toISOString dateOfString sv req w appId at_
              _ _ cs Hm Happ Htapp Hat Htat Hex (Hok _) Hmeet)
    as (w' & Hrun & Hrows & Hout & _).
  eexists _, w'. split; [exact Hrun|]. split; [exact Hrows|].
  split; [reflexivity|]. split.
  - intros Habsent. simpl. rewrite Habsent. reflexivity.
  - eexists. split; [exact Hout|].
    apply Forall_app. split.
    + destruct Hcs as [-> | ->]; repeat constructor.
    + repeat constructor.
Qed.

Lemma no_teams_meeting_witness :
  exists row w',
    interviewsTable w' = [row] /\ meeting_url row = None /\
    duration_minutes row = 60.
Proof.
  destruct (no_teams_meeting_without_time_or_duration
              Sample.toISOString Sample.parseISO
              (Sample.services true FetchNotOk)
              (Sample.request "app-1" Absent (Some "Technical"))
              Sample.world "app-1" "2026-01-05T09:00:00.000Z"
              ltac:(discriminate) eq_refl eq_refl eq_refl eq_refl eq_refl
              (or_intror eq_refl) ltac:(vm_compute; eauto) (fun _ => eq_refl))
    as (row & w' & _ & H2 & H3 & H4 & _).
  exists row, w'. split; [exact H2|]. split; [exact H3|]. exact (H4 eq_refl).
Defined.

(** ** The calendar function: who may call it *)

(** X12: a request to the calendar function without an authorization header,
    or whose token is not that of a user, is answered 401 whatever it asks
    for, before any table is read or changed and before anything is sent. *)
Theorem unauthenticated_calendar_request_is_refused
    (sv : Services) (req : GoogleCalendar.Request) (w : World) :
  GoogleCalendar.method req <> "OPTIONS" ->
  Js.truthy_opt (GoogleCalendar.authorization req) = false \/
  getUser sv (GoogleCalendar.replaceFirst "Bearer " ""
                (default "" (GoogleCalendar.authorization req))) = None ->
  exists text,
    GoogleCalendar.serve sv req w = (Returned (json 401 (ErrorBody text None)), w).
Proof.
  intros Hm Hauth. rewrite (calendar_serve_not_options sv req w Hm).
  unfold GoogleCalendar.handle.
  destruct (Js.truthy_opt (GoogleCalendar.authorization req)) eqn:Htruthy; simpl.
  - destruct Hauth as [Hfalse | Hnone]; [discriminate|].
    rewrite Hnone. eexists. reflexivity.
  - eexists. reflexivity.
Qed.

Lemma unauthenticated_calendar_witness :
  exists text,
    GoogleCalendar.serve (Sample.services false FetchNotOk)
      Sample.strangerRequest Sample.world =
    (Returned (json 401 (ErrorBody text None)), Sample.world).
Proof.
  exact (unauthenticated_calendar_request_is_refused
           (Sample.services false FetchNotOk) Sample.strangerRequest
           Sample.world ltac:(discriminate) (or_intror eq_refl)).
Defined.

(** X13: check-connection answers from the stored credential alone:
    connected exactly when the user has a credential row, also when that
    credential has expired, and configured exactly when both OAuth variables
    are set; it contacts nobody and changes nothing. *)
Theorem check_connection_reads_the_stored_credential
    (sv : Services) (req : GoogleCalendar.Request) (w : World) (uid : string) :
  GoogleCalendar.method req <> "OPTIONS" ->
  Js.truthy_opt (GoogleCalendar.authorization req) = true ->
  getUser sv (GoogleCalendar.replaceFirst "Bearer " ""
                (default "" (GoogleCalendar.authorization req))) = Some uid ->
  GoogleCalendar.action req = "check-connection" ->
  GoogleCalendar.serve sv req w =
  (Returned
     (json 200 (Connection (bool_decide (is_Some (googleTokens w !! uid)))
                  (googleClientId sv && googleClientSecret sv))), w).
Proof.
  intros Hm Hauth Huser Hact. rewrite (calendar_serve_not_options sv req w Hm).
  unfold GoogleCalendar.handle. rewrite Hauth. simpl. rewrite Huser. run.
  rewrite Hact. reflexivity.
Qed.

Lemma check_connection_witness :
  GoogleCalendar.serve
    (withClock (Sample.monday + 10 * msPerHour) FetchNotOk
       (Sample.services false FetchNotOk))
    (calendarRequest (Sample.services false FetchNotOk) "check-connection"
       None None None) Sample.world =
  (Returned (json 200 (Connection true true)), Sample.world).
Proof.
  exact (check_connection_reads_the_stored_credential
           (withClock (Sample.monday + 10 * msPerHour) FetchNotOk
              (Sample.services false FetchNotOk))
           (calendarRequest (Sample.services false FetchNotOk)
              "check-connection" None None None)
           Sample.world "user-1"
           ltac:(discriminate) eq_refl eq_refl eq_refl).
Defined.

(** ** The calendar function with a credential *)

(** With a credential and an access token at hand, the answer is that of the
    switch on the action, a thrown error becoming a 500. *)
Lemma calendar_serve_dispatch (sv : Services) (req : GoogleCalendar.Request)
    (w w1 : World) (uid token : string) (row : TokenRow) :
  GoogleCalendar.method req <> "OPTIONS" ->
  Js.truthy_opt (GoogleCalendar.authorization req) = true ->
  getUser sv (GoogleCalendar.replaceFirst "Bearer " ""
                (default "" (GoogleCalendar.authorization req))) = Some uid ->
  googleTokens w !! uid = Some row ->
  String.eqb (GoogleCalendar.action req) "check-connection" = false ->
  GoogleCalendar.freshAccessToken sv uid row w = (Returned (inr token), w1) ->
  GoogleCalendar.serve sv req w =
  match GoogleCalendar.dispatch sv req w1 with
  | (Returned r, w') => (Returned r, w')
  | (Thrown e, w') => (Returned (json 500 (ErrorBody (errorMessage e) None)), w')
  end.
Proof.
  intros Hm Hauth Huser Htok Hact Hfresh.
  rewrite (calendar_serve_not_options sv req w Hm).
  unfold GoogleCalendar.handle. rewrite Hauth. simpl. rewrite Huser.
  unfold mbind at 1. unfold M_bind at 1. unfold getWorld at 1.
  rewrite Htok, Hact.
  unfold mbind at 1. unfold M_bind at 1. rewrite Hfresh. reflexivity.
Qed.

Lemma freshAccessToken_valid (sv : Services) (uid : string) (row : TokenRow)
    (w : World) :
  isBefore (token_expiry row) (TimeValue (now sv)) = false ->
  GoogleCalendar.freshAccessToken sv uid row w =
  (Returned (inr (access_token row)), w).
Proof. intros H. unfold GoogleCalendar.freshAccessToken. rewrite H. reflexivity. Qed.

Lemma freshAccessToken_refreshed (sv : Services) (uid newToken : string)
    (row : TokenRow) (w : World) :
  isBefore (token_expiry row) (TimeValue (now sv)) = true ->
  googleClientId sv = true -> googleClientSecret sv = true ->
  tokenRefresh sv = FetchOk newToken -> Js.truthy newToken = true ->
  GoogleCalendar.freshAccessToken sv uid row w =
  (Returned (inr newToken),
   withGoogleTokens
     (alter (fun _ => {| access_token := newToken;
                         refresh_token := refresh_token row;
                         token_expiry := TimeValue (now sv + msPerHour) |})
        uid (googleTokens w))
     (emit GoogleTokenRefresh w)).
Proof.
  intros Hexp Hid Hsecret Hrefresh Htruthy.
  destruct newToken as [|c rest]; [discriminate|].
  unfold GoogleCalendar.freshAccessToken. rewrite Hexp, Hid, Hsecret. run.
  rewrite Hrefresh. reflexivity.
Qed.

(** The switch on the action reads and writes no table. *)
Lemma dispatch_keeps_tables (sv : Services) (req : GoogleCalendar.Request)
    (w : World) :
  exists cs, snd (GoogleCalendar.dispatch sv req w) = emitAll cs w.
Proof.
  unfold GoogleCalendar.dispatch.
  destruct (String.eqb _ "get-free-busy").
  - destruct (_ || _); [exists []; simpl; rewrite emitAll_nil; reflexivity|].
    run. destruct (calendarList sv); simpl;
      try (exists [GoogleCalendarList]; reflexivity);
      destruct (freeBusy sv); simpl; rewrite !emit_one, emitAll_emitAll;
      eexists; reflexivity.
  - destruct (String.eqb _ "create-event");
      [|exists []; simpl; rewrite emitAll_nil; reflexivity].
    destruct (GoogleCalendar.event req) as [ev|];
      [|exists []; simpl; rewrite emitAll_nil; reflexivity].
    run. destruct (createEvent sv) as [e | | [[a b] c]]; simpl;
      eexists [_]; reflexivity.
Qed.

(** X14: a request of a user whose credential has expired, when OAuth is
    configured and Google grants a new access token, goes on to its action
    with the credential renewed: the stored access token is the new one, the
    refresh token is kept, the expiry is one hour from now, and the
    credentials of other users are untouched. *)
Theorem expired_credential_is_renewed
    (sv : Services) (req : GoogleCalendar.Request) (w : World)
    (uid newToken : string) (row : TokenRow) :
  GoogleCalendar.method req <> "OPTIONS" ->
  Js.truthy_opt (GoogleCalendar.authorization req) = true ->
  getUser sv (GoogleCalendar.replaceFirst "Bearer " ""
                (default "" (GoogleCalendar.authorization req))) = Some uid ->
  googleTokens w !! uid = Some row ->
  GoogleCalendar.action req <> "check-connection" ->
  isBefore (token_expiry row) (TimeValue (now sv)) = true ->
  googleClientId sv = true -> googleClientSecret sv = true ->
  tokenRefresh sv = FetchOk newToken -> Js.truthy newToken = true ->
  exists r w' cs,
    GoogleCalendar.serve sv req w = (Returned r, w') /\
    outbox w' = (outbox w ++ GoogleTokenRefresh :: cs)%list /\
    googleTokens w' !! uid =
      Some {| access_token := newToken;
              refresh_token := refresh_token row;
              token_expiry := TimeValue (now sv + msPerHour) |} /\
    forall other, other <> uid ->
      googleTokens w' !! other = googleTokens w !! other.
Proof.
  intros Hm Hauth Huser Htok Hact Hexp Hid Hsecret Hrefresh Htruthy.
  apply String.eqb_neq in Hact.
  rewrite (calendar_serve_dispatch sv req w _ uid newToken row
             Hm Hauth Huser Htok Hact
             (freshAccessToken_refreshed sv uid newToken row w
                Hexp Hid Hsecret Hrefresh Htruthy)).
  match goal with |- context [GoogleCalendar.dispatch sv req ?w1] =>
    destruct (dispatch_keeps_tables sv req w1) as (cs & Hcs);
    destruct (GoogleCalendar.dispatch sv req w1) as [[r|e] w']
  end; simpl in Hcs; subst w'.
  all: eexists _, _, cs; split; [reflexivity|]; simpl;
    rewrite <- app_assoc; split; [reflexivity|]; split.
  all: try (rewrite lookup_alter, Htok;
            destruct (decide (uid = uid)); [reflexivity | congruence]).
  all: intros other Hne; rewrite lookup_alter;
    destruct (decide (uid = other)); [congruence | reflexivity].
Qed.

Lemma expired_credential_witness :
  exists r w',
    GoogleCalendar.serve
      (withClock (Sample.monday + 10 * msPerHour) (FetchOk "access-2")
         (Sample.services false FetchNotOk))
      (calendarRequest (Sample.services false FetchNotOk) "get-free-busy"
         (Some "2026-01-05T00:00:00.000Z") (Some "2026-01-05T23:59:59.999Z")
         None) Sample.world = (Returned r, w') /\
    googleTokens w' !! "user-1" =
      Some {| access_token := "access-2"; refresh_token := "refresh-1";
              token_expiry := TimeValue (Sample.monday + 11 * msPerHour) |}.
Proof.
  destruct (expired_credential_is_renewed
              (withClock (Sample.monday + 10 * msPerHour) (FetchOk "access-2")
                 (Sample.services false FetchNotOk))
              (calendarRequest (Sample.services false FetchNotOk)
                 "get-free-busy" (Some "2026-01-05T00:00:00.000Z")
                 (Some "2026-01-05T23:59:59.999Z") None)
              Sample.world "user-1" "access-2" Sample.credential
              ltac:(discriminate) eq_refl eq_refl eq_refl ltac:(discriminate)
              eq_refl eq_refl eq_refl eq_refl eq_refl)
    as (r & w' & cs & H1 & _ & H3 & _).
  exists r, w'. split; [exact H1 | exact H3].
Defined.

(** X15: with a credential that has not expired, a malformed request is
    answered 400 and nothing is sent to Google: a get-free-busy without
    [timeMin] or [timeMax], a create-event without an event, and any action
    other than the three known ones. *)
Theorem malformed_calendar_request_is_refused
    (sv : Services) (req : GoogleCalendar.Request) (w : World)
    (uid : string) (row : TokenRow) :
  GoogleCalendar.method req <> "OPTIONS" ->
  Js.truthy_opt (GoogleCalendar.authorization req) = true ->
  getUser sv (GoogleCalendar.replaceFirst "Bearer " ""
                (default "" (GoogleCalendar.authorization req))) = Some uid ->
  googleTokens w !! uid = Some row ->
  isBefore (token_expiry row) (TimeValue (now sv)) = false ->
  (GoogleCalendar.action req = "get-free-busy" ->
   Js.truthy_opt (GoogleCalendar.timeMin req) = false \/
   Js.truthy_opt (GoogleCalendar.timeMax req) = false ->
   GoogleCalendar.serve sv req w =
   (Returned (json 400 (ErrorBody "timeMin and timeMax required" None)), w)) /\
  (GoogleCalendar.action req = "create-event" ->
   GoogleCalendar.event req = None ->
   GoogleCalendar.serve sv req w =
   (Returned (json 400 (ErrorBody "Event details required" None)), w)) /\
  (GoogleCalendar.action req <> "check-connection" ->
   GoogleCalendar.action req <> "get-free-busy" ->
   GoogleCalendar.action req <> "create-event" ->
   GoogleCalendar.serve sv req w =
   (Returned (json 400 (ErrorBody "Invalid action" None)), w)).
Proof.
  intros Hm Hauth Huser Htok Hvalid.
  pose proof (freshAccessToken_valid sv uid row w Hvalid) as Hfresh.
  split; [|split].
  - intros Hact Hmissing.
    rewrite (calendar_serve_dispatch sv req w w uid _ row Hm Hauth Huser Htok
               ltac:(rewrite Hact; reflexivity) Hfresh).
    unfold GoogleCalendar.dispatch. rewrite Hact. simpl.
    destruct Hmissing as [-> | ->]; simpl; rewrite ?orb_true_r; reflexivity.
  - intros Hact Hevent.
    rewrite (calendar_serve_dispatch sv req w w uid _ row Hm Hauth Huser Htok
               ltac:(rewrite Hact; reflexivity) Hfresh).
    unfold GoogleCalendar.dispatch. rewrite Hact, Hevent. reflexivity.
  - intros H1 H2 H3.
    apply String.eqb_neq in H1. apply String.eqb_neq in H2.
    apply String.eqb_neq in H3.
    rewrite (calendar_serve_dispatch sv req w w uid _ row Hm Hauth Huser Htok
               H1 Hfresh).
    unfold GoogleCalendar.dispatch. rewrite H2, H3. reflexivity.
Qed.

Lemma malformed_calendar_witness :
  GoogleCalendar.serve (Sample.services false FetchNotOk)
    (calendarRequest (Sample.services false FetchNotOk) "create-event"
       None None None) Sample.world =
  (Returned (json 400 (ErrorBody "Event details required" None)), Sample.world).
Proof.
  exact (proj1 (proj2 (malformed_calendar_request_is_refused
                         (Sample.services false FetchNotOk)
                         (calendarRequest (Sample.services false FetchNotOk)
                            "create-event" None None None)
                         Sample.world "user-1" Sample.credential
                         ltac:(discriminate) eq_refl eq_refl eq_refl eq_refl))
           eq_refl eq_refl).
Defined.

(** ** Busy periods, from Google to the dialog *)

(** The availability query of a user with a valid credential. *)
Lemma free_busy_run (sv : Services) (w : World) (uid tmin tmax : string)
    (row : TokenRow) :
  getUser sv (sessionToken sv) = Some uid ->
  googleTokens w !! uid = Some row ->
  isBefore (token_expiry row) (TimeValue (now sv)) = false ->
  Js.truthy tmin = true -> Js.truthy tmax = true ->
  (forall e, calendarList sv <> FetchThrows e) ->
  GoogleCalendar.serve sv
    (calendarRequest sv "get-free-busy" (Some tmin) (Some tmax) None) w =
  (match freeBusy sv with
   | FetchOk l => Returned (json 200 (BusyBody l))
   | FetchNotOk =>
       Returned (json 500 (ErrorBody "Failed to get calendar availability" None))
   | FetchThrows e => Returned (json 500 (ErrorBody (errorMessage e) None))
   end,
   emitAll [GoogleCalendarList; GoogleFreeBusy tmin tmax] w).
Proof.
  intros Huser Htok Hvalid Htmin Htmax Hlist.
  destruct (calendarRequest_user sv "get-free-busy" (Some tmin) (Some tmax) None)
    as (Hm & Hauth & Hbearer).
  rewrite (calendar_serve_dispatch sv _ w w uid _ row Hm Hauth
             ltac:(rewrite Hbearer; exact Huser) Htok eq_refl
             (freshAccessToken_valid sv uid row w Hvalid)).
  unfold GoogleCalendar.dispatch. simpl. rewrite Htmin, Htmax. run.
  destruct (calendarList sv) as [e | | []]; simpl;
    [exfalso; exact (Hlist e eq_refl) | |];
    destruct (freeBusy sv); simpl; rewrite !emit_one, emitAll_emitAll;
    reflexivity.
Qed.

Lemma setHours_midnight (tz t : Z) :
  setHours tz (TimeValue t) (Some 0) (Some 0) (Some 0) (Some 0) =
  TimeValue (dayBase tz t).
Proof. unfold setHours, dayBase. f_equal. lia. Qed.

Lemma setHours_end_of_day (tz t : Z) :
  setHours tz (TimeValue t) (Some 23) (Some 59) (Some 59) (Some 999) =
  TimeValue (dayBase tz t + 86399999).
Proof.
  unfold setHours, dayBase, msPerHour, msPerMinute. f_equal. lia.
Qed.

(** X16: with a valid credential, the busy periods Google reports are the
    ones the dialog ends up with: the dialog asks for the selected day from
    local midnight to 23:59:59.999, the function asks Google for the calendar
    list and then for the free/busy data of that window, and the periods of
    the answer replace the busy set of the dialog, the loading flag
    cleared. *)
Theorem busy_periods_reach_the_dialog
    (tz : Z) (toISOString : Z -> string)
    (sv : Services) (st : DialogState) (w : World) (t : Z)
    (uid : string) (row : TokenRow) (periods : list BusySlot) :
  getUser sv (sessionToken sv) = Some uid ->
  googleTokens w !! uid = Some row ->
  isBefore (token_expiry row) (TimeValue (now sv)) = false ->
  Js.truthy (toISOString (dayBase tz t)) = true ->
  Js.truthy (toISOString (dayBase tz t + 86399999)) = true ->
  transport sv "google-calendar" = Delivered ->
  (forall e, calendarList sv <> FetchThrows e) ->
  freeBusy sv = FetchOk periods ->
  fetchBusySlots tz toISOString sv st (TimeValue t) w =
  (Returned (setLoadingBusy false (setBusySlots periods (setLoadingBusy true st))),
   emitAll [GoogleCalendarList;
            GoogleFreeBusy (toISOString (dayBase tz t))
              (toISOString (dayBase tz t + 86399999))] w).
Proof.
  intros Huser Htok Hvalid Htmin Htmax Hdelivered Hlist Hbusy.
  unfold fetchBusySlots.
  rewrite setHours_midnight, setHours_end_of_day. simpl isoString.
  unfold invoke. rewrite Hdelivered.
  unfold tryCatch, mbind, M_bind, mret, M_ret.
  rewrite (free_busy_run sv w uid _ _ row Huser Htok Hvalid Htmin Htmax Hlist).
  rewrite Hbusy. reflexivity.
Qed.

Lemma busy_periods_witness :
  exists st' w',
    fetchBusySlots 0 Sample.toISOString (Sample.services false FetchNotOk)
      (setBusySlots [] Sample.dialog) (TimeValue (Sample.monday + 5))
      Sample.world = (Returned st', w') /\
    busySlots st' = [Sample.busyTenToEleven] /\
    outbox w' = [GoogleCalendarList;
                 GoogleFreeBusy "2026-01-05T00:00:00.000Z"
                   "2026-01-05T23:59:59.999Z"].
Proof.
  eexists _, _. split.
  - exact (busy_periods_reach_the_dialog 0 Sample.toISOString
             (Sample.services false FetchNotOk)
             (setBusySlots [] Sample.dialog) Sample.world (Sample.monday + 5)
             "user-1" Sample.credential [Sample.busyTenToEleven]
             eq_refl eq_refl eq_refl eq_refl eq_refl eq_refl
             ltac:(discriminate) eq_refl).
  - split; reflexivity.
Defined.

(** X17: the dialog fails open: when Google's free/busy request fails (a
    status that is not ok, or a thrown error), the function answers 500, and
    the dialog keeps the busy set it had and clears the loading flag, without
    throwing and without telling the user. *)
Theorem free_busy_failure_keeps_the_busy_set
    (tz : Z) (toISOString : Z -> string)
    (sv : Services) (st : DialogState) (w : World) (t : Z)
    (uid : string) (row : TokenRow) :
  getUser sv (sessionToken sv) = Some uid ->
  googleTokens w !! uid = Some row ->
  isBefore (token_expiry row) (TimeValue (now sv)) = false ->
  Js.truthy (toISOString (dayBase tz t)) = true ->
  Js.truthy (toISOString (dayBase tz t + 86399999)) = true ->
  transport sv "google-calendar" = Delivered ->
  (forall e, calendarList sv <> FetchThrows e) ->
  (forall periods, freeBusy sv <> FetchOk periods) ->
  (exists text w',
     GoogleCalendar.serve sv
       (calendarRequest sv "get-free-busy"
          (Some (toISOString (dayBase tz t)))
          (Some (toISOString (dayBase tz t + 86399999))) None) w =
     (Returned (json 500 (ErrorBody text None)), w')) /\
  exists w',
    fetchBusySlots tz toISOString sv st (TimeValue t) w =
    (Returned (setLoadingBusy false (setLoadingBusy true st)), w') /\
    Forall (fun c => isGoogleCall c = true)
      (drop (length (outbox w)) (outbox w')).
Proof.
  intros Huser Htok Hvalid Htmin Htmax Hdelivered Hlist Hbusy.
  pose proof (free_busy_run sv w uid _ _ row Huser Htok Hvalid Htmin Htmax Hlist)
    as Hrun.
  split.
  - rewrite Hrun. destruct (freeBusy sv) as [e | | l];
      [eexists _, _; reflexivity | eexists _, _; reflexivity |].
    exfalso. exact (Hbusy l eq_refl).
  - unfold fetchBusySlots.
    rewrite setHours_midnight, setHours_end_of_day. simpl isoString.
    unfold invoke. rewrite Hdelivered.
    unfold tryCatch, mbind, M_bind, mret, M_ret. rewrite Hrun.
    destruct (freeBusy sv) as [e | | l];
      [| | exfalso; exact (Hbusy l eq_refl)];
      (eexists; split; [reflexivity|]; simpl;
       rewrite drop_app_length; repeat constructor).
Qed.

Lemma free_busy_failure_witness :
  exists w',
    fetchBusySlots 0 Sample.toISOString
      (withCalendar FetchNotOk (Sample.services false FetchNotOk))
      Sample.dialog (TimeValue Sample.monday) Sample.world =
    (Returned (setLoadingBusy false (setLoadingBusy true Sample.dialog)), w').
Proof.
  destruct (free_busy_failure_keeps_the_busy_set 0 Sample.toISOString
              (withCalendar FetchNotOk (Sample.services false FetchNotOk))
              Sample.dialog Sample.world Sample.monday
              "user-1" Sample.credential
              eq_refl eq_refl eq_refl eq_refl eq_refl eq_refl
              ltac:(discriminate) ltac:(discriminate))
    as (_ & w' & H & _).
  exists w'. exact H.
Defined.

(** ** The busy set only comes from Google *)

Lemma yields_ret {A : Type} (Q : A -> Prop) (a : A) : Q a -> yields Q (mret a).
Proof. intros H w a' w' [= <- _]. exact H. Qed.

Lemma yields_throw {A : Type} (Q : A -> Prop) (e : JsError) :
  yields Q (@throw A e).
Proof. intros w a w' H. discriminate. Qed.

Lemma yields_bind {A B : Type} (R : A -> Prop) (Q : B -> Prop)
    (m : M A) (f : A -> M B) :
  yields R m -> (forall a, R a -> yields Q (f a)) -> yields Q (m ≫= f).
Proof.
  intros Hm Hf w b w'. unfold mbind, M_bind.
  destruct (m w) as [[a|e] w1] eqn:Hrun; [|discriminate].
  apply (Hf a (Hm w a w1 Hrun)).
Qed.

Lemma yields_tryCatch {A : Type} (Q : A -> Prop) (m : M A)
    (h : JsError -> M A) :
  yields Q m -> (forall e, yields Q (h e)) -> yields Q (tryCatch m h).
Proof.
  intros Hm Hh w a w'. unfold tryCatch.
  destruct (m w) as [[a0|e] w1] eqn:Hrun.
  - intros [= <- _]. exact (Hm w a0 w1 Hrun).
  - apply Hh.
Qed.

Lemma yields_any {A : Type} (m : M A) : yields (fun _ => True) m.
Proof. intros w a w' _. exact I. Qed.

Lemma yields_fetch {A : Type} (c : Call) (answer : Fetched A) :
  yields (fun o => forall a, o = Some a -> answer = FetchOk a) (fetch c answer).
Proof.
  intros w o w'. unfold fetch. run. destruct answer; intros [= <- _];
    intros a0 H; congruence.
Qed.

(** The only answer of the calendar function that holds busy periods holds
    the periods of Google's free/busy answer. *)
Lemma calendar_serve_busy (sv : Services) (req : GoogleCalendar.Request) :
  yields (fun r => forall l, body r = BusyBody l -> freeBusy sv = FetchOk l)
    (GoogleCalendar.serve sv req).
Proof.
  set (Q := fun r : Response =>
              forall l, body r = BusyBody l -> freeBusy sv = FetchOk l).
  assert (Herr : forall code text c, Q (json code (ErrorBody text c)))
    by (intros code text c l H; discriminate).
  assert (Hdispatch : yields Q (GoogleCalendar.dispatch sv req)).
  { unfold GoogleCalendar.dispatch.
    destruct (String.eqb _ "get-free-busy").
    - destruct (_ || _); [apply yields_ret, Herr|].
      eapply yields_bind; [apply yields_any|]. intros _ _.
      eapply yields_bind; [apply yields_fetch|]. intros [l|] Hl.
      + apply yields_ret. intros l' [= <-]. apply Hl. reflexivity.
      + apply yields_ret, Herr.
    - destruct (String.eqb _ "create-event"); [|apply yields_ret, Herr].
      destruct (GoogleCalendar.event req); [|apply yields_ret, Herr].
      eapply yields_bind; [apply yields_any|]. intros [[[a b] c]|] _;
        apply yields_ret; [intros l H; discriminate | apply Herr]. }
  assert (Hfresh : forall uid row,
             yields (fun t => forall early, t = inl early -> Q early)
               (GoogleCalendar.freshAccessToken sv uid row)).
  { intros uid row. unfold GoogleCalendar.freshAccessToken.
    destruct (isBefore _ _); [|apply yields_ret; intros early H; discriminate].
    destruct (_ || _); [apply yields_ret; intros early [= <-]; apply Herr|].
    eapply yields_bind; [apply yields_any|]. intros [newToken|] _.
    - destruct (Js.truthy newToken); intros w t w' [= <- _] early H;
        [discriminate | injection H as <-; apply Herr].
    - intros w t w' [= <- _] early [= <-]. apply Herr. }
  unfold GoogleCalendar.serve.
  destruct (String.eqb _ "OPTIONS");
    [apply yields_ret; intros l H; discriminate|].
  apply yields_tryCatch; [|intros e; apply yields_ret, Herr].
  unfold GoogleCalendar.handle.
  destruct (negb _); [apply yields_ret, Herr|].
  destruct (getUser sv _) as [uid|]; [|apply yields_ret, Herr].
  eapply yields_bind; [apply yields_any|]. intros w0 _.
  destruct (String.eqb _ "check-connection");
    [apply yields_ret; intros l H; discriminate|].
  destruct (googleTokens w0 !! uid) as [row|]; [|apply yields_ret, Herr].
  eapply yields_bind; [apply Hfresh|]. intros [early|token] Ht.
  - apply yields_ret. apply Ht. reflexivity.
  - exact Hdispatch.
Qed.

(** X18: whatever the function, the network and Google do, the dialog's
    request for busy periods returns without throwing and with the loading
    flag cleared; it changes nothing else of the dialog but the busy set,
    which is either kept or replaced by exactly the periods of Google's
    free/busy answer; and it leaves applications and interviews alone. *)
Theorem busy_set_only_comes_from_google
    (tz : Z) (toISOString : Z -> string)
    (sv : Services) (st : DialogState) (date : JsDate) (w : World) :
  exists st' w',
    fetchBusySlots tz toISOString sv st date w = (Returned st', w') /\
    loadingBusy st' = false /\
    sameSelections st st' /\
    (busySlots st' = busySlots st \/ freeBusy sv = FetchOk (busySlots st')) /\
    sameInterviews w w'.
Proof.
  unfold fetchBusySlots.
  assert (Hkeep : forall w',
             sameInterviews w w' ->
             exists st' w'',
               (Returned (setLoadingBusy false (setLoadingBusy true st)), w') =
               (Returned st', w'') /\
               loadingBusy st' = false /\ sameSelections st st' /\
               (busySlots st' = busySlots st \/
                freeBusy sv = FetchOk (busySlots st')) /\
               sameInterviews w w'').
  { intros w' Hsame. eexists _, _. split; [reflexivity|].
    split; [reflexivity|]. split; [repeat split|]. split; [left; reflexivity|].
    exact Hsame. }
  destruct date as [|t]; simpl isoString.
  { unfold tryCatch, mbind, M_bind, mret, M_ret, throw. simpl.
    apply Hkeep, sameInterviews_refl. }
  cbv zeta. simpl isoString.
  unfold tryCatch, mbind, M_bind, mret, M_ret, invoke. simpl.
  destruct (transport sv "google-calendar") as [ | e | e]; simpl;
    [|apply Hkeep, sameInterviews_refl | apply Hkeep, sameInterviews_refl].
  unfold mbind, M_bind, mret, M_ret.
  match goal with |- context [GoogleCalendar.serve sv ?req w] =>
    pose proof (calendar_serve_framed sv req w) as Hframe;
    pose proof (calendar_serve_busy sv req w) as Hbusy;
    destruct (calendar_serve_returns sv req w) as (r & Hr);
    destruct (GoogleCalendar.serve sv req w) as [o w1]
  end.
  simpl in Hr, Hframe. subst o. specialize (Hbusy r w1 eq_refl).
  destruct ((200 <=? status r) && (status r <? 300)); simpl;
    [|apply Hkeep, Hframe].
  destruct (body r) as [| | | | l |] eqn:Hbody; simpl;
    try (apply Hkeep, Hframe).
  eexists _, _. split; [reflexivity|]. split; [reflexivity|].
  split; [repeat split|]. split; [right; apply Hbusy; reflexivity|].
  exact Hframe.
Qed.

(** ** The mutation of the dialog *)

(** X19: when the selected application is not among the schedulable
    applications the dialog holds (or these have not loaded), the mutation
    throws "Application not found" before anything is sent, the user sees
    this text as an error toast, and the form stays as it is. *)
Theorem unknown_application_is_rejected
    (tz : Z) (toISOString : Z -> string) (dateOfString : string -> JsDate)
    (sv : Services) (st : DialogState) (w : World) (date : JsDate) :
  selectedDate st = Some date ->
  Js.truthy (selectedApplication st) = true ->
  Js.truthy (selectedTime st) = true ->
  findApplication st = None ->
  mutationFn tz toISOString dateOfString sv st w =
    (Thrown (newError "Application not found"), w) /\
  mutate tz toISOString dateOfString sv st w =
    (Returned st, emit (Toast ToastError "Application not found") w).
Proof.
  intros Hdate Happ Htime Hfind.
  assert (Hfn : mutationFn tz toISOString dateOfString sv st w =
                (Thrown (newError "Application not found"), w)).
  { unfold mutationFn. rewrite Hdate, Happ, Htime, Hfind. reflexivity. }
  split; [exact Hfn|]. unfold mutate. rewrite Hfn. reflexivity.
Qed.

Lemma unknown_application_witness :
  mutate 0 Sample.toISOString Sample.parseISO
    (Sample.services false FetchNotOk) Sample.strayDialog Sample.world =
  (Returned Sample.strayDialog,
   emit (Toast ToastError "Application not found") Sample.world).
Proof.
  exact (proj2 (unknown_application_is_rejected 0 Sample.toISOString
                  Sample.parseISO (Sample.services false FetchNotOk)
                  Sample.strayDialog Sample.world (TimeValue Sample.monday)
                  eq_refl eq_refl eq_refl eq_refl)).
Defined.

Lemma notGoogleCall_spec (c : Call) :
  notGoogleCall c = true <-> isGoogleCall c = false.
Proof. unfold notGoogleCall. destruct (isGoogleCall c); simpl; split; congruence. Qed.

Lemma emits_weaken {A : Type} (P Q : Call -> bool) (m : M A) :
  (forall c, P c = true -> Q c = true) -> emits P m -> emits Q m.
Proof.
  intros HPQ Hm w. destruct (Hm w) as (cs & Hcs & Hall).
  exists cs. split; [exact Hcs|]. eapply Forall_impl; [exact Hall|]. exact HPQ.
Qed.

Lemma emits_invoke (P : Call -> bool) (sv : Services) (name : string)
    (run : M Response) :
  emits P run -> emits P (invoke sv name run).
Proof. intros H. unfold invoke. sends. exact H. Qed.

(** X20: with the calendar not connected, or the Meet switch off, the
    mutation never contacts the calendar function, whatever else happens:
    among the requests it sends there is none to Google. *)
Theorem no_calendar_request_when_switched_off
    (tz : Z) (toISOString : Z -> string) (dateOfString : string -> JsDate)
    (sv : Services) (st : DialogState) (w : World) :
  calendarConnected st && createMeetLink st = false ->
  exists sent,
    outbox (snd (mutationFn tz toISOString dateOfString sv st w)) =
      (outbox w ++ sent)%list /\
    Forall (fun c => isGoogleCall c = false) sent.
Proof.
  intros Hoff.
  assert (Hemits : emits notGoogleCall
                     (mutationFn tz toISOString dateOfString sv st)).
  { unfold mutationFn. rewrite Hoff.
    destruct (selectedDate st); [|apply emits_throw].
    destruct (_ || _); [apply emits_throw|].
    destruct (findApplication st); [|apply emits_throw].
    apply emits_bind; [apply emits_ret|]. intros [url id].
    apply emits_bind; [unfold isoString; sends|]. intros at_.
    apply emits_bind; [|intros r; sends].
    apply emits_invoke.
    eapply emits_weaken; [|apply schedule_serve_emits].
    intros c. unfold notGoogleCall. destruct c; simpl; congruence. }
  destruct (Hemits w) as (sent & Hsent & Hall).
  exists sent. split; [exact Hsent|].
  eapply Forall_impl; [exact Hall|]. intros c. apply notGoogleCall_spec.
Qed.

Lemma no_calendar_request_witness :
  exists sent,
    outbox (snd (mutationFn 0 Sample.toISOString Sample.parseISO
                   (Sample.services false FetchNotOk)
                   (setCalendarConnected false Sample.chosen) Sample.world)) =
      sent /\
    Forall (fun c => isGoogleCall c = false) sent.
Proof.
  destruct (no_calendar_request_when_switched_off 0 Sample.toISOString
              Sample.parseISO (Sample.services false FetchNotOk)
              (setCalendarConnected false Sample.chosen) Sample.world eq_refl)
    as (sent & H1 & H2).
  exists sent. split; [exact H1 | exact H2].
Defined.

(** A request that passes validation for an application that does not exist:
    the insertion is refused and the answer is a 500. *)
Lemma serve_missing_application
    (toISOString : Z -> string) (dateOfString : string -> JsDate)
    (sv : Services) (req : ScheduleInterview.Request) (w : World)
    (appId at_ : string) :
  ScheduleInterview.method req <> "OPTIONS" ->
  ScheduleInterview.applicationId req = Some appId -> Js.truthy appId = true ->
  ScheduleInterview.scheduledAt req = Some at_ -> Js.truthy at_ = true ->
  applicationsTable w !! appId = None ->
  exists text cs,
    ScheduleInterview.serve toISOString dateOfString sv req w =
      (Returned (json 500 (ErrorBody text None)), emitAll cs w) /\
    Forall (fun c => isDownstream c = false) cs.
Proof.
  intros Hm Happ Htapp Hat Htat Hnone.
  destruct (resolveMeeting_frame toISOString dateOfString sv req at_ w)
    as (url & id & cs & Hmeet & Hcs).
  rewrite (serve_not_options toISOString dateOfString sv req w Hm).
  rewrite (handle_after_meeting toISOString dateOfString sv req w _ appId at_
             url id Happ Htapp Hat Htat Hmeet).
  rewrite insertInterview_run. simpl ins_application_id. simpl applicationsTable.
  rewrite Hnone.
  destruct (insertFault sv _) as [e|]; simpl; rewrite emit_emitAll;
    eexists _, _; (split; [reflexivity|]);
    (apply Forall_app; split; [exact Hcs | repeat constructor]).
Qed.

(** X21: when the chosen application no longer exists in the database, the
    mutation (with no calendar event to create) ends in an error toast that
    carries the text of the failed function call, the form is kept as it was,
    nothing is stored, no application changes, and no status update and no
    notification has been sent. *)
Theorem refused_insertion_reaches_the_user
    (tz : Z) (toISOString : Z -> string) (dateOfString : string -> JsDate)
    (sv : Services) (st : DialogState) (w : World)
    (date : JsDate) (app : Application) (s : Z) :
  selectedDate st = Some date ->
  Js.truthy (selectedApplication st) = true ->
  Js.truthy (selectedTime st) = true ->
  findApplication st = Some app ->
  atTimeOfDay tz date (selectedTime st) = TimeValue s ->
  Js.truthy (toISOString s) = true ->
  calendarConnected st && createMeetLink st = false ->
  transport sv "schedule-interview" = Delivered ->
  applicationsTable w !! selectedApplication st = None ->
  exists sent,
    mutate tz toISOString dateOfString sv st w =
      (Returned st,
       emitAll (sent ++ [Toast ToastError
                           "Edge Function returned a non-2xx status code"]) w) /\
    Forall (fun c => isDownstream c = false) sent.
Proof.
  intros Hdate Happ Htime Hfind Hs Hiso Hoff Hdelivered Hnone.
  set (req := scheduleRequest st app (toISOString s) None None).
  destruct (serve_missing_application toISOString dateOfString sv req w
              (selectedApplication st) (toISOString s)
              ltac:(discriminate) eq_refl Happ eq_refl Hiso Hnone)
    as (text & cs & Hserve & Hcs).
  exists cs. split; [|exact Hcs].
  unfold mutate, mutationFn.
  rewrite Hdate, Happ, Htime, Hfind, Hs, Hoff.
  cbn [negb orb]. unfold mbind at 1. unfold M_bind at 1.
  unfold mret at 1. unfold M_ret at 1. cbv beta iota.
  simpl isoString. unfold mbind, M_bind, mret, M_ret, invoke.
  rewrite Hdelivered. fold req. unfold mbind, M_bind.
  rewrite Hserve. simpl. unfold emitAll. simpl. rewrite app_assoc.
  reflexivity.
Qed.

Lemma refused_insertion_witness :
  exists w',
    mutate 0 Sample.toISOString Sample.parseISO
      (Sample.services false FetchNotOk)
      (setCalendarConnected false Sample.chosen)
      Sample.worldWithoutApplications =
      (Returned (setCalendarConnected false Sample.chosen), w') /\
    interviewsTable w' = [].
Proof.
  destruct (refused_insertion_reaches_the_user 0 Sample.toISOString
              Sample.parseISO (Sample.services false FetchNotOk)
              (setCalendarConnected false Sample.chosen)
              Sample.worldWithoutApplications
              (TimeValue Sample.monday) Sample.application
              (Sample.monday + 9 * msPerHour)
              eq_refl eq_refl eq_refl eq_refl eq_refl eq_refl eq_refl eq_refl
              eq_refl) as (sent & H & _).
  eexists. split; [exact H | reflexivity].
Defined.

(** The create-event request of a user with a valid credential. *)
Lemma create_event_run (sv : Services) (w : World) (uid : string)
    (row : TokenRow) (ev : GoogleCalendar.EventInput) :
  getUser sv (sessionToken sv) = Some uid ->
  googleTokens w !! uid = Some row ->
  isBefore (token_expiry row) (TimeValue (now sv)) = false ->
  GoogleCalendar.serve sv
    (calendarRequest sv "create-event" None None (Some ev)) w =
  (match createEvent sv with
   | FetchOk (eventId, htmlLink, meetLink) =>
       Returned (json 200 (EventBody eventId htmlLink (Js.or_str meetLink None)))
   | FetchNotOk =>
       Returned (json 500 (ErrorBody "Failed to create calendar event" None))
   | FetchThrows e => Returned (json 500 (ErrorBody (errorMessage e) None))
   end,
   emitAll [GoogleCreateEvent (GoogleCalendar.startTime ev)
              (GoogleCalendar.endTime ev) (GoogleCalendar.createMeet ev)] w).
Proof.
  intros Huser Htok Hvalid.
  destruct (calendarRequest_user sv "create-event" None None (Some ev))
    as (Hm & Hauth & Hbearer).
  rewrite (calendar_serve_dispatch sv _ w w uid _ row Hm Hauth
             ltac:(rewrite Hbearer; exact Huser) Htok eq_refl
             (freshAccessToken_valid sv uid row w Hvalid)).
  unfold GoogleCalendar.dispatch. simpl. run.
  destruct (createEvent sv) as [e | | [[a b] c]]; reflexivity.
Qed.

(** X22: the whole way with a Meet link: when the calendar is connected, the
    Meet switch is on, the interview ends at a date and Google creates the
    event with a link, the interview is stored with exactly that link and the id of the calendar event, Teams
    is not contacted even where it is configured, the user is told that the
    interview has a Google Meet link, and the dialog is closed and its form
    reset. *)
Theorem meet_link_reaches_the_stored_interview
    (tz : Z) (toISOString : Z -> string) (dateOfString : string -> JsDate)
    (sv : Services) (st : DialogState) (w : World)
    (date : JsDate) (app : Application) (s d : Z)
    (uid link : string) (cred : TokenRow) (eventId htmlLink : option string) :
  selectedDate st = Some date ->
  Js.truthy (selectedApplication st) = true ->
  Js.truthy (selectedTime st) = true ->
  findApplication st = Some app ->
  atTimeOfDay tz date (selectedTime st) = TimeValue s ->
  Js.parseInt (duration st) = Some d ->
  representable (s + d * msPerMinute) ->
  Js.truthy (toISOString s) = true ->
  calendarConnected st = true -> createMeetLink st = true ->
  getUser sv (sessionToken sv) = Some uid ->
  googleTokens w !! uid = Some cred ->
  isBefore (token_expiry cred) (TimeValue (now sv)) = false ->
  createEvent sv = FetchOk (eventId, htmlLink, Some link) ->
  Js.truthy link = true ->
  transport sv "google-calendar" = Delivered ->
  transport sv "schedule-interview" = Delivered ->
  is_Some (applicationsTable w !! selectedApplication st) ->
  (forall p, insertFault sv p = None) ->
  exists row w',
    mutate tz toISOString dateOfString sv st w =
      (Returned (resetForm (setOpen false st)),
       emit (Toast ToastSuccess "Interview scheduled with Google Meet link!") w') /\
    interviewsTable w' = (interviewsTable w ++ [row])%list /\
    meeting_url row = Some link /\
    meeting_id row = Js.or_str eventId None /\
    outbox w' =
      (outbox w ++
       [GoogleCreateEvent (toISOString s) (toISOString (s + d * msPerMinute)) true;
        InsertInterview
          (ScheduleInterview.interviewInsert
             (scheduleRequest st app (toISOString s) (Some link) eventId)
             (selectedApplication st) (toISOString s) (Some link)
             (Js.or_str eventId None));
        UpdateApplicationStatus (selectedApplication st) "interview";
        SendEmail (Some (email (candidate app)));
        SlackNotify])%list.
Proof.
  intros Hdate Happ Htime Hfind Hs Hd Hrange Hiso Hconn Hmeet Huser Htok Hvalid
         Hcreated Htlink Hcal Hsched Hex Hok.
  destruct link as [|c0 rest]; [discriminate|].
  set (link := String c0 rest) in *.
  set (ev := eventInput st app (toISOString s) (toISOString (s + d * msPerMinute))).
  set (w1 := emitAll [GoogleCreateEvent (toISOString s)
                        (toISOString (s + d * msPerMinute)) true] w).
  assert (Hevent : createCalendarEvent toISOString sv st app (TimeValue s)
                     (TimeValue (s + d * msPerMinute)) w =
                   (Returned (Some link, eventId), w1)).
  { unfold createCalendarEvent, tryCatch. simpl isoString.
    unfold mbind, M_bind, mret, M_ret, createEventCall, invoke.
    rewrite Hcal. unfold mbind, M_bind.
    rewrite (create_event_run sv w uid cred _ Huser Htok Hvalid), Hcreated.
    reflexivity. }
  set (req := scheduleRequest st app (toISOString s) (Some link) eventId).
  assert (Hurl : Js.truthy_opt (ScheduleInterview.meetingUrl req) = true)
    by exact Htlink.
  pose proof (resolveMeeting_provided toISOString dateOfString sv req
                (toISOString s) w1 Hurl) as Hresolve.
  assert (Hex1 : is_Some (applicationsTable w1 !! selectedApplication st))
    by exact Hex.
  destruct (serve_success_full toISOString dateOfString sv req w1
              (selectedApplication st) (toISOString s)
              (Some link) (Js.or_str eventId None) []
              ltac:(discriminate) eq_refl Happ eq_refl Hiso Hex1 (Hok _)
              Hresolve)
    as (w' & Hserve & Hrows & Hout & _).
  simpl ScheduleInterview.successText in Hserve.
  eexists _, w'. split; [|split; [exact Hrows|]].
  - unfold mutate, mutationFn.
    rewrite Hdate, Happ, Htime, Hfind, Hs, Hd, Hconn, Hmeet.
    cbn [negb orb andb addMinutes].
    rewrite (timeClip_representable _ Hrange).
    unfold mbind at 1. unfold M_bind at 1. cbv beta. rewrite Hevent.
    simpl isoString. unfold mbind, M_bind, mret, M_ret, invoke.
    rewrite Hsched. fold req. unfold mbind, M_bind. rewrite Hserve.
    reflexivity.
  - split; [reflexivity|]. split; [reflexivity|].
    rewrite Hout. simpl. rewrite <- app_assoc. reflexivity.
Qed.

Lemma meet_link_witness :
  exists row w',
    interviewsTable w' = [row] /\
    meeting_url row = Some "https://meet.example/xyz" /\
    Forall (fun c => isTeamsCall c = false) (outbox w').
Proof.
  destruct (meet_link_reaches_the_stored_interview 0 Sample.toISOString
              Sample.parseISO
              (Sample.services true
                 (FetchOk (Some "event-9", None, Some "https://meet.example/xyz")))
              Sample.chosen Sample.world
              (TimeValue Sample.monday) Sample.application
              (Sample.monday + 9 * msPerHour) 60
              "user-1" "https://meet.example/xyz" Sample.credential
              (Some "event-9") None
              eq_refl eq_refl eq_refl eq_refl eq_refl eq_refl
              ltac:(unfold representable, maxTime, Sample.monday, msPerHour,
                      msPerMinute; lia)
              eq_refl eq_refl
              eq_refl eq_refl eq_refl eq_refl eq_refl eq_refl eq_refl eq_refl
              ltac:(vm_compute; eauto) (fun _ => eq_refl))
    as (row & w' & _ & H2 & H3 & _ & H5).
  exists row, w'. split; [exact H2|]. split; [exact H3|].
  rewrite H5. repeat constructor.
Defined.

(** ** The helpers of auto-process-application *)

Lemma toLowerCase_app (a b : string) :
  AutoProcess.toLowerCase (a ++ b)
  = AutoProcess.toLowerCase a ++ AutoProcess.toLowerCase b.
Proof.
  induction a as [|c a IH]; [reflexivity|].
  change (String c a ++ b) with (String c (a ++ b)).
  simpl. rewrite IH. reflexivity.
Qed.

Lemma endsWith_cons (c : ascii) (s t : string) :
  AutoProcess.endsWith (String c s) t
  = if String.eqb (String c s) t then true else AutoProcess.endsWith s t.
Proof. reflexivity. Qed.

Lemma string_length_app (a b : string) :
  String.length (a ++ b) = (String.length a + String.length b)%nat.
Proof.
  induction a as [|c a IH]; [reflexivity|].
  change (String c a ++ b) with (String c (a ++ b)).
  simpl. rewrite IH. reflexivity.
Qed.

(** A suffix no longer than [e] is looked for in [e] alone. *)
Lemma endsWith_longer (p e t : string) :
  (String.length t <= String.length e)%nat ->
  AutoProcess.endsWith (p ++ e) t = AutoProcess.endsWith e t.
Proof.
  intros Hlen. induction p as [|c p IH]; [reflexivity|].
  change (String c p ++ e) with (String c (p ++ e)).
  rewrite endsWith_cons.
  destruct (String.eqb (String c (p ++ e)) t) eqn:Heq; [|exact IH].
  apply String.eqb_eq in Heq.
  apply (f_equal String.length) in Heq. simpl in Heq.
  rewrite string_length_app in Heq. lia.
Qed.

(** X23: the extension decides the mime type, in any letter case and
    whatever comes before it: .pdf gives application/pdf, .png image/png,
    .jpg and .jpeg image/jpeg, .webp image/webp; and every answer is one of
    these four types. *)
Theorem extension_decides_the_mime_type (stem ext mime : string) :
  In (AutoProcess.toLowerCase ext, mime)
     [ (".pdf", "application/pdf"); (".png", "image/png");
       (".jpg", "image/jpeg"); (".jpeg", "image/jpeg");
       (".webp", "image/webp") ] ->
  AutoProcess.guessMimeType (stem ++ ext) = mime
  /\ In (AutoProcess.guessMimeType stem)
        [ "application/pdf"; "image/png"; "image/jpeg"; "image/webp" ].
Proof.
  intros Hext. split.
  - unfold AutoProcess.guessMimeType. rewrite toLowerCase_app.
    simpl in Hext.
    destruct Hext as [H|[H|[H|[H|[H|[]]]]]]; injection H as Hlow <-;
      rewrite <- Hlow; repeat (rewrite endsWith_longer by (simpl; lia));
      reflexivity.
  - unfold AutoProcess.guessMimeType.
    repeat match goal with
           | |- context [if ?b then _ else _] => destruct b
           end; simpl; tauto.
Qed.

Lemma extension_witness :
  AutoProcess.guessMimeType "Resumes/Ada Lovelace.PnG" = "image/png"
  /\ In (AutoProcess.guessMimeType "Resumes/Ada Lovelace")
        [ "application/pdf"; "image/png"; "image/jpeg"; "image/webp" ].
Proof.
  apply (extension_decides_the_mime_type "Resumes/Ada Lovelace" ".PnG"
           "image/png").
  simpl. tauto.
Defined.

Lemma fromCharCode_app (a b : list Byte.byte) :
  AutoProcess.fromCharCode (a ++ b)%list
  = AutoProcess.fromCharCode a ++ AutoProcess.fromCharCode b.
Proof.
  induction a as [|x a IH]; [reflexivity|].
  change (AutoProcess.fromCharCode ((x :: a) ++ b)%list)
    with (String (Ascii.ascii_of_byte x) (AutoProcess.fromCharCode (a ++ b)%list)).
  rewrite IH. reflexivity.
Qed.

Lemma string_app_nil_r (s : string) : s ++ "" = s.
Proof.
  induction s as [|c s IH]; [reflexivity|].
  change (String c s ++ "") with (String c (s ++ "")). rewrite IH. reflexivity.
Qed.

Lemma string_app_assoc (a b c : string) : (a ++ b) ++ c = a ++ (b ++ c).
Proof.
  induction a as [|x a IH]; [reflexivity|].
  change ((String x a ++ b) ++ c) with (String x ((a ++ b) ++ c)).
  rewrite IH. reflexivity.
Qed.

Lemma chunkSize_positive : (0 < AutoProcess.chunkSize)%nat.
Proof. unfold AutoProcess.chunkSize. lia. Qed.

(** The loop collects what is left of the bytes from [i] on, when it has
    rounds enough. *)
Lemma chunkLoop_collects (bytes : list Byte.byte) (fuel : nat) :
  forall (i : nat) (binary : string),
    (length bytes - i <= fuel)%nat ->
    AutoProcess.chunkLoop fuel i bytes binary
    = binary ++ AutoProcess.fromCharCode (drop i bytes).
Proof.
  pose proof chunkSize_positive as Hpos.
  induction fuel as [|fuel IH]; intros i binary Hfuel.
  - simpl. rewrite drop_ge by lia. symmetry. apply string_app_nil_r.
  - cbn [AutoProcess.chunkLoop].
    destruct (Nat.ltb_spec i (length bytes)) as [Hlt|Hge].
    + rewrite IH by lia. rewrite string_app_assoc. f_equal.
      rewrite <- fromCharCode_app. f_equal.
      unfold AutoProcess.subarray.
      replace (i + AutoProcess.chunkSize - i)%nat
        with AutoProcess.chunkSize by lia.
      rewrite <- drop_drop. apply take_drop.
    + rewrite drop_ge by lia. symmetry. apply string_app_nil_r.
Qed.

(** X24: the chunked loop of toBase64 hands every byte to the encoder
    exactly once and in order: the result is [btoa] of the string of all the
    bytes, whatever their number. *)
Theorem chunking_encodes_every_byte_once (btoa : string -> string)
    (bytes : list Byte.byte) :
  AutoProcess.toBase64 btoa bytes = btoa (AutoProcess.fromCharCode bytes).
Proof.
  unfold AutoProcess.toBase64.
  rewrite chunkLoop_collects by lia.
  rewrite drop_0. reflexivity.
Qed.

(** ** The auto-process-application function *)

Ltac eff_unfold :=
  unfold mbind, mret, Eff.bind, Eff.ret, Eff.tryCatch, Eff.throw, Eff.step,
    Eff.lift in *.

(** What the extraction block does to the store: it sends no request to
    parse-resume, and it writes at most the text it returns, to the row of
    its candidate. *)
Lemma extraction_run (sv : AutoProcess.Services) (resumeUrl candidateId : string)
    (db : AutoProcess.Db) :
  exists o db' cs,
    AutoProcess.extraction sv resumeUrl candidateId db = (o, db')
    /\ AutoProcess.applications db' = AutoProcess.applications db
    /\ AutoProcess.jobs db' = AutoProcess.jobs db
    /\ AutoProcess.userRoles db' = AutoProcess.userRoles db
    /\ AutoProcess.outbox db' = (AutoProcess.outbox db ++ cs)%list
    /\ Forall (fun c => AutoProcess.isParseRequest c = false) cs
    /\ (AutoProcess.candidates db' = AutoProcess.candidates db
        \/ exists text,
             o = Returned (Some text) /\ Js.truthy text = true
             /\ AutoProcess.candidates db'
                = alter (fun row =>
                     {| AutoProcess.resume_text := Some text;
                        AutoProcess.resume_url := AutoProcess.resume_url row |})
                    candidateId (AutoProcess.candidates db)).
Proof.
  unfold AutoProcess.extraction, AutoProcess.getResumeBytes, AutoProcess.call.
  eff_unfold.
  repeat case_match; simplify_eq; simpl.
  all: eexists _, _, _; split; [reflexivity|]; simpl; rewrite <- ?app_assoc;
    simpl.
  all: split; [reflexivity|]; split; [reflexivity|]; split; [reflexivity|].
  all: split; [first [reflexivity | symmetry; apply app_nil_r]|].
  all: split; [repeat constructor|].
  all: first [left; reflexivity | right; eexists; repeat split; reflexivity].
Qed.

Lemma textKeptOrFilled_alter (m : gmap string AutoProcess.CandidateRow)
    (candidateId text : string) (candidate : AutoProcess.CandidateRow) :
  m !! candidateId = Some candidate ->
  Js.truthy_opt (AutoProcess.resume_text candidate) = false ->
  Js.truthy text = true ->
  forall cid,
    AutoProcess.textKeptOrFilled (m !! cid)
      (alter (fun row =>
                {| AutoProcess.resume_text := Some text;
                   AutoProcess.resume_url := AutoProcess.resume_url row |})
             candidateId m !! cid).
Proof.
  intros Hrow Hnone Htext cid.
  destruct (decide (cid = candidateId)) as [->|Hne].
  - right. exists candidate, text. rewrite lookup_alter_eq, Hrow. auto.
  - left. apply lookup_alter_ne. congruence.
Qed.

(** What follows the check of the caller answers 200 or 404 or throws; it
    leaves applications, jobs and roles alone, never replaces a resume text,
    and asks parse-resume only with a text. *)
Lemma process_run (sv : AutoProcess.Services) (id : string)
    (db : AutoProcess.Db) :
  exists o db' cs,
    AutoProcess.processApplication sv id db = (o, db')
    /\ AutoProcess.applications db' = AutoProcess.applications db
    /\ AutoProcess.jobs db' = AutoProcess.jobs db
    /\ AutoProcess.userRoles db' = AutoProcess.userRoles db
    /\ AutoProcess.outbox db' = (AutoProcess.outbox db ++ cs)%list
    /\ Forall (fun c => AutoProcess.hasText c = true) cs
    /\ (forall cid,
          AutoProcess.textKeptOrFilled (AutoProcess.candidates db !! cid)
            (AutoProcess.candidates db' !! cid))
    /\ (forall r, o = Returned r ->
          AutoProcess.status r = 200 \/ AutoProcess.status r = 404).
Proof.
  unfold AutoProcess.processApplication, AutoProcess.selectApplication.
  eff_unfold.
  destruct (AutoProcess.fetchFault sv) as [e|].
  { exists (Thrown e), db, []. rewrite app_nil_r.
    repeat split; auto; try (left; reflexivity). discriminate. }
  destruct (AutoProcess.applications db !! id) as [application|] eqn:Happ;
    simpl;
    [|exists (Returned (AutoProcess.json 404
                 (AutoProcess.ErrorBody "Application not found"))), db, [];
      rewrite app_nil_r; repeat split; auto; try (left; reflexivity);
      intros r [= <-]; auto].
  destruct (AutoProcess.candidates db
              !! AutoProcess.candidate_id application)
    as [candidate|] eqn:Hcand; simpl;
    [|exists (Returned (AutoProcess.json 404
                 (AutoProcess.ErrorBody "Application not found"))), db, [];
      rewrite app_nil_r; repeat split; auto; try (left; reflexivity);
      intros r [= <-]; auto].
  destruct (AutoProcess.jobs db !! AutoProcess.job_id application)
    as [job|] eqn:Hjob; simpl;
    [|exists (Returned (AutoProcess.json 404
                 (AutoProcess.ErrorBody "Application not found"))), db, [];
      rewrite app_nil_r; repeat split; auto; try (left; reflexivity);
      intros r [= <-]; auto].
  set (candidateId := AutoProcess.candidate_id application) in *.
  destruct (negb (Js.truthy_opt (AutoProcess.resume_text candidate))
            && Js.truthy_opt (AutoProcess.resume_url candidate)
            && Js.truthy candidateId) eqn:Hcond.
  - apply andb_prop in Hcond as [Hcond _].
    apply andb_prop in Hcond as [Hnone _].
    apply negb_true_iff in Hnone.
    destruct (extraction_run sv
                (default "" (AutoProcess.resume_url candidate)) candidateId db)
      as (o & db1 & cs & Hrun & Happs & Hjobs & Hroles & Hout & Hcs & Hcands).
    rewrite Hrun.
    assert (Hsilent : Forall (fun c => AutoProcess.hasText c = true) cs).
    { eapply Forall_impl; [exact Hcs|]. intros [] Hc; try reflexivity.
      discriminate Hc. }
    assert (Hkept : forall cid,
              AutoProcess.textKeptOrFilled (AutoProcess.candidates db !! cid)
                (AutoProcess.candidates db1 !! cid)).
    { intros cid. destruct Hcands as [->|(text & _ & Htext & ->)].
      - left. reflexivity.
      - apply (textKeptOrFilled_alter _ _ _ candidate); assumption. }
    destruct o as [[[|c rest]|]|e].
    + exists (Returned (AutoProcess.json 200
                (AutoProcess.Unprocessed AutoProcess.noResumeText))), db1, cs.
      repeat split; auto. intros r [= <-]; auto.
    + unfold AutoProcess.call.
      destruct (AutoProcess.parseResume sv (String c rest)) as [data|e];
        eexists _, _, (cs ++ [_])%list;
        (split; [reflexivity|]); simpl; rewrite Hout, <- app_assoc;
        repeat split; auto;
        try (apply Forall_app; split; [exact Hsilent|repeat constructor]);
        try discriminate.
      intros r [= <-]; auto.
    + exists (Returned (AutoProcess.json 200
                (AutoProcess.Unprocessed AutoProcess.noResumeText))), db1, cs.
      repeat split; auto. intros r [= <-]; auto.
    + destruct (AutoProcess.resume_text candidate) as [[|c rest]|];
        try discriminate Hnone;
        exists (Returned (AutoProcess.json 200
                  (AutoProcess.Unprocessed AutoProcess.noResumeText))), db1, cs;
        repeat split; auto; intros r [= <-]; auto.
  - destruct (AutoProcess.resume_text candidate) as [[|c rest]|].
    + exists (Returned (AutoProcess.json 200
                (AutoProcess.Unprocessed AutoProcess.noResumeText))), db, [].
      rewrite app_nil_r. repeat split; auto; try (left; reflexivity).
      intros r [= <-]; auto.
    + unfold AutoProcess.call.
      destruct (AutoProcess.parseResume sv (String c rest)) as [data|e];
        eexists _, _, [_];
        (split; [reflexivity|]); simpl;
        repeat split; auto; try (left; reflexivity); try discriminate.
      intros r [= <-]; auto.
    + exists (Returned (AutoProcess.json 200
                (AutoProcess.Unprocessed AutoProcess.noResumeText))), db, [].
      rewrite app_nil_r. repeat split; auto; try (left; reflexivity).
      intros r [= <-]; auto.
Qed.

Lemma isAuthenticated_run (sv : AutoProcess.Services)
    (req : AutoProcess.Request) (db : AutoProcess.Db) :
  exists b,
    AutoProcess.isAuthenticated sv req db = (Returned b, db)
    /\ (b = true <-> AutoProcess.hrCaller sv db req).
Proof.
  unfold AutoProcess.isAuthenticated, AutoProcess.selectRoles,
    AutoProcess.hrCaller.
  eff_unfold.
  destruct (AutoProcess.authorization req) as [authHeader|];
    [|exists false; split; [reflexivity|]; split; [discriminate|];
      intros (? & ? & ? & ? & [=] & _)].
  destruct (Js.truthy authHeader && String.prefix "Bearer " authHeader)
    eqn:Hbearer.
  - apply andb_prop in Hbearer as [_ Hprefix].
    destruct (AutoProcess.getUser sv authHeader) as [userId|] eqn:Huser;
      [|exists false; split; [reflexivity|]; split; [discriminate|];
        intros (? & ? & ? & ? & [= <-] & _ & Hu & _); congruence].
    destruct (AutoProcess.rolesFault sv) eqn:Hfault;
      [exists false; split; [reflexivity|]; split; [discriminate|];
       intros (? & ? & ? & ? & _ & _ & _ & [=] & _)|].
    destruct (AutoProcess.userRoles db !! userId) as [[|role roles]|]
      eqn:Hroles; simpl.
    + exists false. split; [reflexivity|]. split; [discriminate|].
      intros (? & ? & ? & ? & [= <-] & _ & Hu & _ & Hr). congruence.
    + exists true. split; [reflexivity|]. split; [|reflexivity].
      intros _. exists authHeader, userId, role, roles. auto.
    + exists false. split; [reflexivity|]. split; [discriminate|].
      intros (? & ? & ? & ? & [= <-] & _ & Hu & _ & Hr). congruence.
  - exists false. split; [reflexivity|]. split; [discriminate|].
    intros (h & ? & ? & ? & [= <-] & Hprefix & _).
    rewrite Hprefix, andb_true_r in Hbearer.
    destruct authHeader; [discriminate Hprefix|discriminate Hbearer].
Qed.

Lemma auto_serve_not_options (sv : AutoProcess.Services)
    (req : AutoProcess.Request) :
  AutoProcess.method req <> "OPTIONS" ->
  AutoProcess.serve sv req
  = Eff.tryCatch (AutoProcess.handle sv req)
      (fun e => mret (AutoProcess.json 500
                        (AutoProcess.ErrorBody (errorMessage e)))).
Proof.
  intros Hmethod. unfold AutoProcess.serve.
  destruct (String.eqb_spec (AutoProcess.method req) "OPTIONS"); congruence.
Qed.



(** X26: auto-process-application always answers (never throws), and it
    never replaces a resume text: the [resume_text] and [resume_url] of every
    candidate are as before, or the candidate had no text and gets a
    non-empty one; and parse-resume is only ever asked with a non-empty
    resume text. *)
Theorem resume_text_is_never_replaced (sv : AutoProcess.Services)
    (req : AutoProcess.Request) (db : AutoProcess.Db) :
  exists r db' cs,
    AutoProcess.serve sv req db = (Returned r, db')
    /\ (forall cid,
          AutoProcess.textKeptOrFilled (AutoProcess.candidates db !! cid)
            (AutoProcess.candidates db' !! cid))
    /\ AutoProcess.outbox db' = (AutoProcess.outbox db ++ cs)%list
    /\ Forall (fun c => AutoProcess.hasText c = true) cs.
Proof.
  assert (Hstill : forall r : AutoProcess.Response,
            exists r' db' cs,
              (Returned r, db) = (Returned r', db')
              /\ (forall cid,
                    AutoProcess.textKeptOrFilled
                      (AutoProcess.candidates db !! cid)
                      (AutoProcess.candidates db' !! cid))
              /\ AutoProcess.outbox db' = (AutoProcess.outbox db ++ cs)%list
              /\ Forall (fun c => AutoProcess.hasText c = true) cs).
  { intros r. exists r, db, []. rewrite app_nil_r.
    repeat split; auto. intros cid. left. reflexivity. }
  unfold AutoProcess.serve.
  destruct (String.eqb (AutoProcess.method req) "OPTIONS"); [apply Hstill|].
  unfold AutoProcess.handle.
  destruct (AutoProcess.applicationId req) as [[|c rest]|];
    try apply Hstill.
  destruct (isAuthenticated_run sv req db) as (b & Hauth & _).
  eff_unfold. rewrite Hauth.
  destruct (negb b && negb (negb (Js.truthy_opt (AutoProcess.authorization req))));
    [apply Hstill|].
  destruct (process_run sv (String c rest) db)
    as (o & db1 & cs & Hrun & _ & _ & _ & Hout & Hcs & Hcands & _).
  rewrite Hrun. destruct o as [r|e]; eexists _, db1, cs;
    (split; [reflexivity|]); auto 10.
Qed.

Lemma auto_handle_internal (sv : AutoProcess.Services)
    (req : AutoProcess.Request) (id : string) (db : AutoProcess.Db) :
  AutoProcess.applicationId req = Some id ->
  Js.truthy id = true ->
  AutoProcess.authorization req = None ->
  AutoProcess.handle sv req db = AutoProcess.processApplication sv id db.
Proof.
  intros Hid Htruthy Hauth. unfold AutoProcess.handle, AutoProcess.isAuthenticated.
  rewrite Hid, Hauth. destruct id as [|c rest]; [discriminate|].
  reflexivity.
Qed.

(** X27: a call of the database trigger for an application whose candidate
    has a stored resume and no resume text yet, when everything answers:
    the file is downloaded from the bucket under its path, the model gets
    it as a data URL with the mime type of the path's extension and the
    encoding of all its bytes, the text it gives is stored on the candidate
    and handed to parse-resume with the application and the job's
    requirements, and the answer is what parse-resume gave. *)
Theorem uploaded_resume_is_read_stored_and_scored
    (sv : AutoProcess.Services) (req : AutoProcess.Request)
    (db : AutoProcess.Db) (id : string)
    (application : AutoProcess.ApplicationRow)
    (candidate : AutoProcess.CandidateRow) (job : AutoProcess.JobRow)
    (path key text parseData : string) (bytes : list Byte.byte) :
  AutoProcess.method req <> "OPTIONS" ->
  AutoProcess.applicationId req = Some id ->
  Js.truthy id = true ->
  AutoProcess.authorization req = None ->
  AutoProcess.fetchFault sv = None ->
  AutoProcess.applications db !! id = Some application ->
  AutoProcess.candidates db !! AutoProcess.candidate_id application
  = Some candidate ->
  AutoProcess.jobs db !! AutoProcess.job_id application = Some job ->
  Js.truthy (AutoProcess.candidate_id application) = true ->
  Js.truthy_opt (AutoProcess.resume_text candidate) = false ->
  AutoProcess.resume_url candidate = Some path ->
  Js.truthy path = true ->
  String.prefix "http" path = false ->
  AutoProcess.aiapiApiKey sv = Some key ->
  Js.truthy key = true ->
  AutoProcess.download sv path = AutoProcess.DownloadData bytes ->
  let dataUrl :=
    "data:" ++ AutoProcess.guessMimeType path ++ ";base64,"
    ++ AutoProcess.btoa sv (AutoProcess.fromCharCode bytes) in
  AutoProcess.extractText sv dataUrl = HttpOk (Some text) ->
  Js.truthy text = true ->
  AutoProcess.saveFault sv = None ->
  AutoProcess.parseResume sv text = inl parseData ->
  exists db',
    AutoProcess.serve sv req db
    = (Returned (AutoProcess.json 200 (AutoProcess.Parsed parseData)), db')
    /\ AutoProcess.candidates db'
       = <[AutoProcess.candidate_id application :=
             {| AutoProcess.resume_text := Some text;
                AutoProcess.resume_url := Some path |}]>
           (AutoProcess.candidates db)
    /\ AutoProcess.outbox db'
       = (AutoProcess.outbox db
          ++ [ AutoProcess.StorageDownload path;
               AutoProcess.ExtractText key dataUrl;
               AutoProcess.ParseResume text id (AutoProcess.requirements job) ])%list
    /\ AutoProcess.applications db' = AutoProcess.applications db
    /\ AutoProcess.jobs db' = AutoProcess.jobs db
    /\ AutoProcess.userRoles db' = AutoProcess.userRoles db.
Proof.
  intros Hmethod Hid Htruthy Hauth Hfetch Happ Hcand Hjob Hcid Hnone Hurl
    Hpath Hhttp Hkey Hkeyt Hdown dataUrl Hai Htext Hsave Hparse.
  rewrite auto_serve_not_options by exact Hmethod.
  unfold Eff.tryCatch.
  rewrite (auto_handle_internal sv req id db Hid Htruthy Hauth).
  unfold AutoProcess.processApplication, AutoProcess.selectApplication.
  eff_unfold. rewrite Hfetch, Happ. simpl. rewrite Hcand. simpl.
  rewrite Hjob. simpl. rewrite Hnone, Hurl, Hcid. simpl.
  rewrite Hpath. simpl.
  unfold AutoProcess.extraction. rewrite Hkey.
  destruct key as [|k0 krest]; [discriminate|].
  unfold AutoProcess.getResumeBytes. rewrite Hhttp.
  destruct path as [|p0 prest]; [discriminate|].
  unfold AutoProcess.call. eff_unfold. rewrite Hdown.
  unfold AutoProcess.toBase64. rewrite chunkLoop_collects by lia.
  rewrite drop_0.
  change ("" ++ AutoProcess.fromCharCode bytes)
    with (AutoProcess.fromCharCode bytes).
  fold dataUrl. rewrite Hai.
  destruct text as [|t0 trest]; [discriminate|].
  rewrite Hsave, Hparse.
  eexists. split; [reflexivity|]. simpl.
  repeat split; try reflexivity.
  - apply map_eq. intros cid.
    destruct (decide (cid = AutoProcess.candidate_id application)) as [->|Hne].
    + rewrite lookup_alter_eq, lookup_insert_eq, Hcand. simpl.
      rewrite Hurl. reflexivity.
    + rewrite lookup_alter_ne, lookup_insert_ne by congruence. reflexivity.
  - rewrite <- !app_assoc. reflexivity.
Qed.

Lemma uploaded_resume_witness :
  exists db',
    AutoProcess.serve Sample.autoServices Sample.triggerRequest Sample.autoDb
    = (Returned (AutoProcess.json 200 (AutoProcess.Parsed "score 87")), db')
    /\ AutoProcess.candidates db'
       = <["cand-1" :=
             {| AutoProcess.resume_text := Some "Ada Lovelace, mathematician";
                AutoProcess.resume_url := Some "cv/ada.PDF" |}]>
           (AutoProcess.candidates Sample.autoDb)
    /\ AutoProcess.outbox db'
       = (AutoProcess.outbox Sample.autoDb
          ++ [ AutoProcess.StorageDownload "cv/ada.PDF";
               AutoProcess.ExtractText "key" "data:application/pdf;base64,%PDF";
               AutoProcess.ParseResume "Ada Lovelace, mathematician" "app-1"
                 (Some "Analysis") ])%list
    /\ AutoProcess.applications db' = AutoProcess.applications Sample.autoDb
    /\ AutoProcess.jobs db' = AutoProcess.jobs Sample.autoDb
    /\ AutoProcess.userRoles db' = AutoProcess.userRoles Sample.autoDb.
Proof.
  apply (uploaded_resume_is_read_stored_and_scored Sample.autoServices
           Sample.triggerRequest Sample.autoDb "app-1"
           {| AutoProcess.candidate_id := "cand-1";
              AutoProcess.job_id := "job-1" |}
           {| AutoProcess.resume_text := None;
              AutoProcess.resume_url := Some "cv/ada.PDF" |}
           {| AutoProcess.requirements := Some "Analysis" |}
           "cv/ada.PDF" "key" "Ada Lovelace, mathematician" "score 87"
           Sample.resumeBytes);
    solve [discriminate | reflexivity].
Defined.

(** When the extraction cannot succeed, the block gives no text, writes
    nothing and sends nothing to parse-resume. *)
Lemma extraction_fails_run (sv : AutoProcess.Services)
    (resumeUrl candidateId : string) (db : AutoProcess.Db) :
  AutoProcess.extractionFails sv ->
  exists o db' cs,
    AutoProcess.extraction sv resumeUrl candidateId db = (o, db')
    /\ AutoProcess.candidates db' = AutoProcess.candidates db
    /\ AutoProcess.outbox db' = (AutoProcess.outbox db ++ cs)%list
    /\ Forall (fun c => AutoProcess.isParseRequest c = false) cs
    /\ (forall content, o = Returned content -> Js.truthy_opt content = false).
Proof.
  intros Hfail.
  unfold AutoProcess.extraction, AutoProcess.getResumeBytes, AutoProcess.call.
  eff_unfold.
  repeat case_match; simplify_eq; simpl.
  all: try (exfalso; destruct Hfail as [Hkey|[[Hdl Hff]|Hai]];
            [ match goal with
              | H : AutoProcess.aiapiApiKey _ = _ |- _ =>
                  rewrite H in Hkey; discriminate Hkey
              end
            | first [ match goal with
                      | H : AutoProcess.download _ ?p = AutoProcess.DownloadData _ |- _ =>
                          destruct (Hdl p) as [m Hm]; congruence
                      end
                    | match goal with
                      | H : AutoProcess.fetchFile _ ?u = HttpOk _ |- _ =>
                          exact (Hff _ _ H)
                      end ]
            | match goal with
              | H : AutoProcess.extractText _ _ = HttpOk (Some _) |- _ =>
                  apply Hai in H; discriminate H
              end ]; fail).
  all: eexists _, _, _; split; [reflexivity|]; simpl; rewrite <- ?app_assoc;
    simpl.
  all: split; [reflexivity|].
  all: split; [first [reflexivity | symmetry; apply app_nil_r]|].
  all: split; [repeat constructor|].
  all: intros content [=]; subst; reflexivity.
Qed.

(** X28: text extraction is best effort.  For a call of the database
    trigger for an application whose candidate has no resume text, when the
    extraction cannot succeed (no key, or no file to be had, or no text from
    the model), the function still answers 200, with success false and the
    no-resume-text message; no candidate is changed and parse-resume is not
    asked. *)
Theorem failed_extraction_is_not_an_error
    (sv : AutoProcess.Services) (req : AutoProcess.Request)
    (db : AutoProcess.Db) (id : string)
    (application : AutoProcess.ApplicationRow)
    (candidate : AutoProcess.CandidateRow) (job : AutoProcess.JobRow) :
  AutoProcess.method req <> "OPTIONS" ->
  AutoProcess.applicationId req = Some id ->
  Js.truthy id = true ->
  AutoProcess.authorization req = None ->
  AutoProcess.fetchFault sv = None ->
  AutoProcess.applications db !! id = Some application ->
  AutoProcess.candidates db !! AutoProcess.candidate_id application
  = Some candidate ->
  AutoProcess.jobs db !! AutoProcess.job_id application = Some job ->
  Js.truthy_opt (AutoProcess.resume_text candidate) = false ->
  AutoProcess.extractionFails sv ->
  exists db' cs,
    AutoProcess.serve sv req db
    = (Returned (AutoProcess.json 200
                   (AutoProcess.Unprocessed AutoProcess.noResumeText)), db')
    /\ AutoProcess.candidates db' = AutoProcess.candidates db
    /\ AutoProcess.outbox db' = (AutoProcess.outbox db ++ cs)%list
    /\ Forall (fun c => AutoProcess.isParseRequest c = false) cs.
Proof.
  intros Hmethod Hid Htruthy Hauth Hfetch Happ Hcand Hjob Hnone Hfail.
  rewrite auto_serve_not_options by exact Hmethod.
  unfold Eff.tryCatch at 1.
  rewrite (auto_handle_internal sv req id db Hid Htruthy Hauth).
  unfold AutoProcess.processApplication, AutoProcess.selectApplication.
  eff_unfold. rewrite Hfetch, Happ. simpl. rewrite Hcand. simpl.
  rewrite Hjob. simpl. rewrite Hnone. simpl.
  destruct (Js.truthy_opt (AutoProcess.resume_url candidate)
            && Js.truthy (AutoProcess.candidate_id application)).
  - destruct (extraction_fails_run sv
                (default "" (AutoProcess.resume_url candidate))
                (AutoProcess.candidate_id application) db Hfail)
      as (o & db1 & cs & Hrun & Hcands & Hout & Hcs & Hnotext).
    rewrite Hrun. exists db1, cs.
    destruct o as [content|e].
    + specialize (Hnotext content eq_refl).
      destruct content as [[|c rest]|]; try discriminate Hnotext; auto.
    + destruct (AutoProcess.resume_text candidate) as [[|c rest]|];
        try discriminate Hnone; auto.
  - exists db, []. rewrite app_nil_r.
    destruct (AutoProcess.resume_text candidate) as [[|c rest]|];
      try discriminate Hnone; auto.
Qed.

Lemma failed_extraction_witness :
  exists db' cs,
    AutoProcess.serve Sample.autoServicesWithoutText Sample.triggerRequest
      Sample.autoDb
    = (Returned (AutoProcess.json 200
                   (AutoProcess.Unprocessed AutoProcess.noResumeText)), db')
    /\ AutoProcess.candidates db' = AutoProcess.candidates Sample.autoDb
    /\ AutoProcess.outbox db' = (AutoProcess.outbox Sample.autoDb ++ cs)%list
    /\ Forall (fun c => AutoProcess.isParseRequest c = false) cs.
Proof.
  apply (failed_extraction_is_not_an_error Sample.autoServicesWithoutText
           Sample.triggerRequest Sample.autoDb "app-1"
           {| AutoProcess.candidate_id := "cand-1";
              AutoProcess.job_id := "job-1" |}
           {| AutoProcess.resume_text := None;
              AutoProcess.resume_url := Some "cv/ada.PDF" |}
           {| AutoProcess.requirements := Some "Analysis" |});
    try solve [discriminate | reflexivity].
  right. right. intros dataUrl text Hanswer. discriminate Hanswer.
Defined.

(** ** The send-offer-letter function *)

Lemma offer_serve_not_options (sv : SendOfferLetter.Services)
    (req : SendOfferLetter.Request) :
  SendOfferLetter.method req <> "OPTIONS" ->
  SendOfferLetter.serve sv req
  = Eff.tryCatch (SendOfferLetter.handle sv req)
      (fun e => mret (SendOfferLetter.json 500
                        (SendOfferLetter.ErrorBody (errorMessage e)))).
Proof.
  intros Hmethod. unfold SendOfferLetter.serve.
  destruct (String.eqb_spec (SendOfferLetter.method req) "OPTIONS");
    congruence.
Qed.

(** The header the function works with is the one of the request, when it
    begins with the bearer prefix. *)
Lemma bearer_header (o : option string) :
  String.prefix "Bearer " (default "" (Js.or_str o (Some ""))) = true ->
  o = Some (default "" (Js.or_str o (Some ""))).
Proof.
  destruct o as [[|c rest]|]; simpl; try discriminate. reflexivity.
Qed.

(** X29: send-offer-letter does nothing for a caller who is not HR staff:
    unless the request carries the bearer token of a user who has a role
    (and the role check answers), it is answered 401, 403 or 500 with an
    error, no letter is sent, and no table, log or letter is changed. *)
Theorem only_hr_staff_can_send_an_offer (sv : SendOfferLetter.Services)
    (req : SendOfferLetter.Request) (db : SendOfferLetter.Db) :
  SendOfferLetter.method req <> "OPTIONS" ->
  ~ SendOfferLetter.hrCaller sv db req ->
  exists code text,
    SendOfferLetter.serve sv req db
    = (Returned (SendOfferLetter.json code (SendOfferLetter.ErrorBody text)),
       db)
    /\ (code = 401 \/ code = 403 \/ code = 500).
Proof.
  intros Hmethod Hnot.
  rewrite offer_serve_not_options by exact Hmethod.
  unfold SendOfferLetter.handle, SendOfferLetter.isHrStaff.
  eff_unfold.
  set (authHeader := default "" (Js.or_str (SendOfferLetter.authorization req)
                                   (Some ""))) in *.
  destruct (String.prefix "Bearer " authHeader) eqn:Hprefix; simpl;
    [|eexists _, _; split; [reflexivity|auto]].
  destruct (SendOfferLetter.getUser sv
              (SendOfferLetter.trim
                 (GoogleCalendar.replaceFirst "Bearer " "" authHeader)))
    as [userId|] eqn:Huser;
    [|eexists _, _; split; [reflexivity|auto]].
  destruct (SendOfferLetter.roleFault sv) eqn:Hfault;
    [eexists _, _; split; [reflexivity|auto]|].
  destruct (SendOfferLetter.userRoles db !! userId) as [[|role roles]|]
    eqn:Hroles;
    try (eexists _, _; split; [reflexivity|auto]; fail).
  exfalso. apply Hnot. exists authHeader, userId, role, roles.
  split; [apply bearer_header; exact Hprefix|]. auto.
Qed.

Lemma only_hr_staff_witness :
  exists code text,
    SendOfferLetter.serve (Sample.offerServices (Some "key") (HttpOk tt))
      Sample.visitorOfferRequest Sample.offerDb
    = (Returned (SendOfferLetter.json code (SendOfferLetter.ErrorBody text)),
       Sample.offerDb)
    /\ (code = 401 \/ code = 403 \/ code = 500).
Proof.
  apply (only_hr_staff_can_send_an_offer
           (Sample.offerServices (Some "key") (HttpOk tt))
           Sample.visitorOfferRequest Sample.offerDb);
    [discriminate|].
  intros (authHeader & userId & role & roles & Hheader & _ & Huser & _ & Hroles).
  injection Hheader as <-. vm_compute in Huser. injection Huser as <-.
  vm_compute in Hroles. discriminate Hroles.
Defined.





